(** * sasctl.pzmm.write_score_code: the score-code generator and the
      MAS-to-CAS converter

    A shallow embedding of [ScoreCode] (src/sasctl/pzmm/write_score_code.py).
    The generator appends text fragments to the class attribute
    [score_code]; the embedding threads that attribute, the local disk, the
    calls made to the model repository and the warnings through an explicit
    [world], and Python exceptions through a sum.  A raised exception leaves
    the [world] it was raised in, as the class attribute outlives the call. *)

From Stdlib Require Import String Ascii List ZArith Lia Bool DecimalString.
Import ListNotations.
Open Scope string_scope.

(** ** Python text primitives used by the generator *)

Module Py.

Definition nl : string := String (ascii_of_nat 10) "".
Definition dq : string := String (ascii_of_nat 34) "".
Definition sq : string := String (ascii_of_nat 39) "".
Definition bs : string := String (ascii_of_nat 92) "".

(** f"{'':n}": the empty string padded to width [n]. *)
Fixpoint pad (n : nat) : string :=
  match n with
  | O => ""
  | S k => String " " (pad k)
  end.

(** str(i) for an int. *)
Definition str_of_nat (n : nat) : string :=
  NilEmpty.string_of_uint (Nat.to_uint n).

Definition str_of_Z (z : Z) : string :=
  NilEmpty.string_of_int (Z.to_int z).

(** sep.join(l) *)
Definition join (sep : string) (l : list string) : string :=
  String.concat sep l.

(** s.startswith(k) *)
Fixpoint startswith (k s : string) : bool :=
  match k, s with
  | EmptyString, _ => true
  | String a k', String b s' => Ascii.eqb a b && startswith k' s'
  | String _ _, EmptyString => false
  end.

(** k in s *)
Fixpoint contains (k s : string) : bool :=
  startswith k s ||
  match s with
  | EmptyString => false
  | String _ s' => contains k s'
  end.

(** s.find(k): the lowest index of an occurrence, -1 when there is none. *)
Fixpoint find_from (k s : string) (i : Z) : Z :=
  if startswith k s then i
  else match s with
       | EmptyString => (-1)%Z
       | String _ s' => find_from k s' (i + 1)%Z
       end.

Definition find (k s : string) : Z := find_from k s 0%Z.

(** Slice bounds: a negative index counts from the end, and the result is
    clipped to the text. *)
Definition clip (n i : Z) : Z :=
  if (i <? 0)%Z then Z.max 0 (i + n) else Z.min i n.

(** s[a:b] *)
Definition slice (s : string) (a b : Z) : string :=
  let n := Z.of_nat (String.length s) in
  let a' := clip n a in
  let b' := clip n b in
  substring (Z.to_nat a') (Z.to_nat (b' - a')) s.

(** s[a:] *)
Definition slice_from (s : string) (a : Z) : string :=
  slice s a (Z.of_nat (String.length s)).

(** s.split(c) for a one-character separator: empty fields are kept. *)
Fixpoint split (c : ascii) (s : string) : list string :=
  match s with
  | EmptyString => [""]
  | String x s' =>
      match split c s' with
      | w :: ws => if Ascii.eqb x c then "" :: w :: ws else String x w :: ws
      | [] => [String x ""]
      end
  end.

(** The characters of a text, each as a text: iterating over a str. *)
Fixpoint chars (s : string) : list string :=
  match s with
  | EmptyString => []
  | String c s' => String c "" :: chars s'
  end.

(** [re.compile("|".join(map(re.escape, keys))).sub(lambda m: table[m], s)]
    for non-empty literal keys: the text is scanned from the left; where
    some key matches, the first such key in the alternation is replaced
    by its value and the scan resumes after the match; any other
    character is copied. [skip] counts the characters of a match still
    to be passed over. *)
Fixpoint first_match (rules : list (string * string)) (s : string)
  : option (string * string) :=
  match rules with
  | [] => None
  | (k, v) :: rest =>
      if startswith k s then Some (k, v) else first_match rest s
  end.

Fixpoint sub_scan (rules : list (string * string)) (skip : nat) (s : string)
  : string :=
  match s with
  | EmptyString => ""
  | String c s' =>
      match skip with
      | S n => sub_scan rules n s'
      | O =>
          match first_match rules s with
          | Some (k, v) => v ++ sub_scan rules (String.length k - 1) s'
          | None => String c (sub_scan rules 0 s')
          end
      end
  end.

Definition re_sub (rules : list (string * string)) (s : string) : string :=
  sub_scan rules 0 s.

(** Truth value and str() of an optional str argument. *)
Definition truthy_str (s : string) : bool := negb (s =? "").

Definition truthy_opt (o : option string) : bool :=
  match o with
  | Some s => truthy_str s
  | None => false
  end.

Definition str_opt (o : option string) : string :=
  match o with
  | Some s => s
  | None => "None"
  end.

(** An argument the generator only tests for truth and formats with
    str(): the prediction threshold, the embedded binary string. *)
Record pyobj := mk_pyobj { py_bool : bool; py_str : string }.

Definition truthy_obj (o : option pyobj) : bool :=
  match o with
  | Some x => py_bool x
  | None => false
  end.

(** A target value: an int or a str. *)
Inductive pyval :=
| PyInt (z : Z)
| PyStr (s : string).

(** The parts of the Python runtime the generator calls and this
    development leaves open: str.isidentifier, repr and int on a str,
    and str(Path(name).with_suffix('.zip')). [None] stands for the
    ValueError the call raises. *)
Class Runtime := {
  isidentifier : string -> bool;
  repr_str : string -> string;
  int_of_str : string -> option Z;
  with_suffix_zip : string -> option string
}.

Section WithRuntime.
Context {rt : Runtime}.

Definition repr (v : pyval) : string :=
  match v with
  | PyInt z => str_of_Z z
  | PyStr s => repr_str s
  end.

Definition int_of (v : pyval) : option Z :=
  match v with
  | PyInt z => Some z
  | PyStr s => int_of_str s
  end.

(** repr of a list: f"{target_values}" *)
Definition repr_list {A : Type} (r : A -> string) (l : list A) : string :=
  "[" ++ join ", " (map r l) ++ "]".
End WithRuntime.

End Py.

Import Py.

(** ** Exceptions, the world and the generator's monad *)

Inductive exn :=
| ValueError (msg : string)
| SyntaxError (msg : string)
| TypeError (msg : string)
| IndexError (msg : string)
| KeyError (msg : string)
| UnboundLocalError (msg : string).

(** One call to the model repository client ([mr]) that changes the
    repository: add_model_content, copy_python_resources,
    convert_python_to_ds2 and update_model. What the client only reads
    (get_model, get_model_contents, get) is looked up in the
    [environment] below and leaves no entry. *)
Inductive remote_call :=
| AddModelContent (model name file role : string)
| CopyPythonResources (model : string)
| ConvertPythonToDs2 (model : string)
| UpdateModel (model score_code_type : string).

Record world := mk_world {
  score_code : string;                 (* ScoreCode.score_code *)
  disk : list (string * string);       (* files written: path, content *)
  remote : list remote_call;           (* changes sent to the repository, oldest first *)
  warnings : list string
}.

(** [score_code = ""] in the class body. *)
Definition initial_world : world := mk_world "" [] [] [].

Definition M (A : Type) : Type := world -> (exn + A) * world.

Definition ret {A : Type} (a : A) : M A := fun w => (inr a, w).

Definition bind {A B : Type} (c : M A) (k : A -> M B) : M B :=
  fun w =>
    match c w with
    | (inr a, w') => k a w'
    | (inl e, w') => (inl e, w')
    end.

Definition raise {A : Type} (e : exn) : M A := fun w => (inl e, w).

Declare Scope py_scope.
Delimit Scope py_scope with py.
Notation "x <- c ;; k" := (bind c (fun x => k))
  (at level 61, c at next level, right associativity) : py_scope.
Notation "c ;; k" := (bind c (fun _ => k))
  (at level 61, right associativity) : py_scope.
Open Scope py_scope.

Definition append_code (w : world) (text : string) : world :=
  mk_world (score_code w ++ text) (disk w) (remote w) (warnings w).

Definition add_warning (w : world) (msg : string) : world :=
  mk_world (score_code w) (disk w) (remote w) (warnings w ++ [msg]).

(** cls.score_code += text *)
Definition emit (text : string) : M unit :=
  fun w => (inr tt, append_code w text).

Definition warn (msg : string) : M unit :=
  fun w => (inr tt, add_warning w msg).

Definition call_remote (c : remote_call) : M unit :=
  fun w => (inr tt, mk_world (score_code w) (disk w) (remote w ++ [c]) (warnings w)).

(** with open(path, "w") as f: f.write(content) *)
Definition write_file (path content : string) : M unit :=
  fun w => (inr tt, mk_world (score_code w) (disk w ++ [(path, content)]) (remote w) (warnings w)).

Definition read_score_code : M string := fun w => (inr (score_code w), w).

(** for i in range(n): body(i) *)
Fixpoint for_range_from (start n : nat) (body : nat -> M unit) : M unit :=
  match n with
  | O => ret tt
  | S k => body start ;; for_range_from (S start) k body
  end.

Definition for_range (n : nat) (body : nat -> M unit) : M unit :=
  for_range_from 0 n body.

(** for x in xs: body(x) *)
Fixpoint for_each {A : Type} (xs : list A) (body : A -> M unit) : M unit :=
  match xs with
  | [] => ret tt
  | x :: rest => body x ;; for_each rest body
  end.

(** ** The data the generator is called with *)

(** What the generator reads of one DataFrame column: its name, the text
    of its dtype, whether all its values are 0 or 1
    ([data[var].isin([0, 1]).all()]), and then the text of its mode
    ([data[var].mode()[0]]), otherwise the text of its mean. Frames
    without rows, whose mode has no first element, are left out. *)
Inductive column_stats :=
| AllBinary (mode : string)
| NotBinary (mean : string).

Record column := mk_column {
  col_name : string;
  col_dtype : string;
  col_stats : column_stats
}.

(** input_data: a DataFrame, or the list of name/type dicts of an MLFlow
    model. *)
Inductive input_data_t :=
| DataFrame (columns : list column)
| MLFlow (vars : list (string * string)).

(** metrics: a list of names; after flattening, or when the caller passes
    one, a single str. *)
Inductive metrics_t :=
| MStr (name : string)
| MList (names : list string).

(** The keyword arguments the generator looks at. [model_file_name] is a
    named parameter of write_score_code and so never lands in kwargs: the
    branch reading it from there cannot be taken. For the three flags only
    their presence counts. *)
Record kwargs_t := mk_kwargs {
  kw_binary_string : option pyobj;
  kw_mojo_model : bool;
  kw_binary_h2o_model : bool;
  kw_statsmodels_model : bool
}.

Record arguments := mk_arguments {
  model_prefix : string;
  input_data : input_data_t;
  predict_method : string;              (* predict_method.__name__ *)
  metrics : metrics_t;
  model_file_name : option string;
  pickle_type : option string;
  model : option string;
  predict_threshold : option pyobj;
  score_code_path : option string;
  target_values : option (list pyval);
  missing_values : bool;
  score_cas : bool;
  kwargs : kwargs_t
}.

(** The remote side: the session, and the model repository's answers. *)
Inductive viya := Viya35 | ViyaOther.

Record out_var := mk_out_var { ov_name : string; ov_type : string }.

Record model_record := mk_model_record {
  mr_id : string;
  outputVariables : list out_var
}.

Record remote_file := mk_remote_file {
  file_name : string;
  file_text : string    (* mr.get(f"models/{file.modelId}/contents/{file.id}") *)
}.

Record environment := mk_environment {
  current_session : option viya;   (* None: current_session() is None *)
  get_model : string -> option model_record;
  get_model_contents : string -> list remote_file
}.

Definition MAS_CODE_NAME : string := "dmcas_packagescorecode.sas".
Definition CAS_CODE_NAME : string := "dmcas_epscorecode.sas".

Definition no_session_warning : string :=
  "No current session connection was found to a SAS Viya server. Score " ++
  "code will be written under the assumption that the target server is " ++
  "SAS Viya 4.".


(** ** ScoreCode *)

Section ScoreCode.
Context {rt : Runtime}.
Variable env : environment.

(** files: name, file, role *)
Definition upload_and_copy_score_resources
  (model : string) (files : list (string * string * string)) : M unit :=
  for_each files
    (fun '(name, file, role) => call_remote (AddModelContent model name file role)) ;;
  call_remote (CopyPythonResources model).

Definition _get_model_id (model : option string) : M string :=
  if negb (truthy_opt model) then
    raise (ValueError
      ("No model identification was provided. Python score code" ++
       " generation for SAS Viya 3.5 requires the model's UUID."))
  else
    match get_model env (str_opt model) with
    | Some model_response => ret (mr_id model_response)
    | None =>
        raise (ValueError
          "No model could be found using the model argument provided.")
    end.

Definition _check_for_invalid_variable_names (var_list : list string) : M unit :=
  let invalid_variables := filter (fun name => negb (isidentifier name)) var_list in
  if (0 <? List.length invalid_variables)%nat then
    raise (SyntaxError
      ("The following are not valid variable names: " ++
       join ", " invalid_variables ++
       ". Please confirm that all variable names" ++
       " can be used as Python variables. E.g. `str(name).isidentifier() == " ++
       "True`."))
  else ret tt.

Definition _write_imports
  (pickle_type : option string) (mojo_model binary_h2o_model : bool)
  (binary_string : option pyobj) : M unit :=
  let pickle_type := if truthy_opt pickle_type then str_opt pickle_type else "pickle" in
  emit ("import math" ++ nl ++ "import " ++ pickle_type ++ nl ++
        "import pandas as pd" ++ nl ++
        "import numpy as np" ++ nl ++ "from pathlib import Path" ++ nl ++ nl) ;;
  match current_session env with
  | Some Viya35 => ret tt
  | Some ViyaOther => emit ("import settings" ++ nl ++ nl)
  | None => warn no_session_warning
  end ;;
  if mojo_model || binary_h2o_model then
    emit ("import h2o" ++ nl ++ "import gzip" ++ nl ++ "import shutil" ++ nl ++
          "import os" ++ nl ++ nl ++ "h2o.init()" ++ nl ++ nl)
  else
    match binary_string with
    | Some b =>
        if py_bool b then
          emit ("import codecs" ++ nl ++ nl ++
                "binary_string = " ++ dq ++ py_str b ++ dq ++
                nl ++ "model = " ++ pickle_type ++
                ".loads(codecs.decode(binary_string" ++
                ".encode(), " ++ dq ++ "base64" ++ dq ++ "))" ++ nl ++ nl)
        else ret tt
    | None => ret tt
    end.

(** str(Path(model_file_name).with_suffix('.zip')) *)
Definition zip_name (model_file_name : option string) : M string :=
  match model_file_name with
  | None =>
      raise (TypeError "expected str, bytes or os.PathLike object, not NoneType")
  | Some name =>
      match with_suffix_zip name with
      | Some z => ret z
      | None => raise (ValueError "with_suffix: the path has an empty name")
      end
  end.

Definition _viya35_model_load
  (model_id : string) (model_file_name : option string)
  (pickle_type : option string) (mojo_model binary_h2o_model : bool) : M string :=
  let pickle_type := if truthy_opt pickle_type then str_opt pickle_type else "pickle" in
  if mojo_model then
    zip <- zip_name model_file_name ;;
    emit ("model_path = Path(" ++ dq ++ "/models/resources/viya/" ++ model_id ++
          dq ++ ")" ++ nl ++ "with gzip.open(model_path / " ++ dq ++
          str_opt model_file_name ++
          dq ++ ", " ++ dq ++ "r" ++ dq ++ ") as fileIn, open(model_path / " ++
          dq ++ zip ++ dq ++ "," ++
          " " ++ dq ++ "wb" ++ dq ++ ") as fileOut:" ++ nl ++ pad 4 ++
          "shutil.copyfileobj(fileIn," ++
          " fileOut)" ++ nl ++ "os.chmod(model_path / " ++
          dq ++ zip ++ dq ++
          ", 0o777)" ++ nl ++ "model = h2o.import_mojo(model_path / " ++
          dq ++ zip ++ dq ++ ")" ++
          nl ++ nl) ;;
    ret (pad 8 ++ "model = h2o.import_mojo(model_path / " ++ dq ++
         zip ++ dq ++ ")")
  else if binary_h2o_model then
    emit ("model = h2o.load(Path(" ++ dq ++ "/models/resources/viya/" ++
          model_id ++ "/" ++ str_opt model_file_name ++ dq ++ "))" ++ nl ++ nl) ;;
    ret ("        model = h2o.load(Path(" ++ dq ++ "/models/resources/viya/" ++
         model_id ++ "/" ++ str_opt model_file_name ++ dq ++ "))")
  else
    emit ("model_path = Path(" ++ dq ++ "/models/resources/viya/" ++ model_id ++
          dq ++ ")" ++ nl ++ "with open(model_path / " ++ dq ++
          str_opt model_file_name ++ dq ++ ", " ++
          dq ++ "rb" ++ dq ++ ") as pickle_model:" ++ nl ++ pad 4 ++
          "model = " ++ pickle_type ++
          ".load(pickle_model)" ++ nl ++ nl) ;;
    ret (pad 8 ++ "model_path = Path(" ++ dq ++ "/models/resources/viya/" ++
         model_id ++
         dq ++ ")" ++ nl ++ pad 8 ++ "with open(model_path / " ++ dq ++
         str_opt model_file_name ++ dq ++ ", " ++
         dq ++ "rb" ++ dq ++ ") as pickle_model:" ++ nl ++ pad 12 ++
         "model = " ++ pickle_type ++
         ".load(pickle_model)").

Definition _viya4_model_load
  (model_file_name : option string) (pickle_type : option string)
  (mojo_model binary_h2o_model : bool) : M string :=
  let pickle_type := if truthy_opt pickle_type then str_opt pickle_type else "pickle" in
  if mojo_model then
    zip <- zip_name model_file_name ;;
    emit ("with gzip.open(Path(settings.pickle_path) / " ++
          dq ++ "{model_file_name}" ++ dq ++ ", " ++ dq ++ "r" ++ dq ++
          ") as fileIn, " ++
          "open(Path(settings.pickle_path) / " ++
          dq ++ zip ++ dq ++ "," ++
          " " ++ dq ++ "wb" ++ dq ++ ") as fileOut:" ++ nl ++ pad 4 ++
          "shutil.copyfileobj(fileIn," ++
          " fileOut)" ++ nl ++ "os.chmod(Path(settings.pickle_path) / " ++
          dq ++ zip ++ dq ++
          ", 0o777)" ++ nl ++ "model = h2o.import_mojo(" ++
          "Path(settings.pickle_path) / " ++
          dq ++ zip ++ dq ++ ")" ++
          nl ++ nl) ;;
    ret (pad 8 ++ "model = h2o.import_mojo(Path(settings.pickle_path) / " ++
         dq ++ zip ++ dq ++ ")" ++ nl ++ nl)
  else if binary_h2o_model then
    emit ("model = h2o.load(Path(settings.pickle_path))" ++ nl ++ nl) ;;
    ret (pad 8 ++ "model = h2o.load(Path(settings.pickle_path))" ++ nl ++ nl)
  else
    emit ("with open(Path(settings.pickle_path) / " ++
          dq ++ str_opt model_file_name ++ dq ++ ", " ++ dq ++ "rb" ++ dq ++
          ") as pickle_model:" ++ nl ++ "    " ++
          "model = " ++ pickle_type ++ ".load(pickle_model)" ++ nl ++ nl) ;;
    ret (pad 8 ++ "with open(Path(settings.pickle_path) / " ++
         dq ++ str_opt model_file_name ++ dq ++ ", " ++ dq ++ "rb" ++ dq ++
         ") as pickle_model:" ++ nl ++ "    " ++
         pad 12 ++ "model = " ++ pickle_type ++ ".load(pickle_model)" ++ nl ++ nl).

(** any(t in dtype for t in ["int", "float"]) *)
Definition is_numeric_dtype (dtype : string) : bool :=
  existsb (fun t => contains t dtype) ["int"; "float"].

(** data[var], as far as its 0/1 test and its mode or mean are read: the
    column of a DataFrame with that label; under a label carried by several
    columns the 0/1 test yields a Series, whose truth value raises; a list
    of dicts cannot be indexed by a name. *)
Definition data_column (data : input_data_t) (var : string) : M column_stats :=
  match data with
  | DataFrame columns =>
      match filter (fun c => col_name c =? var) columns with
      | [c] => ret (col_stats c)
      | [] => raise (KeyError var)
      | _ => raise (ValueError "The truth value of a Series is ambiguous.")
      end
  | MLFlow _ =>
      raise (TypeError "list indices must be integers or slices, not str")
  end.

Definition _impute_numeric (data : input_data_t) (var : string) : M unit :=
  stats <- data_column data var ;;
  match stats with
  | AllBinary mode =>
      emit (pad 4 ++ "try:" ++ nl ++ pad 8 ++ "if math.isnan(" ++ var ++ "):" ++ nl ++
            pad 12 ++ var ++ " = " ++ mode ++ nl ++
            pad 4 ++ "except TypeError:" ++ nl ++ pad 8 ++ var ++ " = " ++
            mode ++ nl)
  | NotBinary mean =>
      emit (pad 4 ++ "try:" ++ nl ++ pad 8 ++ "if math.isnan(" ++ var ++ "):" ++ nl ++
            pad 12 ++ var ++ " = " ++ mean ++ nl ++
            pad 4 ++ "except TypeError" ++ nl ++ pad 8 ++ var ++ " = " ++
            mean ++ nl)
  end.

Definition _impute_char (var : string) : M unit :=
  emit (pad 4 ++ "try:" ++ nl ++ pad 8 ++ var ++ " = " ++ var ++ ".strip()" ++ nl ++
        pad 4 ++ "except " ++
        "AttributeError:" ++ nl ++ pad 8 ++ var ++ " = " ++ dq ++ dq ++ nl).

Definition _impute_missing_values
  (data : input_data_t) (var_list dtype_list : list string) : M unit :=
  for_each (combine var_list dtype_list)
    (fun '(var, dtype) =>
       if is_numeric_dtype dtype then _impute_numeric data var
       else _impute_char var) ;;
  emit nl.

(** [dtype_list] is given for H2O models only. *)
Definition _predict_method
  (method : string) (var_list : list string)
  (dtype_list : option (list string)) (statsmodels_model : bool) : M unit :=
  let column_names := join ", " (map (fun col => dq ++ col ++ dq) var_list) in
  match dtype_list with
  | Some ((_ :: _) as dtypes) =>
      let column_types :=
        map (fun '(var, dtype) =>
               let col_type := if is_numeric_dtype dtype then "numeric" else "string" in
               dq ++ var ++ dq ++ " : " ++ dq ++ col_type ++ dq)
            (combine var_list dtypes) in
      emit (pad 4 ++ "input_array = pd.DataFrame(" ++
            "[[" ++ join ", " var_list ++ "]]," ++ nl ++ pad 31 ++ "columns=[" ++
            column_names ++ "]," ++ nl ++ pad 31 ++ "dtype=float," ++ nl ++ pad 31 ++
            "index=[0])" ++ nl ++ pad 4 ++ "column_types = {" ++
            repr_list repr_str column_types ++ "}" ++ nl ++
            pad 4 ++ "h2o_array = h2o.H2OFrame(input_array, " ++
            "column_types=column_types)" ++ nl ++ pad 4 ++ "prediction = " ++
            "model." ++ method ++ "(h2o_array)" ++ nl ++ pad 4 ++ "prediction" ++
            " = h2o.as_list(prediction, use_pandas=False)" ++ nl)
  | _ =>
      if statsmodels_model then
        emit (pad 4 ++ "inputArray = pd.DataFrame(" ++
              "[[1.0, " ++ join ", " var_list ++ "]]," ++ nl ++ pad 29 ++ "columns=[" ++
              dq ++ "const" ++ dq ++ ", " ++ column_names ++ "]," ++ nl ++ pad 29 ++
              "dtype=float)" ++ nl ++
              pad 4 ++ "prediction = model." ++ method ++
              "(input_array)" ++ nl)
      else
        emit (pad 4 ++ "input_array = pd.DataFrame(" ++
              "[[" ++ join ", " var_list ++ "]]," ++ nl ++ pad 30 ++ "columns=[" ++
              column_names ++ "]," ++ nl ++ pad 30 ++ "dtype=float)" ++ nl ++ pad 4 ++
              "prediction = model." ++ method ++ "(input_array)" ++ nl)
  end.

(** [len(metrics) == 1 or isinstance(metrics, str)], with the text that
    f"{metrics}" then gives: the str itself, or the repr of the
    one-element list. *)
Definition single_metric (metrics : metrics_t) : option string :=
  match metrics with
  | MStr name => Some name
  | MList [name] => Some (repr_list repr_str [name])
  | MList _ => None
  end.

Definition names_of (metrics : metrics_t) : list string :=
  match metrics with
  | MStr name => chars name
  | MList names => names
  end.

(** metrics[i] *)
Definition item (names : list string) (i : nat) : M string :=
  match nth_error names i with
  | Some name => ret name
  | None => raise (IndexError "list index out of range")
  end.

Definition _no_targets_no_thresholds (metrics : metrics_t) (h2o_model : bool) : M unit :=
  match single_metric metrics with
  | Some metrics =>
      if h2o_model then
        emit (pad 4 ++ metrics ++ " = prediction[1][0]" ++ nl ++ nl ++ pad 4 ++
              "return " ++ metrics)
      else
        emit (pad 4 ++ metrics ++ " = prediction" ++ nl ++ nl ++ pad 4 ++
              "return " ++ metrics)
  | None =>
      let metrics := names_of metrics in
      (if h2o_model then
         m0 <- item metrics 0 ;;
         emit (pad 4 ++ m0 ++ " = prediction[1][0]" ++ nl) ;;
         for_range (List.length metrics - 1)
           (fun i =>
              m <- item metrics (i + 1) ;;
              emit (pad 4 ++ m ++ " = prediction[1][" ++ str_of_nat (i + 1) ++ "]" ++ nl))
       else
         m0 <- item metrics 0 ;;
         emit (pad 4 ++ m0 ++ " = prediction[0]" ++ nl) ;;
         for_range (List.length metrics - 1)
           (fun i =>
              m <- item metrics (i + 1) ;;
              emit (pad 4 ++ m ++ " = prediction[" ++ str_of_nat (i + 1) ++ "]" ++ nl))) ;;
      emit (nl ++ pad 4 ++ "return " ++ join ", " metrics)
  end.

Definition _binary_target
  (metrics : metrics_t) (threshold : option pyobj) (h2o_model : bool) : M unit :=
  let threshold :=
    match threshold with
    | Some t => if py_bool t then py_str t else "0.5"
    | None => "0.5"
    end in
  match single_metric metrics with
  | Some metrics =>
      if h2o_model then
        emit (pad 4 ++ "if prediction[1][2] > " ++ threshold ++ ":" ++ nl ++
              pad 8 ++ metrics ++ " = 1" ++ nl ++ pad 4 ++ "else:" ++ nl ++ pad 8 ++
              metrics ++ " = 0" ++ nl ++ nl ++ "return " ++ metrics)
      else
        emit (pad 4 ++ "if prediction > " ++ threshold ++ ":" ++ nl ++
              pad 8 ++ metrics ++ " = 1" ++ nl ++ pad 4 ++ "else:" ++ nl ++ pad 8 ++
              metrics ++ " = 0" ++ nl ++ nl ++ "return " ++ metrics)
  | None =>
      match names_of metrics with
      | [m0; _] =>
          if h2o_model then
            emit (pad 4 ++ "if prediction[1][2] > " ++ threshold ++ ":" ++ nl ++
                  pad 8 ++ m0 ++ " = 1" ++ nl ++ pad 4 ++ "else:" ++ nl ++ pad 8 ++
                  m0 ++ " = 0" ++ nl ++ nl ++ "return " ++ m0 ++ ", " ++
                  "prediction[1][2]")
          else
            emit (pad 4 ++ "if prediction > " ++ threshold ++ ":" ++ nl ++
                  pad 8 ++ m0 ++ " = 1" ++ nl ++ pad 4 ++ "else:" ++ nl ++ pad 8 ++
                  m0 ++ " = 0" ++ nl ++ nl ++ "return " ++ m0 ++ ", prediction")
      | _ => raise (ValueError "Too many metrics were provided for a binary model.")
      end
  end.

Definition invalid_number_of_metrics : string :=
  "An invalid number of target values were provided with " ++
  "respect to the size of the metrics provided. The " ++
  "function is expecting metrics to be one, the same length" ++
  "as the target values list, or one more than the length" ++
  "of the target values list.".

Definition _nonbinary_targets
  (metrics : metrics_t) (target_values : list pyval) (h2o_model : bool) : M unit :=
  match single_metric metrics with
  | Some metrics =>
      if h2o_model then
        emit (pad 4 ++ "target_values = " ++ repr_list repr target_values ++ nl ++ pad 4 ++
              metrics ++ " = target_values[prediction[1][1:]." ++
              "index(max(prediction[1][1:]))]" ++ nl ++ pad 4 ++
              "return " ++ metrics)
      else
        emit (pad 4 ++ "target_values = " ++ repr_list repr target_values ++ nl ++ pad 4 ++
              metrics ++ " = target_values[prediction.index(" ++
              "max(prediction))]" ++ nl ++ pad 4 ++ "return " ++ metrics)
  | None =>
      let metrics := names_of metrics in
      if (List.length metrics =? List.length target_values)%nat
         || (List.length metrics =? List.length target_values + 1)%nat then
        if h2o_model then
          emit (pad 4 ++ "target_values = " ++ repr_list repr target_values ++ nl) ;;
          for_range (List.length metrics - 1)
            (fun i =>
               m <- item metrics (i + 1) ;;
               emit (pad 4 ++ m ++ " = prediction[1][" ++ str_of_nat (i + 1) ++ "]" ++ nl)) ;;
          if (List.length metrics =? List.length target_values + 1)%nat then
            m0 <- item metrics 0 ;;
            emit (pad 4 ++ m0 ++ " = target_values" ++
                  "[prediction[1][1:].index(max(" ++
                  "prediction[1][1:]))]" ++ nl) ;;
            emit (pad 4 ++ "return " ++ join ", " metrics)
          else
            emit (pad 4 ++ "return " ++ join ", " metrics)
        else
          emit (pad 4 ++ "target_values = " ++ repr_list repr target_values ++ nl) ;;
          for_range (List.length metrics - 1)
            (fun i =>
               m <- item metrics (i + 1) ;;
               emit (pad 4 ++ m ++ " = prediction[" ++ str_of_nat (i + 1) ++ "]" ++ nl)) ;;
          if (List.length metrics =? List.length target_values + 1)%nat then
            m0 <- item metrics 0 ;;
            emit (pad 4 ++ m0 ++ " = target_values" ++
                  "[prediction.index(max(prediction))]" ++ nl) ;;
            emit (pad 4 ++ "return " ++ join ", " metrics)
          else
            emit (pad 4 ++ "return " ++ join ", " metrics)
      else raise (ValueError invalid_number_of_metrics)
  end.

(** int(target_values[0]) *)
Definition int_of_target (v : pyval) : M Z :=
  match int_of v with
  | Some z => ret z
  | None =>
      raise (ValueError ("invalid literal for int() with base 10: " ++ repr v))
  end.

Definition _predictions_to_metrics
  (metrics : metrics_t) (target_values : option (list pyval))
  (predict_threshold : option pyobj) (h2o_model : bool) : M unit :=
  let metrics :=
    match metrics with
    | MList [name] => MStr name      (* flatten single valued list *)
    | _ => metrics
    end in
  let given := match target_values with Some (_ :: _) => true | _ => false end in
  if negb (given || truthy_obj predict_threshold) then
    _no_targets_no_thresholds metrics h2o_model
  else if negb given && truthy_obj predict_threshold then
    raise (ValueError
      ("A threshold was provided to interpret the prediction results, however " ++
       "a target value was not, therefore, a valid output cannot be generated."))
  else
    let target_values := match target_values with Some l => l | None => [] end in
    if (1 <? List.length target_values)%nat then
      _nonbinary_targets metrics target_values h2o_model
    else
      match target_values with
      | [value] =>
          v <- int_of_target value ;;
          if (v =? 1)%Z then _binary_target metrics predict_threshold h2o_model
          else
            raise (ValueError
              ("For non-binary target variables, please provide at least two target " ++
               "values."))
      | _ => ret tt
      end.

(** The MAS-to-CAS rewrite. [model] is looked up in the repository for its
    output variables. *)
Definition dcl_line (out_var : out_var) : string :=
  "dcl " ++
  (if ov_type out_var =? "string" then "varchar(100) " else "double ") ++
  ov_name out_var ++ ";" ++ nl.

Definition output_string_of (vars : list out_var) : string :=
  fold_left (fun output_string out_var => output_string ++ dcl_line out_var) vars "".

Definition score_call_of (mas_code : string) : string :=
  let start := find "score(" mas_code in
  let finish := find ");" (slice_from mas_code start) in
  let score_vars := slice mas_code (start + 6) (start + finish) in
  join " "
    (filter (fun x => negb (x =? "double") && negb (x =? "in_out")
                      && negb (x =? "varchar(100)"))
            (split " " score_vars)).

Definition end_block_of (mas_code : string) : string :=
  "method run();" ++ nl ++ pad 4 ++ "set SASEP.IN;" ++ nl ++ pad 4 ++
  "score(" ++ score_call_of mas_code ++ ");" ++ nl ++ "end;" ++
  nl ++ "enddata;".

Definition replace_strings (output_string end_block : string)
  : list (string * string) :=
  [ ("package pythonScore / overwrite=yes;", "data sasep.out;");
    ("dcl int resultCode revision;",
     "dcl double resultCode revision;" ++ nl ++ output_string);
    ("endpackage;", end_block) ].

Definition convert_mas_to_cas (mas_code : string) (model : string) : M string :=
  match get_model env model with
  | None => raise (TypeError "'NoneType' object is not subscriptable")
  | Some model =>
      let output_string := output_string_of (outputVariables model) in
      let end_block := end_block_of mas_code in
      ret (re_sub (replace_strings output_string end_block) mas_code)
  end.

(** Path(score_code_path) / name *)
Definition path_join (dir name : string) : string := dir ++ "/" ++ name.

(** d[key] = value on a dict kept in insertion order. *)
Fixpoint dict_set (d : list (string * string)) (key value : string)
  : list (string * string) :=
  match d with
  | [] => [(key, value)]
  | (k, v) :: rest =>
      if k =? key then (k, value) :: rest else (k, v) :: dict_set rest key value
  end.

Definition input_var_list_of (input_data : input_data_t) : list string :=
  match input_data with
  | DataFrame columns => map col_name columns
  | MLFlow vars => map fst vars
  end.

Definition input_dtypes_list_of (input_data : input_data_t) : list string :=
  match input_data with
  | DataFrame columns => map col_dtype columns
  | MLFlow vars => map snd vars
  end.

Definition unbound (name : string) : exn :=
  UnboundLocalError ("local variable '" ++ name ++ "' referenced before assignment").

(** The result is the returned dict, or None when the files were written
    under [score_code_path]. *)
Definition write_score_code (a : arguments)
  : M (option (list (string * string))) :=
  let input_var_list := input_var_list_of (input_data a) in
  _check_for_invalid_variable_names input_var_list ;;
  let input_dtypes_list := input_dtypes_list_of (input_data a) in
  model_id <-
    match current_session env with
    | Some Viya35 => id <- _get_model_id (model a) ;; ret (Some id)
    | Some ViyaOther => ret None
    | None => warn no_session_warning ;; ret None
    end ;;
  let binary_string := kw_binary_string (kwargs a) in
  let model_file_name :=
    match binary_string with
    | Some _ => None
    | None => model_file_name a
    end in
  let mojo_model := kw_mojo_model (kwargs a) in
  let binary_h2o_model := kw_binary_h2o_model (kwargs a) in
  _write_imports (pickle_type a) mojo_model binary_h2o_model binary_string ;;
  model_load <-
    (if truthy_opt model_id && negb (truthy_obj binary_string) then
       load <- _viya35_model_load (str_opt model_id)
                 (pickle_type a) model_file_name mojo_model binary_h2o_model ;;
       ret (Some load)
     else if negb (truthy_obj binary_string) then
       load <- _viya4_model_load
                 (pickle_type a) model_file_name mojo_model binary_h2o_model ;;
       ret (Some load)
     else ret None) ;;
  emit ("def score" ++ model_prefix a ++ "(" ++ join ", " input_var_list ++ "):" ++ nl ++
        pad 4 ++ dq ++ "Output: " ++ join ", " (names_of (metrics a)) ++ dq ++ nl ++ nl) ;;
  (if truthy_opt model_load then
     emit (pad 4 ++ "try:" ++ nl ++ pad 8 ++ "global model" ++ nl ++ pad 4 ++
           "except NameError:" ++ nl ++ str_opt model_load)
   else ret tt) ;;
  (if missing_values a then
     _impute_missing_values (input_data a) input_var_list input_dtypes_list
   else ret tt) ;;
  (if mojo_model || binary_h2o_model then
     _predict_method (predict_method a) input_var_list (Some input_dtypes_list) false ;;
     _predictions_to_metrics (metrics a) (target_values a) (predict_threshold a) true
   else
     _predict_method (predict_method a) input_var_list None
       (kw_statsmodels_model (kwargs a)) ;;
     _predictions_to_metrics (metrics a) (target_values a) (predict_threshold a) false) ;;
  sas <-
    (if truthy_opt model_id then
       let model_id := str_opt model_id in
       code <- read_score_code ;;
       upload_and_copy_score_resources model_id
         [(model_prefix a ++ "_score.py", code, "score")] ;;
       call_remote (ConvertPythonToDs2 model_id) ;;
       if score_cas a then
         match List.find (fun file => file_name file =? "score.sas")
                         (get_model_contents env model_id) with
         | Some file =>
             let mas_code := file_text file in
             upload_and_copy_score_resources model_id
               [(MAS_CODE_NAME, mas_code, "score")] ;;
             cas_code <- convert_mas_to_cas mas_code model_id ;;
             upload_and_copy_score_resources model_id
               [(CAS_CODE_NAME, cas_code, "score")] ;;
             match get_model env model_id with
             | Some _ => call_remote (UpdateModel model_id "ds2MultiType")
             | None =>
                 raise (TypeError "'NoneType' object does not support item assignment")
             end ;;
             ret (Some (mas_code, cas_code))
         | None => ret None
         end
       else ret None
     else ret None) ;;
  code <- read_score_code ;;
  if truthy_opt (score_code_path a) then
    let dir := str_opt (score_code_path a) in
    write_file (path_join dir (model_prefix a ++ "_score.py")) code ;;
    (if truthy_opt model_id && score_cas a then
       match sas with
       | Some (mas_code, cas_code) =>
           write_file (path_join dir MAS_CODE_NAME) mas_code ;;
           write_file (path_join dir CAS_CODE_NAME) cas_code
       | None =>
           write_file (path_join dir MAS_CODE_NAME) "" ;;
           raise (unbound "mas_code")
       end
     else ret tt) ;;
    ret None
  else
    let output_dict := [(model_prefix a ++ "_score.py", code)] in
    if truthy_opt model_id && score_cas a then
      match sas with
      | Some (mas_code, cas_code) =>
          ret (Some (dict_set (dict_set output_dict MAS_CODE_NAME mas_code)
                              CAS_CODE_NAME cas_code))
      | None => raise (unbound "mas_code")
      end
    else ret (Some output_dict).

End ScoreCode.

(** ** The runtime on ASCII text

    str.isidentifier, repr and int as CPython computes them on ASCII text
    (bytes above 127 are taken as parts of printable characters and copied
    by repr), and [with_suffix] on a path in pathlib's normal form. *)

Module AsciiRuntime.

Definition code (c : ascii) : nat := nat_of_ascii c.

Definition is_digit (c : ascii) : bool := (48 <=? code c)%nat && (code c <=? 57)%nat.

Definition is_letter_ (c : ascii) : bool :=
  (65 <=? code c)%nat && (code c <=? 90)%nat
  || (97 <=? code c)%nat && (code c <=? 122)%nat
  || (code c =? 95)%nat.

Definition is_space (c : ascii) : bool :=
  (code c =? 32)%nat || (9 <=? code c)%nat && (code c <=? 13)%nat
  || (28 <=? code c)%nat && (code c <=? 31)%nat.

Fixpoint all_chars (p : ascii -> bool) (s : string) : bool :=
  match s with
  | EmptyString => true
  | String c rest => p c && all_chars p rest
  end.

Definition isidentifier (s : string) : bool :=
  match s with
  | EmptyString => false
  | String c rest => is_letter_ c && all_chars (fun x => is_letter_ x || is_digit x) rest
  end.

Definition hex_digit (n : nat) : string :=
  String (ascii_of_nat (if (n <? 10)%nat then 48 + n else 87 + n)) "".

Definition escape (quote : ascii) (c : ascii) : string :=
  if Ascii.eqb c quote || (code c =? 92)%nat then bs ++ String c ""
  else if (code c =? 9)%nat then bs ++ "t"
  else if (code c =? 10)%nat then bs ++ "n"
  else if (code c =? 13)%nat then bs ++ "r"
  else if (code c <? 32)%nat || (code c =? 127)%nat then
    bs ++ "x" ++ hex_digit (code c / 16) ++ hex_digit (code c mod 16)
  else String c "".

Fixpoint escape_all (quote : ascii) (s : string) : string :=
  match s with
  | EmptyString => ""
  | String c rest => escape quote c ++ escape_all quote rest
  end.

Definition repr_str (s : string) : string :=
  let quote := if contains sq s && negb (contains dq s) then dq else sq in
  match quote with
  | String q _ => quote ++ escape_all q s ++ quote
  | EmptyString => s
  end.

Fixpoint drop_spaces (l : list ascii) : list ascii :=
  match l with
  | c :: rest => if is_space c then drop_spaces rest else l
  | [] => []
  end.

(** Decimal digits, with single underscores between digits. *)
Fixpoint digits (acc : Z) (after_digit : bool) (l : list ascii) : option Z :=
  match l with
  | [] => if after_digit then Some acc else None
  | c :: rest =>
      if is_digit c then digits (acc * 10 + Z.of_nat (code c - 48)) true rest
      else if (code c =? 95)%nat && after_digit then digits acc false rest
      else None
  end.

Definition int_of_str (s : string) : option Z :=
  let body := rev (drop_spaces (rev (drop_spaces (list_ascii_of_string s)))) in
  match body with
  | c :: rest =>
      if (code c =? 45)%nat then option_map Z.opp (digits 0 false rest)
      else if (code c =? 43)%nat then digits 0 false rest
      else digits 0 false body
  | [] => None
  end.

(** The index after the last occurrence of [c], if any. *)
Fixpoint after_last (c : ascii) (s : string) : option nat :=
  match s with
  | EmptyString => None
  | String x rest =>
      match after_last c rest with
      | Some i => Some (S i)
      | None => if Ascii.eqb x c then Some 1%nat else None
      end
  end.

Definition with_suffix_zip (path : string) : option string :=
  let cut := match after_last "/" path with Some i => i | None => 0%nat end in
  let name := substring cut (String.length path - cut) path in
  if (name =? "") || (name =? ".") then None
  else
    let stem :=
      match after_last "." name with
      | Some i =>
          if (1 <? i)%nat && (i <? String.length name)%nat
          then substring 0 (i - 1) name else name
      | None => name
      end in
    Some (substring 0 cut path ++ stem ++ ".zip").

#[export] Instance runtime : Runtime := {|
  Py.isidentifier := isidentifier;
  Py.repr_str := repr_str;
  Py.int_of_str := int_of_str;
  Py.with_suffix_zip := with_suffix_zip
|}.

End AsciiRuntime.

(** ** The text each stage appends *)

(** The lines of a loop over names numbered from [i]. *)
Fixpoint numbered_lines (line : string -> nat -> string) (i : nat)
  (names : list string) : string :=
  match names with
  | [] => ""
  | m :: rest => line m i ++ numbered_lines line (S i) rest
  end.

Section EmittedText.
Context {rt : Runtime}.

(** Where the class probabilities are found in the prediction. *)
Definition probabilities (h2o_model : bool) : string :=
  if h2o_model then "prediction[1][1:]" else "prediction".

(** The target value at the index of the largest probability. *)
Definition argmax_target (h2o_model : bool) : string :=
  "target_values[" ++ probabilities h2o_model ++ ".index(max(" ++
  probabilities h2o_model ++ "))]".

Definition target_values_line (target_values : list pyval) : string :=
  pad 4 ++ "target_values = " ++ repr_list repr target_values ++ nl.

(** metrics[i] = prediction[i], or prediction[1][i] for H2O. *)
Definition passthrough_line (h2o_model : bool) (m : string) (i : nat) : string :=
  pad 4 ++ m ++ " = " ++ (if h2o_model then "prediction[1][" else "prediction[") ++
  str_of_nat i ++ "]" ++ nl.

Definition argmax_line (h2o_model : bool) (m : string) : string :=
  pad 4 ++ m ++ " = " ++ argmax_target h2o_model ++ nl.

Definition return_line (metrics : list string) : string :=
  pad 4 ++ "return " ++ join ", " metrics.

(** The positive-class probability the binary mapping compares. *)
Definition positive_probability (h2o_model : bool) : string :=
  if h2o_model then "prediction[1][2]" else "prediction".

Definition threshold_text (predict_threshold : option pyobj) : string :=
  match predict_threshold with
  | Some t => if py_bool t then py_str t else "0.5"
  | None => "0.5"
  end.

(** if <probability> > <threshold>: m = 1 / else: m = 0 *)
Definition threshold_test (h2o_model : bool) (threshold m : string) : string :=
  pad 4 ++ "if " ++ positive_probability h2o_model ++ " > " ++ threshold ++ ":" ++ nl ++
  pad 8 ++ m ++ " = 1" ++ nl ++ pad 4 ++ "else:" ++ nl ++ pad 8 ++ m ++ " = 0" ++ nl ++ nl.


(** The serializer a load helper names: its [pickle_type], or pickle. *)
Definition module_or_pickle (pickle_type : option string) : string :=
  if truthy_opt pickle_type then str_opt pickle_type else "pickle".

(** The load block of a pickled model on SAS Viya 4: [file] is opened
    under the pickle path, [module].load reads it. *)
Definition viya4_pickle_load (file module : string) : string :=
  "with open(Path(settings.pickle_path) / " ++ dq ++ file ++ dq ++ ", " ++
  dq ++ "rb" ++ dq ++ ") as pickle_model:" ++ nl ++
  pad 4 ++ "model = " ++ module ++ ".load(pickle_model)" ++ nl ++ nl.

(** The same block as it is returned for the NameError handler. *)
Definition viya4_pickle_guard (file module : string) : string :=
  pad 8 ++ "with open(Path(settings.pickle_path) / " ++ dq ++ file ++ dq ++ ", " ++
  dq ++ "rb" ++ dq ++ ") as pickle_model:" ++ nl ++
  pad 16 ++ "model = " ++ module ++ ".load(pickle_model)" ++ nl ++ nl.

(** The load block of a pickled model on SAS Viya 3.5. *)
Definition viya35_pickle_load (model_id file module : string) : string :=
  "model_path = Path(" ++ dq ++ "/models/resources/viya/" ++ model_id ++ dq ++ ")" ++ nl ++
  "with open(model_path / " ++ dq ++ file ++ dq ++ ", " ++
  dq ++ "rb" ++ dq ++ ") as pickle_model:" ++ nl ++
  pad 4 ++ "model = " ++ module ++ ".load(pickle_model)" ++ nl ++ nl.

Definition viya35_pickle_guard (model_id file module : string) : string :=
  pad 8 ++ "model_path = Path(" ++ dq ++ "/models/resources/viya/" ++ model_id ++
  dq ++ ")" ++ nl ++
  pad 8 ++ "with open(model_path / " ++ dq ++ file ++ dq ++ ", " ++
  dq ++ "rb" ++ dq ++ ") as pickle_model:" ++ nl ++
  pad 12 ++ "model = " ++ module ++ ".load(pickle_model)".

(** try: global model / except NameError: *)
Definition name_error_guard : string :=
  pad 4 ++ "try:" ++ nl ++ pad 8 ++ "global model" ++ nl ++
  pad 4 ++ "except NameError:" ++ nl.

(** The constructor call of the statsmodels input frame, a constant
    column first. *)
Definition statsmodels_frame (var_list : list string) : string :=
  "pd.DataFrame([[1.0, " ++ join ", " var_list ++ "]]," ++ nl ++
  pad 29 ++ "columns=[" ++ dq ++ "const" ++ dq ++ ", " ++
  join ", " (map (fun col => dq ++ col ++ dq) var_list) ++ "]," ++ nl ++
  pad 29 ++ "dtype=float)".

(** name = value *)
Definition assignment (name value : string) : string :=
  pad 4 ++ name ++ " = " ++ value ++ nl.

(** The prediction block of a statsmodels model. *)
Definition statsmodels_block (method : string) (var_list : list string) : string :=
  assignment "inputArray" (statsmodels_frame var_list) ++
  assignment "prediction" ("model." ++ method ++ "(" ++ "input_array" ++ ")").

(** The imputation lines of one column. *)
Definition numeric_imputation (var value except_clause : string) : string :=
  pad 4 ++ "try:" ++ nl ++ pad 8 ++ "if math.isnan(" ++ var ++ "):" ++ nl ++
  pad 12 ++ var ++ " = " ++ value ++ nl ++
  pad 4 ++ except_clause ++ nl ++ pad 8 ++ var ++ " = " ++ value ++ nl.

Definition char_imputation (var : string) : string :=
  pad 4 ++ "try:" ++ nl ++ pad 8 ++ var ++ " = " ++ var ++ ".strip()" ++ nl ++
  pad 4 ++ "except AttributeError:" ++ nl ++ pad 8 ++ var ++ " = " ++ dq ++ dq ++ nl.

Definition column_imputation (c : column) : string :=
  if is_numeric_dtype (col_dtype c) then
    match col_stats c with
    | AllBinary mode => numeric_imputation (col_name c) mode "except TypeError:"
    | NotBinary mean => numeric_imputation (col_name c) mean "except TypeError"
    end
  else char_imputation (col_name c).

(** Texts one after the other. *)
Fixpoint cat (texts : list string) : string :=
  match texts with
  | [] => ""
  | t :: rest => t ++ cat rest
  end.

Definition imputation_block (columns : list column) : string :=
  cat (map column_imputation columns) ++ nl.

(** The three texts the MAS-to-CAS rewrite looks for. *)
Definition package_header : string := "package pythonScore / overwrite=yes;".
Definition int_declaration : string := "dcl int resultCode revision;".
Definition package_end : string := "endpackage;".


(** No key matches at a position inside [chunk], read with [rest] after
    it. *)
Fixpoint no_match_in (keys : list string) (chunk rest : string) : bool :=
  match chunk with
  | EmptyString => true
  | String c chunk' =>
      negb (existsb (fun k => startswith k (chunk ++ rest)) keys)
      && no_match_in keys chunk' rest
  end.

(** MAS-format text: the package header, the int declaration and the
    package end, once each and in this order, between four pieces of
    other text. *)
Definition mas_text (head body tail after : string) : string :=
  head ++ package_header ++ body ++ int_declaration ++ tail ++ package_end ++ after.



Definition invalid_names_message (offenders : list string) : string :=
  "The following are not valid variable names: " ++ join ", " offenders ++
  ". Please confirm that all variable names can be used as Python variables. " ++
  "E.g. `str(name).isidentifier() == True`.".

End EmittedText.

(** ** write_score_code in three parts

    The body of write_score_code up to the prediction call, and its tail
    after the metric mapping, as computations of their own. The metric
    mapping sits between them ([write_score_code_parts]). *)

Section Parts.
Context {rt : Runtime}.
Variable env : environment.

Definition is_h2o (a : arguments) : bool :=
  kw_mojo_model (kwargs a) || kw_binary_h2o_model (kwargs a).

(** Validation, model id, imports, model load, function header, guarded
    load, imputation and prediction call; the result is the model id. *)
Definition before_metrics (a : arguments) : M (option string) :=
  let input_var_list := input_var_list_of (input_data a) in
  _check_for_invalid_variable_names input_var_list ;;
  let input_dtypes_list := input_dtypes_list_of (input_data a) in
  model_id <-
    match current_session env with
    | Some Viya35 => id <- _get_model_id env (model a) ;; ret (Some id)
    | Some ViyaOther => ret None
    | None => warn no_session_warning ;; ret None
    end ;;
  let binary_string := kw_binary_string (kwargs a) in
  let model_file_name :=
    match binary_string with
    | Some _ => None
    | None => model_file_name a
    end in
  let mojo_model := kw_mojo_model (kwargs a) in
  let binary_h2o_model := kw_binary_h2o_model (kwargs a) in
  _write_imports env (pickle_type a) mojo_model binary_h2o_model binary_string ;;
  model_load <-
    (if truthy_opt model_id && negb (truthy_obj binary_string) then
       load <- _viya35_model_load (str_opt model_id)
                 (pickle_type a) model_file_name mojo_model binary_h2o_model ;;
       ret (Some load)
     else if negb (truthy_obj binary_string) then
       load <- _viya4_model_load
                 (pickle_type a) model_file_name mojo_model binary_h2o_model ;;
       ret (Some load)
     else ret None) ;;
  emit ("def score" ++ model_prefix a ++ "(" ++ join ", " input_var_list ++ "):" ++ nl ++
        pad 4 ++ dq ++ "Output: " ++ join ", " (names_of (metrics a)) ++ dq ++ nl ++ nl) ;;
  (if truthy_opt model_load then
     emit (pad 4 ++ "try:" ++ nl ++ pad 8 ++ "global model" ++ nl ++ pad 4 ++
           "except NameError:" ++ nl ++ str_opt model_load)
   else ret tt) ;;
  (if missing_values a then
     _impute_missing_values (input_data a) input_var_list input_dtypes_list
   else ret tt) ;;
  (if mojo_model || binary_h2o_model then
     _predict_method (predict_method a) input_var_list (Some input_dtypes_list) false
   else
     _predict_method (predict_method a) input_var_list None
       (kw_statsmodels_model (kwargs a))) ;;
  ret model_id.

(** Upload and conversion under SAS Viya 3.5, then the files or the dict. *)
Definition after_metrics (a : arguments) (model_id : option string)
  : M (option (list (string * string))) :=
  sas <-
    (if truthy_opt model_id then
       let model_id := str_opt model_id in
       code <- read_score_code ;;
       upload_and_copy_score_resources model_id
         [(model_prefix a ++ "_score.py", code, "score")] ;;
       call_remote (ConvertPythonToDs2 model_id) ;;
       if score_cas a then
         match List.find (fun file => file_name file =? "score.sas")
                         (get_model_contents env model_id) with
         | Some file =>
             let mas_code := file_text file in
             upload_and_copy_score_resources model_id
               [(MAS_CODE_NAME, mas_code, "score")] ;;
             cas_code <- convert_mas_to_cas env mas_code model_id ;;
             upload_and_copy_score_resources model_id
               [(CAS_CODE_NAME, cas_code, "score")] ;;
             match get_model env model_id with
             | Some _ => call_remote (UpdateModel model_id "ds2MultiType")
             | None =>
                 raise (TypeError "'NoneType' object does not support item assignment")
             end ;;
             ret (Some (mas_code, cas_code))
         | None => ret None
         end
       else ret None
     else ret None) ;;
  code <- read_score_code ;;
  if truthy_opt (score_code_path a) then
    let dir := str_opt (score_code_path a) in
    write_file (path_join dir (model_prefix a ++ "_score.py")) code ;;
    (if truthy_opt model_id && score_cas a then
       match sas with
       | Some (mas_code, cas_code) =>
           write_file (path_join dir MAS_CODE_NAME) mas_code ;;
           write_file (path_join dir CAS_CODE_NAME) cas_code
       | None =>
           write_file (path_join dir MAS_CODE_NAME) "" ;;
           raise (unbound "mas_code")
       end
     else ret tt) ;;
    ret None
  else
    let output_dict := [(model_prefix a ++ "_score.py", code)] in
    if truthy_opt model_id && score_cas a then
      match sas with
      | Some (mas_code, cas_code) =>
          ret (Some (dict_set (dict_set output_dict MAS_CODE_NAME mas_code)
                              CAS_CODE_NAME cas_code))
      | None => raise (unbound "mas_code")
      end
    else ret (Some output_dict).

(** The stages of [before_metrics], by name. *)
Definition model_id_stage (a : arguments) : M (option string) :=
  match current_session env with
  | Some Viya35 => id <- _get_model_id env (model a) ;; ret (Some id)
  | Some ViyaOther => ret None
  | None => warn no_session_warning ;; ret None
  end.

(** model_file_name, set to None when a binary string is passed. *)
Definition model_file_name_used (a : arguments) : option string :=
  match kw_binary_string (kwargs a) with
  | Some _ => None
  | None => model_file_name a
  end.

Definition imports_stage (a : arguments) : M unit :=
  _write_imports env (pickle_type a) (kw_mojo_model (kwargs a))
    (kw_binary_h2o_model (kwargs a)) (kw_binary_string (kwargs a)).

Definition model_load_stage (a : arguments) (model_id : option string)
  : M (option string) :=
  if truthy_opt model_id && negb (truthy_obj (kw_binary_string (kwargs a))) then
    load <- _viya35_model_load (str_opt model_id)
              (pickle_type a) (model_file_name_used a)
              (kw_mojo_model (kwargs a)) (kw_binary_h2o_model (kwargs a)) ;;
    ret (Some load)
  else if negb (truthy_obj (kw_binary_string (kwargs a))) then
    load <- _viya4_model_load
              (pickle_type a) (model_file_name_used a)
              (kw_mojo_model (kwargs a)) (kw_binary_h2o_model (kwargs a)) ;;
    ret (Some load)
  else ret None.

Definition header_text (a : arguments) : string :=
  "def score" ++ model_prefix a ++ "(" ++
  join ", " (input_var_list_of (input_data a)) ++ "):" ++ nl ++
  pad 4 ++ dq ++ "Output: " ++ join ", " (names_of (metrics a)) ++ dq ++ nl ++ nl.

Definition guard_text (model_load : option string) : string :=
  if truthy_opt model_load then
    pad 4 ++ "try:" ++ nl ++ pad 8 ++ "global model" ++ nl ++ pad 4 ++
    "except NameError:" ++ nl ++ str_opt model_load
  else "".

Definition impute_stage (a : arguments) : M unit :=
  if missing_values a then
    _impute_missing_values (input_data a) (input_var_list_of (input_data a))
      (input_dtypes_list_of (input_data a))
  else ret tt.

Definition predict_stage (a : arguments) : M unit :=
  if is_h2o a then
    _predict_method (predict_method a) (input_var_list_of (input_data a))
      (Some (input_dtypes_list_of (input_data a))) false
  else
    _predict_method (predict_method a) (input_var_list_of (input_data a)) None
      (kw_statsmodels_model (kwargs a)).

(** The body of the loop of [_impute_missing_values] over a frame. *)
Definition impute_one (columns : list column) : string * string -> M unit :=
  fun '(var, dtype) =>
    if is_numeric_dtype dtype then _impute_numeric (DataFrame columns) var
    else _impute_char var.

End Parts.

(** ** What a computation does to the world *)

(** The world after [text] was appended to the buffer and [ws] were
    warned. *)
Definition effect (w : world) (text : string) (ws : list string) : world :=
  mk_world (score_code w ++ text) (disk w) (remote w) (warnings w ++ ws).

(** [c] has outcome [r], appends [text] and warns [ws], whatever the world
    it starts in. *)
Definition writes {A : Type} (c : M A) (r : exn + A) (text : string)
  (ws : list string) : Prop :=
  forall w, c w = (r, effect w text ws).

(** [c] neither reads the world nor touches the disk or the repository. *)
Definition oblivious {A : Type} (c : M A) : Prop :=
  exists r text ws, writes c r text ws.

(** [c] leaves the buffer as it is. *)
Definition keeps_code {A : Type} (c : M A) : Prop :=
  forall w, score_code (snd (c w)) = score_code w.

(** ** Sample calls *)

Module Sample.

(** No session to a SAS Viya server. *)
Definition no_session : environment :=
  mk_environment None (fun _ => None) (fun _ => []).

Definition plain_kwargs : kwargs_t := mk_kwargs None false false false.

(** The home-equity frame: two predictors. *)
Definition hmeq : input_data_t :=
  DataFrame [ mk_column "LOAN" "int64" (NotBinary "18607.97");
              mk_column "MORTDUE" "float64" (NotBinary "73760.82") ].

Definition hmeq_call (model_prefix : string) (metrics : list string)
  (target_values : option (list pyval)) (predict_threshold : option pyobj)
  : arguments :=
  mk_arguments model_prefix hmeq "predict" (MList metrics)
    (Some "hmeq.pickle") (Some "pickle") None predict_threshold None
    target_values false true plain_kwargs.

(** A frame with a column label that is no identifier. *)
Definition bad_names : input_data_t :=
  DataFrame [ mk_column "LOAN" "int64" (NotBinary "18607.97");
              mk_column "MORT DUE" "float64" (NotBinary "73760.82");
              mk_column "2ndLien" "int64" (AllBinary "0") ].

Definition bad_names_call : arguments :=
  mk_arguments "hmeq" bad_names "predict" (MList ["BAD"])
    (Some "hmeq.pickle") (Some "pickle") None None None
    (Some [PyInt 1; PyInt 0]) false true plain_kwargs.

(** The same call for a statsmodels model. *)
Definition statsmodels_call : arguments :=
  mk_arguments "hmeq" hmeq "predict" (MList ["BAD"])
    (Some "hmeq.pickle") (Some "pickle") None None None
    None false true (mk_kwargs None false false true).

(** A frame with a 0/1 column, and a call that imputes missing values. *)
Definition hmeq_flags : input_data_t :=
  DataFrame [ mk_column "LOAN" "int64" (NotBinary "18607.97");
              mk_column "DELINQ" "int64" (AllBinary "0");
              mk_column "JOB" "object" (NotBinary "nan") ].

Definition imputing_call : arguments :=
  mk_arguments "hmeq" hmeq_flags "predict" (MList ["BAD"])
    (Some "hmeq.pickle") (Some "pickle") None None None
    None true true plain_kwargs.

(** A MAS wrapper as the repository returns it for the two predictors,
    in its four pieces around the three texts that are rewritten. *)
Definition mas_head : string := "".

Definition mas_body : string :=
  nl ++ "dcl package pymas pm;" ++ nl ++
  "dcl package logger logr('App.tk.MAS');" ++ nl ++
  "dcl varchar(32767) character set utf8 pypgm;" ++ nl.

Definition mas_tail : string :=
  nl ++ nl ++
  "method score(double LOAN, double MORTDUE, in_out double resultCode, " ++
  "in_out varchar(100) EM_CLASSIFICATION, in_out double EM_EVENTPROBABILITY);" ++ nl ++
  pad 4 ++ "resultCode = revision = 0;" ++ nl ++
  "end;" ++ nl ++ nl.

Definition mas_after : string := nl.

Definition hmeq_outputs : list out_var :=
  [ mk_out_var "EM_CLASSIFICATION" "string";
    mk_out_var "EM_EVENTPROBABILITY" "decimal" ].

(** A SAS Viya 3.5 session whose repository knows the model. *)
Definition viya35 : environment :=
  mk_environment (Some Viya35)
    (fun _ => Some (mk_model_record "f3a1" hmeq_outputs))
    (fun _ => [ mk_remote_file "score.sas"
                  (mas_text mas_head mas_body mas_tail mas_after) ]).

(** The threshold 0.5, as the generator sees it. *)
Definition half : pyobj := mk_pyobj true "0.5".

End Sample.

(** ** Further texts and sample calls *)

Section MoreText.
Context {rt : Runtime}.

(** The imports every score file starts with. *)
Definition core_imports (serializer : string) : string :=
  "import math" ++ nl ++ "import " ++ serializer ++ nl ++
  "import pandas as pd" ++ nl ++ "import numpy as np" ++ nl ++
  "from pathlib import Path" ++ nl ++ nl.

Definition settings_import : string := "import settings" ++ nl ++ nl.

Definition h2o_imports : string :=
  "import h2o" ++ nl ++ "import gzip" ++ nl ++ "import shutil" ++ nl ++
  "import os" ++ nl ++ nl ++ "h2o.init()" ++ nl ++ nl.

(** The embedded model: the binary string and its decoding. *)
Definition binary_string_block (serializer value : string) : string :=
  "import codecs" ++ nl ++ nl ++
  "binary_string = " ++ dq ++ value ++ dq ++ nl ++
  "model = " ++ serializer ++ ".loads(codecs.decode(binary_string.encode(), " ++
  dq ++ "base64" ++ dq ++ "))" ++ nl ++ nl.

(** The text and the warnings of the imports stage of a call. *)
Definition imports_text (env : environment) (a : arguments) : string :=
  core_imports (module_or_pickle (pickle_type a)) ++
  match current_session env with
  | Some ViyaOther => settings_import
  | _ => ""
  end ++
  (if is_h2o a then h2o_imports
   else match kw_binary_string (kwargs a) with
        | Some b =>
            if py_bool b
            then binary_string_block (module_or_pickle (pickle_type a)) (py_str b)
            else ""
        | None => ""
        end).

Definition session_warnings (env : environment) : list string :=
  match current_session env with
  | None => [no_session_warning]
  | Some _ => []
  end.

(** The prediction block of a model that is neither an H2O nor a
    statsmodels model. *)
Definition generic_block (method : string) (var_list : list string) : string :=
  pad 4 ++ "input_array = pd.DataFrame([[" ++ join ", " var_list ++ "]]," ++ nl ++
  pad 30 ++ "columns=[" ++
  join ", " (map (fun col => dq ++ col ++ dq) var_list) ++ "]," ++ nl ++
  pad 30 ++ "dtype=float)" ++ nl ++
  pad 4 ++ "prediction = model." ++ method ++ "(input_array)" ++ nl.

(** The load block of a MOJO model on SAS Viya 4: [gz] in the gzip.open
    call, [zip] the archive it is unpacked to. *)
Definition viya4_mojo_load (gz zip : string) : string :=
  "with gzip.open(Path(settings.pickle_path) / " ++ dq ++ gz ++ dq ++ ", " ++
  dq ++ "r" ++ dq ++ ") as fileIn, open(Path(settings.pickle_path) / " ++
  dq ++ zip ++ dq ++ ", " ++ dq ++ "wb" ++ dq ++ ") as fileOut:" ++ nl ++
  pad 4 ++ "shutil.copyfileobj(fileIn, fileOut)" ++ nl ++
  "os.chmod(Path(settings.pickle_path) / " ++ dq ++ zip ++ dq ++ ", 0o777)" ++ nl ++
  "model = h2o.import_mojo(Path(settings.pickle_path) / " ++ dq ++ zip ++ dq ++ ")" ++
  nl ++ nl.

Definition viya4_mojo_guard (zip : string) : string :=
  pad 8 ++ "model = h2o.import_mojo(Path(settings.pickle_path) / " ++
  dq ++ zip ++ dq ++ ")" ++ nl ++ nl.

(** The passthrough of the prediction to the metrics, from the first
    metric on. *)
Definition passthrough_text (h2o_model : bool) (metrics : list string) : string :=
  numbered_lines (passthrough_line h2o_model) 0 metrics ++
  nl ++ return_line metrics.

(** DS2 text with a call signature: [args] between the first [score(]
    and the first [);] after it. *)
Definition signature_text (pre args post : string) : string :=
  pre ++ "score(" ++ args ++ ");" ++ post.

Definition signature_format (pre args post : string) : bool :=
  no_match_in ["score("] pre ("score(" ++ args ++ ");" ++ post)
  && no_match_in [");"] args (");" ++ post).

(** The metric mapping of a call without target values: one metric
    takes the prediction, several take its components. *)
Definition passthrough_mapping (h2o_model : bool) (metrics : list string) : string :=
  match metrics with
  | [m] =>
      pad 4 ++ m ++ " = " ++ (if h2o_model then "prediction[1][0]" else "prediction") ++
      nl ++ nl ++ return_line [m]
  | _ => passthrough_text h2o_model metrics
  end.

(** A type keyword of a DS2 method signature. *)
Definition is_type_keyword (x : string) : bool :=
  (x =? "double") || (x =? "in_out") || (x =? "varchar(100)").

End MoreText.

(** The prediction block of a call for a model that is no H2O model. *)
Definition prediction_block {rt : Runtime} (a : arguments) : string :=
  if kw_statsmodels_model (kwargs a)
  then statsmodels_block (predict_method a) (input_var_list_of (input_data a))
  else generic_block (predict_method a) (input_var_list_of (input_data a)).

(** The module written for a pickled model outside SAS Viya 3.5, without
    imputation and target values. *)
Definition regression_module {rt : Runtime} (env : environment) (a : arguments)
  : string :=
  imports_text env a ++
  viya4_pickle_load (str_opt (pickle_type a)) (module_or_pickle (model_file_name a)) ++
  header_text a ++ name_error_guard ++
  viya4_pickle_guard (str_opt (pickle_type a)) (module_or_pickle (model_file_name a)) ++
  prediction_block a ++
  passthrough_mapping false (names_of (metrics a)).

(** The entry of one variable in the column types of an H2O frame. *)
Definition column_type (var dtype : string) : string :=
  dq ++ var ++ dq ++ " : " ++ dq ++
  (if is_numeric_dtype dtype then "numeric" else "string") ++ dq.

(** The prediction block of an H2O model. *)
Definition h2o_block {rt : Runtime} (method : string) (var_list dtypes : list string)
  : string :=
  pad 4 ++ "input_array = pd.DataFrame([[" ++ join ", " var_list ++ "]]," ++ nl ++
  pad 31 ++ "columns=[" ++
  join ", " (map (fun col => dq ++ col ++ dq) var_list) ++ "]," ++ nl ++
  pad 31 ++ "dtype=float," ++ nl ++
  pad 31 ++ "index=[0])" ++ nl ++
  pad 4 ++ "column_types = {" ++
  repr_list repr_str
    (map (fun var => column_type (fst var) (snd var)) (combine var_list dtypes)) ++
  "}" ++ nl ++
  pad 4 ++ "h2o_array = h2o.H2OFrame(input_array, column_types=column_types)" ++ nl ++
  pad 4 ++ "prediction = model." ++ method ++ "(h2o_array)" ++ nl ++
  pad 4 ++ "prediction = h2o.as_list(prediction, use_pandas=False)" ++ nl.

(** The load block of a binary H2O model on SAS Viya 4. *)
Definition viya4_h2o_load : string :=
  "model = h2o.load(Path(settings.pickle_path))" ++ nl ++ nl.

(** The load blocks of H2O models on SAS Viya 3.5: a MOJO model is
    unpacked from [gz] to [zip] in the directory of the model, a binary
    model is loaded from [file] there. *)
Definition viya35_mojo_load (model_id gz zip : string) : string :=
  "model_path = Path(" ++ dq ++ "/models/resources/viya/" ++ model_id ++ dq ++ ")" ++ nl ++
  "with gzip.open(model_path / " ++ dq ++ gz ++ dq ++ ", " ++ dq ++ "r" ++ dq ++
  ") as fileIn, open(model_path / " ++ dq ++ zip ++ dq ++ ", " ++ dq ++ "wb" ++ dq ++
  ") as fileOut:" ++ nl ++
  pad 4 ++ "shutil.copyfileobj(fileIn, fileOut)" ++ nl ++
  "os.chmod(model_path / " ++ dq ++ zip ++ dq ++ ", 0o777)" ++ nl ++
  "model = h2o.import_mojo(model_path / " ++ dq ++ zip ++ dq ++ ")" ++ nl ++ nl.

Definition viya35_mojo_guard (zip : string) : string :=
  pad 8 ++ "model = h2o.import_mojo(model_path / " ++ dq ++ zip ++ dq ++ ")".

Definition viya35_h2o_call (model_id file : string) : string :=
  "model = h2o.load(Path(" ++ dq ++ "/models/resources/viya/" ++ model_id ++ "/" ++
  file ++ dq ++ "))".


(** What is known of a variable by its dtype alone. *)
Definition non_numeric (var : string * string) : bool :=
  negb (is_numeric_dtype (snd var)).

(** The imputation blocks of variables that are no numbers. *)
Definition char_blocks (vars : list (string * string)) : string :=
  cat (map (fun var => char_imputation (fst var)) vars).

(** The arguments of a call with another threshold. *)
Definition with_threshold (a : arguments) (predict_threshold : option pyobj)
  : arguments :=
  mk_arguments (model_prefix a) (input_data a) (predict_method a) (metrics a)
    (model_file_name a) (pickle_type a) (model a) predict_threshold
    (score_code_path a) (target_values a) (missing_values a) (score_cas a)
    (kwargs a).

(** The repository calls of one upload. *)
Definition upload_calls (model name file : string) : list remote_call :=
  [AddModelContent model name file "score"; CopyPythonResources model].

Definition add_remote (w : world) (calls : list remote_call) : world :=
  mk_world (score_code w) (disk w) (remote w ++ calls) (warnings w).

Definition add_files (w : world) (files : list (string * string)) : world :=
  mk_world (score_code w) (disk w ++ files) (remote w) (warnings w).

Definition single_target_message : string :=
  "For non-binary target variables, please provide at least two target values.".

(** The lines of a text, and those that follow its first line equal to
    [line]. *)
Definition text_lines (text : string) : list string :=
  split (ascii_of_nat 10) text.

Fixpoint lines_after (line : string) (lines : list string) : list string :=
  match lines with
  | [] => []
  | l :: rest => if l =? line then rest else lines_after line rest
  end.

(** A line of an indented block, or an empty line. *)
Definition inside_block (line : string) : bool :=
  startswith " " line || (line =? "").

(** [c] leaves the part [f] of the world as it is. *)
Definition preserves {A B : Type} (f : world -> B) (c : M A) : Prop :=
  forall w, f (snd (c w)) = f w.

Definition no_model_identification : string :=
  "No model identification was provided. Python score code" ++
  " generation for SAS Viya 3.5 requires the model's UUID.".

Definition no_model_found : string :=
  "No model could be found using the model argument provided.".

(** The repository calls of a call that publishes the score file and
    both wrappers of the model [model]. *)
Definition publication_calls (model name code mas cas : string) : list remote_call :=
  upload_calls model name code ++ [ConvertPythonToDs2 model] ++
  upload_calls model MAS_CODE_NAME mas ++ upload_calls model CAS_CODE_NAME cas ++
  [UpdateModel model "ds2MultiType"].

(** The CAS wrapper made of the MAS wrapper [mas] for a model with the
    output variables [outputs]. *)
Definition cas_of (mas : string) (outputs : list out_var) : string :=
  re_sub (replace_strings (output_string_of outputs) (end_block_of mas)) mas.

(** The file score.sas among the contents of a model. *)
Definition score_sas (env : environment) (model : string) : option remote_file :=
  List.find (fun file => file_name file =? "score.sas") (get_model_contents env model).

Definition path_of_none : string :=
  "expected str, bytes or os.PathLike object, not NoneType".

Module MoreSamples.

(** A call for an H2O MOJO model. *)
Definition mojo_call (pickle_type : option string) : arguments :=
  mk_arguments "hmeq" Sample.hmeq "predict" (MList ["BAD"])
    (Some "hmeq.mojo") pickle_type None None None
    None false true (mk_kwargs None true false false).

(** A call that names the model in the repository. *)
Definition registered_call (score_code_path : option string) (score_cas : bool)
  : arguments :=
  mk_arguments "hmeq" Sample.hmeq "predict" (MList ["BAD"])
    (Some "hmeq.pickle") (Some "pickle") (Some "hmeq model") None score_code_path
    None false score_cas Sample.plain_kwargs.

(** A SAS Viya 3.5 session whose repository knows no model. *)
Definition empty_repository : environment :=
  mk_environment (Some Viya35) (fun _ => None) (fun _ => []).

(** A SAS Viya 4 session. *)
Definition viya4 : environment :=
  mk_environment (Some ViyaOther) (fun _ => None) (fun _ => []).

(** A regression call: no target values, no threshold. *)
Definition regression_call (metrics : list string) (path : option string) : arguments :=
  mk_arguments "hmeq" Sample.hmeq "predict" (MList metrics)
    (Some "hmeq.pickle") (Some "pickle") None None path
    None false true Sample.plain_kwargs.

(** A SAS Viya 3.5 session whose repository knows the model, but no file
    of it called score.sas. *)
Definition no_score_sas : environment :=
  mk_environment (Some Viya35)
    (fun _ => Some (mk_model_record "f3a1" Sample.hmeq_outputs))
    (fun _ => [ mk_remote_file "hmeq_score.py" "" ]).

(** The world after the stages before the metric mapping of a first
    call, and after its metric mapping. *)
Definition after_before (env : environment) (a : arguments) : world :=
  snd (before_metrics (rt := AsciiRuntime.runtime) env a initial_world).

Definition after_text (env : environment) (a : arguments) : world :=
  snd (_predictions_to_metrics (rt := AsciiRuntime.runtime) (metrics a)
         (target_values a) (predict_threshold a) (is_h2o a) (after_before env a)).

Definition hmeq_record : model_record := mk_model_record "f3a1" Sample.hmeq_outputs.

Definition hmeq_score_sas : remote_file :=
  mk_remote_file "score.sas"
    (mas_text Sample.mas_head Sample.mas_body Sample.mas_tail Sample.mas_after).

(** The pieces of a DS2 score method around its parameter list. *)
Definition signature_pre : string := "dcl int resultCode revision;" ++ nl ++ "method ".

Definition signature_tokens : list string :=
  [ "double"; "LOAN,"; "in_out"; "double"; "resultCode,"; "in_out"; "varchar(100)";
    "EM_CLASSIFICATION" ].

Definition signature_post : string := nl ++ "end;" ++ nl ++ "endpackage;".

(** The variables of an MLFlow model: a str and a number. *)
Definition mlflow_vars : list (string * string) :=
  [ ("JOB", "string"); ("LOAN", "int64") ].

Definition mlflow_call : arguments :=
  mk_arguments "hmeq" (MLFlow mlflow_vars) "predict" (MList ["BAD"])
    (Some "hmeq.pickle") (Some "pickle") None None None
    None true true Sample.plain_kwargs.


(** A call for a binary H2O model. *)
Definition h2o_call (model_file_name pickle_type : option string) : arguments :=
  mk_arguments "hmeq" Sample.hmeq "predict" (MList ["BAD"])
    model_file_name pickle_type None None None
    None false true (mk_kwargs None false true true).

(** A call that names its one metric as a str. *)
Definition str_metric_call : arguments :=
  mk_arguments "hmeq" Sample.hmeq "predict" (MStr "BAD")
    (Some "hmeq.pickle") (Some "pickle") None None None
    None false true Sample.plain_kwargs.

(** A call for an H2O MOJO model that names the model in the
    repository. *)
Definition registered_mojo_call : arguments :=
  mk_arguments "hmeq" Sample.hmeq "predict" (MList ["BAD"])
    (Some "hmeq.mojo") (Some "pickle") (Some "hmeq model") None None
    None false true (mk_kwargs None true false false).

(** The threshold 0.0: supplied, and not truthy. *)
Definition zero : pyobj := mk_pyobj false "0.0".

End MoreSamples.

(** ** Facts about text *)

Lemma append_assoc (a b c : string) : (a ++ b) ++ c = a ++ (b ++ c).
Proof. induction a as [|x a IH]; simpl; [reflexivity | now rewrite IH]. Qed.

Lemma append_nil_r (a : string) : a ++ "" = a.
Proof. induction a as [|x a IH]; simpl; [reflexivity | now rewrite IH]. Qed.

Lemma append_inv_head (a b c : string) : a ++ b = a ++ c -> b = c.
Proof.
  induction a as [|x a IH]; simpl; intros H; [exact H |].
  injection H as H. now apply IH.
Qed.

Lemma startswith_append (k s : string) : startswith k (k ++ s) = true.
Proof.
  induction k as [|x k IH]; simpl; [reflexivity |].
  now rewrite Ascii.eqb_refl, IH.
Qed.

Lemma startswith_append_r (k s t : string) :
  startswith k s = true -> startswith k (s ++ t) = true.
Proof.
  revert s; induction k as [|x k IH]; intros [|y s]; simpl; try easy.
  intros H. apply andb_true_iff in H as [H1 H2].
  now rewrite H1, (IH _ H2).
Qed.

Lemma contains_here (k s : string) : contains k (k ++ s) = true.
Proof.
  destruct (k ++ s) eqn:E; simpl; rewrite <- E, startswith_append; reflexivity.
Qed.

Lemma contains_skip (k a s : string) :
  contains k s = true -> contains k (a ++ s) = true.
Proof.
  intros H. induction a as [|x a IH]; simpl; [exact H |].
  rewrite IH. apply orb_true_r.
Qed.

Lemma contains_middle (k a b : string) : contains k (a ++ k ++ b) = true.
Proof. apply contains_skip, contains_here. Qed.

Lemma startswith_spec (k t : string) :
  startswith k t = true -> exists b, t = k ++ b.
Proof.
  revert t; induction k as [|y k IHk]; intros t H.
  - now exists t.
  - destruct t as [|z t]; simpl in H; [discriminate H |].
    apply andb_true_iff in H as [H1 H2].
    apply Ascii.eqb_eq in H1 as ->.
    destruct (IHk _ H2) as [b ->]. now exists b.
Qed.

Lemma contains_spec (k s : string) :
  contains k s = true <-> exists a b, s = a ++ k ++ b.
Proof.
  split.
  - induction s as [|x s IH]; simpl; intros H.
    + rewrite orb_false_r in H. destruct k; [| discriminate H].
      now exists "", "".
    + apply orb_true_iff in H as [H | H].
      * exists "". simpl. now apply startswith_spec.
      * destruct (IH H) as (a & b & ->). now exists (String x a), b.
  - intros (a & b & ->). apply contains_middle.
Qed.

(** ** Running the monad *)

Lemma bind_ok {A B : Type} (c : M A) (k : A -> M B) (w w1 : world) (a : A) :
  c w = (inr a, w1) -> bind c k w = k a w1.
Proof. unfold bind. now intros ->. Qed.

Lemma bind_err {A B : Type} (c : M A) (k : A -> M B) (w w1 : world) (e : exn) :
  c w = (inl e, w1) -> bind c k w = (inl e, w1).
Proof. unfold bind. now intros ->. Qed.

Lemma bind_assoc {A B C : Type} (c : M A) (k : A -> M B) (k' : B -> M C) (w : world) :
  bind (bind c k) k' w = bind c (fun a => bind (k a) k') w.
Proof. unfold bind. destruct (c w) as [[e | a] w1]; reflexivity. Qed.

Lemma bind_cong {A B : Type} (c : M A) (k k' : A -> M B) (w : world) :
  (forall a w1, k a w1 = k' a w1) -> bind c k w = bind c k' w.
Proof. intros H. unfold bind. destruct (c w) as [[e | a] w1]; [reflexivity | apply H]. Qed.

Lemma bind_ret {A B : Type} (a : A) (k : A -> M B) (w : world) :
  bind (ret a) k w = k a w.
Proof. reflexivity. Qed.

Lemma append_code_nil (w : world) : append_code w "" = w.
Proof. destruct w; unfold append_code; simpl. now rewrite append_nil_r. Qed.

Lemma append_code_append (w : world) (a b : string) :
  append_code (append_code w a) b = append_code w (a ++ b).
Proof. unfold append_code; simpl. now rewrite append_assoc. Qed.

Lemma skipn_nth_error {A : Type} (l : list A) (j : nat) (x : A) :
  nth_error l j = Some x -> skipn j l = x :: skipn (S j) l.
Proof.
  revert l; induction j as [|j IH]; intros [|y l] E; simpl in *; try discriminate.
  - injection E as ->. reflexivity.
  - now apply IH.
Qed.

Lemma for_range_from_lines (line : string -> nat -> string) (metrics : list string) :
  forall n start w,
    (start + 1 + n <= List.length metrics)%nat ->
    for_range_from start n
      (fun i => m <- item metrics (i + 1) ;; emit (line m (i + 1))) w
    = (inr tt,
       append_code w
         (numbered_lines line (start + 1) (firstn n (skipn (start + 1) metrics)))).
Proof.
  induction n as [|n IH]; intros start w Hlen; simpl.
  - now rewrite append_code_nil.
  - destruct (nth_error metrics (start + 1)) as [m|] eqn:E.
    2:{ apply nth_error_None in E. lia. }
    unfold bind at 1. unfold item at 1. rewrite E. unfold bind at 1, ret, emit.
    rewrite IH by lia. rewrite append_code_append, (skipn_nth_error _ _ _ E).
    simpl. replace (S (start + 1)) with (S start + 1)%nat by lia. reflexivity.
Qed.

Lemma for_range_lines (line : string -> nat -> string) (m0 : string) (rest : list string) w :
  for_range (List.length (m0 :: rest) - 1)
    (fun i => m <- item (m0 :: rest) (i + 1) ;; emit (line m (i + 1))) w
  = (inr tt, append_code w (numbered_lines line 1 rest)).
Proof.
  unfold for_range. rewrite for_range_from_lines by (simpl; lia).
  simpl. rewrite Nat.sub_0_r, firstn_all. reflexivity.
Qed.

(** ** The metric-mapping stage *)

Section MetricMapping.
Context {rt : Runtime}.
Variable env : environment.

Ltac text_eq :=
  unfold emit, append_code, target_values_line, passthrough_line, argmax_line,
    return_line, argmax_target, probabilities, threshold_test,
    positive_probability, threshold_text, repr_list;
  repeat (progress simpl || rewrite append_assoc);
  reflexivity.

Lemma _nonbinary_targets_single m tvs h2o w :
  _nonbinary_targets (MStr m) tvs h2o w
  = (inr tt, append_code w (target_values_line tvs ++ argmax_line h2o m ++ return_line [m])).
Proof.
  unfold _nonbinary_targets; simpl. destruct h2o; text_eq.
Qed.

Lemma _nonbinary_targets_with_label m0 rest tvs h2o w :
  List.length (m0 :: rest) = (List.length tvs + 1)%nat ->
  (2 <= List.length tvs)%nat ->
  _nonbinary_targets (MList (m0 :: rest)) tvs h2o w
  = (inr tt,
     append_code w
       (target_values_line tvs ++ numbered_lines (passthrough_line h2o) 1 rest ++
        argmax_line h2o m0 ++ return_line (m0 :: rest))).
Proof.
  intros Hlen Htv. unfold _nonbinary_targets.
  assert (Hs : single_metric (MList (m0 :: rest)) = None).
  { destruct rest as [|m1 rest]; [simpl in Hlen; lia | reflexivity]. }
  rewrite Hs. cbv zeta. unfold names_of.
  apply Nat.eqb_eq in Hlen as Hb. rewrite Hb, orb_true_r.
  destruct h2o.
  - unfold bind at 1. unfold emit at 1.
    unfold bind at 1.
    rewrite (for_range_lines (passthrough_line true) m0 rest).
    unfold item; simpl nth_error. unfold bind, ret, emit.
    repeat rewrite append_code_append. text_eq.
  - unfold bind at 1. unfold emit at 1.
    unfold bind at 1.
    rewrite (for_range_lines (passthrough_line false) m0 rest).
    unfold item; simpl nth_error. unfold bind, ret, emit.
    repeat rewrite append_code_append. text_eq.
Qed.

Lemma _nonbinary_targets_probabilities_only m0 rest tvs h2o w :
  List.length (m0 :: rest) = List.length tvs ->
  (2 <= List.length tvs)%nat ->
  _nonbinary_targets (MList (m0 :: rest)) tvs h2o w
  = (inr tt,
     append_code w
       (target_values_line tvs ++ numbered_lines (passthrough_line h2o) 1 rest ++
        return_line (m0 :: rest))).
Proof.
  intros Hlen Htv. unfold _nonbinary_targets.
  assert (Hs : single_metric (MList (m0 :: rest)) = None).
  { destruct rest as [|m1 rest]; [simpl in Hlen; lia | reflexivity]. }
  rewrite Hs. cbv zeta. unfold names_of.
  assert (Hb : (List.length (m0 :: rest) =? List.length tvs + 1)%nat = false)
    by (apply Nat.eqb_neq; lia).
  apply Nat.eqb_eq in Hlen as Hb'. rewrite Hb, Hb', orb_false_r.
  destruct h2o.
  - unfold bind at 1. unfold emit at 1.
    unfold bind at 1.
    rewrite (for_range_lines (passthrough_line true) m0 rest).
    unfold emit. repeat rewrite append_code_append. text_eq.
  - unfold bind at 1. unfold emit at 1.
    unfold bind at 1.
    rewrite (for_range_lines (passthrough_line false) m0 rest).
    unfold emit. repeat rewrite append_code_append. text_eq.
Qed.

Lemma _nonbinary_targets_invalid ms tvs h2o w :
  List.length ms <> 1%nat ->
  List.length ms <> List.length tvs ->
  List.length ms <> (List.length tvs + 1)%nat ->
  _nonbinary_targets (MList ms) tvs h2o w
  = (inl (ValueError invalid_number_of_metrics), w).
Proof.
  intros H1 Hn Hn1. unfold _nonbinary_targets.
  assert (Hs : single_metric (MList ms) = None).
  { destruct ms as [|m0 [|m1 rest]]; simpl in *; try reflexivity. lia. }
  rewrite Hs. cbv zeta. unfold names_of.
  apply Nat.eqb_neq in Hn, Hn1. now rewrite Hn, Hn1.
Qed.

(** With two target values or more the stage hands over to
    [_nonbinary_targets], a one-element metrics list flattened. *)
Lemma _predictions_to_metrics_multiclass metrics tvs thr h2o w :
  (2 <= List.length tvs)%nat ->
  _predictions_to_metrics metrics (Some tvs) thr h2o w
  = _nonbinary_targets
      (match metrics with MList [name] => MStr name | _ => metrics end) tvs h2o w.
Proof.
  intros Htv. unfold _predictions_to_metrics.
  destruct tvs as [|a [|b tvs]]; simpl in Htv; try lia.
  reflexivity.
Qed.

Lemma _binary_target_single m thr h2o w :
  _binary_target (MStr m) thr h2o w
  = (inr tt,
     append_code w (threshold_test h2o (threshold_text thr) m ++ "return " ++ m)).
Proof. unfold _binary_target; simpl. destruct h2o; text_eq. Qed.

Lemma _binary_target_pair m0 m1 thr h2o w :
  _binary_target (MList [m0; m1]) thr h2o w
  = (inr tt,
     append_code w
       (threshold_test h2o (threshold_text thr) m0 ++
        "return " ++ m0 ++ ", " ++ positive_probability h2o)).
Proof. unfold _binary_target; simpl. destruct h2o; text_eq. Qed.

Lemma _binary_target_too_many ms thr h2o w :
  List.length ms <> 1%nat -> List.length ms <> 2%nat ->
  _binary_target (MList ms) thr h2o w
  = (inl (ValueError "Too many metrics were provided for a binary model."), w).
Proof.
  intros H1 H2. unfold _binary_target.
  destruct ms as [|m0 [|m1 [|m2 rest]]]; simpl in *; try reflexivity; lia.
Qed.

(** With one target value whose int() is 1 the stage hands over to
    [_binary_target], a one-element metrics list flattened. *)
Lemma _predictions_to_metrics_binary metrics value thr h2o w :
  int_of value = Some 1%Z ->
  _predictions_to_metrics metrics (Some [value]) thr h2o w
  = _binary_target
      (match metrics with MList [name] => MStr name | _ => metrics end) thr h2o w.
Proof.
  intros Hv. unfold _predictions_to_metrics. simpl.
  unfold bind, int_of_target. rewrite Hv. reflexivity.
Qed.


End MetricMapping.

(** ** write_score_code, part by part *)

Section Pipeline.
Context {rt : Runtime}.
Variable env : environment.

Lemma write_score_code_parts (a : arguments) (w : world) :
  write_score_code env a w
  = (model_id <- before_metrics env a ;;
     _predictions_to_metrics (metrics a) (target_values a) (predict_threshold a)
       (is_h2o a) ;;
     after_metrics env a model_id) w.
Proof.
  unfold write_score_code, before_metrics, after_metrics, is_h2o. cbv zeta.
  do 7 (rewrite bind_assoc; apply bind_cong; intros ? ?).
  destruct (kw_mojo_model (kwargs a) || kw_binary_h2o_model (kwargs a));
    repeat rewrite bind_assoc; apply bind_cong; intros ? ?;
    rewrite bind_ret; reflexivity.
Qed.

End Pipeline.

(** ** Computations that only append *)

Lemma effect_nil (w : world) : effect w "" [] = w.
Proof. destruct w; unfold effect; simpl. now rewrite append_nil_r, app_nil_r. Qed.

Lemma effect_effect (w : world) t1 ws1 t2 ws2 :
  effect (effect w t1 ws1) t2 ws2 = effect w (t1 ++ t2) (ws1 ++ ws2).
Proof. unfold effect; simpl. now rewrite append_assoc, <- app_assoc. Qed.

Lemma append_code_effect (w : world) t : append_code w t = effect w t [].
Proof. unfold append_code, effect. now rewrite app_nil_r. Qed.

Lemma writes_ret {A : Type} (a : A) : writes (ret a) (inr a) "" [].
Proof. intros w. now rewrite effect_nil. Qed.

Lemma writes_raise {A : Type} (e : exn) : writes (@raise A e) (inl e) "" [].
Proof. intros w. now rewrite effect_nil. Qed.

Lemma writes_emit (t : string) : writes (emit t) (inr tt) t [].
Proof. intros w. unfold emit. now rewrite append_code_effect. Qed.

Lemma writes_warn (msg : string) : writes (warn msg) (inr tt) "" [msg].
Proof. intros w. unfold warn, add_warning, effect. now rewrite append_nil_r. Qed.

Lemma writes_bind {A B : Type} (c : M A) (k : A -> M B) a t1 ws1 r t2 ws2 :
  writes c (inr a) t1 ws1 -> writes (k a) r t2 ws2 ->
  writes (bind c k) r (t1 ++ t2) (ws1 ++ ws2).
Proof.
  intros Hc Hk w. unfold bind. now rewrite Hc, Hk, effect_effect.
Qed.

Lemma writes_bind_err {A B : Type} (c : M A) (k : A -> M B) e t ws :
  writes c (inl e) t ws -> writes (bind c k) (inl e) t ws.
Proof. intros Hc w. unfold bind. now rewrite Hc. Qed.

Lemma oblivious_ret {A : Type} (a : A) : oblivious (ret a).
Proof. repeat eexists. apply writes_ret. Qed.

Lemma oblivious_raise {A : Type} (e : exn) : oblivious (@raise A e).
Proof. repeat eexists. apply writes_raise. Qed.

Lemma oblivious_emit (t : string) : oblivious (emit t).
Proof. repeat eexists. apply writes_emit. Qed.

Lemma oblivious_warn (msg : string) : oblivious (warn msg).
Proof. repeat eexists. apply writes_warn. Qed.

Lemma oblivious_bind {A B : Type} (c : M A) (k : A -> M B) :
  oblivious c -> (forall a, oblivious (k a)) -> oblivious (bind c k).
Proof.
  intros ([e | a] & t1 & ws1 & Hc) Hk.
  - exists (inl e), t1, ws1. now apply writes_bind_err.
  - destruct (Hk a) as (r & t2 & ws2 & Hka).
    exists r, (t1 ++ t2), (ws1 ++ ws2)%list. now apply writes_bind with a.
Qed.

Lemma oblivious_for_range_from (body : nat -> M unit) :
  (forall i, oblivious (body i)) -> forall n start, oblivious (for_range_from start n body).
Proof.
  intros Hb. induction n as [|n IH]; intros start; simpl.
  - apply oblivious_ret.
  - apply oblivious_bind; [apply Hb | intros _; apply IH].
Qed.

Lemma oblivious_for_each {A : Type} (body : A -> M unit) (xs : list A) :
  (forall x, oblivious (body x)) -> oblivious (for_each xs body).
Proof.
  intros Hb. induction xs as [|x xs IH]; simpl.
  - apply oblivious_ret.
  - apply oblivious_bind; [apply Hb | intros _; apply IH].
Qed.

Create HintDb oblivious.
#[local] Hint Resolve oblivious_ret oblivious_raise oblivious_emit oblivious_warn : oblivious.

Ltac oblivious_step :=
  match goal with
  | |- oblivious (bind _ _) => apply oblivious_bind; [| intros ?]
  | |- oblivious (for_range _ _) => apply oblivious_for_range_from; intros ?
  | |- oblivious (for_each _ _) => apply oblivious_for_each; intros ?
  | |- oblivious (ret _) => apply oblivious_ret
  | |- oblivious (raise _) => apply oblivious_raise
  | |- oblivious (emit _) => apply oblivious_emit
  | |- oblivious (warn _) => apply oblivious_warn
  | |- oblivious (if ?b then _ else _) => destruct b
  | |- oblivious (match ?x with _ => _ end) => destruct x
  | |- oblivious (let '(_, _) := ?p in _) => destruct p
  end.

Ltac oblivious_auto := repeat oblivious_step; auto with oblivious.

Section Oblivious.
Context {rt : Runtime}.
Variable env : environment.

Lemma item_oblivious (names : list string) (i : nat) : oblivious (item names i).
Proof. unfold item. oblivious_auto. Qed.

Lemma _check_for_invalid_variable_names_oblivious l :
  oblivious (_check_for_invalid_variable_names l).
Proof. unfold _check_for_invalid_variable_names. cbv zeta. oblivious_auto. Qed.

Lemma _get_model_id_oblivious m : oblivious (_get_model_id env m).
Proof. unfold _get_model_id. oblivious_auto. Qed.

Lemma _write_imports_oblivious pt mojo h2o b :
  oblivious (_write_imports env pt mojo h2o b).
Proof. unfold _write_imports. cbv zeta. oblivious_auto. Qed.

Lemma zip_name_oblivious n : oblivious (zip_name n).
Proof. unfold zip_name. oblivious_auto. Qed.

Lemma _viya35_model_load_oblivious id f p mojo h2o :
  oblivious (_viya35_model_load id f p mojo h2o).
Proof.
  unfold _viya35_model_load. cbv zeta.
  destruct mojo; [| destruct h2o].
  - apply oblivious_bind; [apply zip_name_oblivious | intros ?; oblivious_auto].
  - oblivious_auto.
  - oblivious_auto.
Qed.

Lemma _viya4_model_load_oblivious f p mojo h2o :
  oblivious (_viya4_model_load f p mojo h2o).
Proof.
  unfold _viya4_model_load. cbv zeta.
  destruct mojo; [| destruct h2o].
  - apply oblivious_bind; [apply zip_name_oblivious | intros ?; oblivious_auto].
  - oblivious_auto.
  - oblivious_auto.
Qed.

Lemma data_column_oblivious d v : oblivious (data_column d v).
Proof. unfold data_column. oblivious_auto. Qed.

Lemma _impute_missing_values_oblivious d vars dtypes :
  oblivious (_impute_missing_values d vars dtypes).
Proof.
  unfold _impute_missing_values.
  apply oblivious_bind; [| intros ?; apply oblivious_emit].
  apply oblivious_for_each. intros [var dtype].
  destruct (is_numeric_dtype dtype).
  - unfold _impute_numeric.
    apply oblivious_bind; [apply data_column_oblivious | intros ?; oblivious_auto].
  - apply oblivious_emit.
Qed.

Lemma _predict_method_oblivious m vars dtypes sm :
  oblivious (_predict_method m vars dtypes sm).
Proof. unfold _predict_method. cbv zeta. oblivious_auto. Qed.

Lemma numbered_emit_oblivious (names : list string) (line : string -> nat -> string) n :
  oblivious (for_range n (fun i => m <- item names (i + 1) ;; emit (line m (i + 1)))).
Proof.
  apply oblivious_for_range_from. intros i.
  apply oblivious_bind; [apply item_oblivious | intros ?; apply oblivious_emit].
Qed.

Lemma _no_targets_no_thresholds_oblivious metrics h2o :
  oblivious (_no_targets_no_thresholds metrics h2o).
Proof.
  unfold _no_targets_no_thresholds.
  destruct (single_metric metrics); [oblivious_auto |]. cbv zeta.
  apply oblivious_bind; [| intros ?; apply oblivious_emit].
  destruct h2o.
  - apply oblivious_bind; [apply item_oblivious | intros ?].
    apply oblivious_bind; [apply oblivious_emit | intros ?].
    apply (numbered_emit_oblivious _ (fun m i => _ ++ m ++ _ ++ str_of_nat i ++ _)).
  - apply oblivious_bind; [apply item_oblivious | intros ?].
    apply oblivious_bind; [apply oblivious_emit | intros ?].
    apply (numbered_emit_oblivious _ (fun m i => _ ++ m ++ _ ++ str_of_nat i ++ _)).
Qed.

Lemma _binary_target_oblivious metrics thr h2o :
  oblivious (_binary_target metrics thr h2o).
Proof. unfold _binary_target. cbv zeta. oblivious_auto. Qed.

Lemma _nonbinary_targets_oblivious metrics tvs h2o :
  oblivious (_nonbinary_targets metrics tvs h2o).
Proof.
  unfold _nonbinary_targets.
  destruct (single_metric metrics); [oblivious_auto |]. cbv zeta.
  match goal with |- oblivious (if ?b then _ else _) => destruct b end;
    [| apply oblivious_raise].
  destruct h2o.
  - apply oblivious_bind; [apply oblivious_emit | intros ?].
    apply oblivious_bind.
    + apply (numbered_emit_oblivious _ (fun m i => _ ++ m ++ _ ++ str_of_nat i ++ _)).
    + intros ?.
      match goal with |- oblivious (if ?b then _ else _) => destruct b end.
      * apply oblivious_bind; [apply item_oblivious | intros ?; oblivious_auto].
      * apply oblivious_emit.
  - apply oblivious_bind; [apply oblivious_emit | intros ?].
    apply oblivious_bind.
    + apply (numbered_emit_oblivious _ (fun m i => _ ++ m ++ _ ++ str_of_nat i ++ _)).
    + intros ?.
      match goal with |- oblivious (if ?b then _ else _) => destruct b end.
      * apply oblivious_bind; [apply item_oblivious | intros ?; oblivious_auto].
      * apply oblivious_emit.
Qed.

Lemma _predictions_to_metrics_oblivious metrics tvs thr h2o :
  oblivious (_predictions_to_metrics metrics tvs thr h2o).
Proof.
  unfold _predictions_to_metrics. cbv zeta.
  match goal with |- oblivious (if ?b then _ else _) => destruct b end;
    [apply _no_targets_no_thresholds_oblivious |].
  match goal with |- oblivious (if ?b then _ else _) => destruct b end;
    [apply oblivious_raise |].
  match goal with |- oblivious (if ?b then _ else _) => destruct b end;
    [apply _nonbinary_targets_oblivious |].
  destruct tvs as [[|value [|]] |]; try apply oblivious_ret.
  apply oblivious_bind.
  - unfold int_of_target. oblivious_auto.
  - intros ?. match goal with |- oblivious (if ?b then _ else _) => destruct b end;
      [apply _binary_target_oblivious | apply oblivious_raise].
Qed.

Lemma before_metrics_oblivious a : oblivious (before_metrics env a).
Proof.
  unfold before_metrics. cbv zeta.
  apply oblivious_bind; [apply _check_for_invalid_variable_names_oblivious | intros _].
  apply oblivious_bind.
  { destruct (current_session env) as [[|]|]; [| oblivious_auto | oblivious_auto].
    apply oblivious_bind; [apply _get_model_id_oblivious | intros ?; oblivious_auto]. }
  intros model_id.
  apply oblivious_bind; [apply _write_imports_oblivious | intros _].
  apply oblivious_bind.
  { match goal with |- oblivious (if ?b then _ else _) => destruct b end.
    - apply oblivious_bind; [apply _viya35_model_load_oblivious | intros ?; oblivious_auto].
    - match goal with |- oblivious (if ?b then _ else _) => destruct b end;
        [| apply oblivious_ret].
      apply oblivious_bind; [apply _viya4_model_load_oblivious | intros ?; oblivious_auto]. }
  intros model_load.
  apply oblivious_bind; [apply oblivious_emit | intros _].
  apply oblivious_bind; [oblivious_auto | intros _].
  apply oblivious_bind.
  { destruct (missing_values a);
      [apply _impute_missing_values_oblivious | apply oblivious_ret]. }
  intros _.
  apply oblivious_bind; [| intros _; apply oblivious_ret].
  match goal with |- oblivious (if ?b then _ else _) => destruct b end;
    apply _predict_method_oblivious.
Qed.

End Oblivious.

(** ** The tail of write_score_code keeps the buffer *)

Lemma keeps_code_ret {A : Type} (a : A) : keeps_code (ret a).
Proof. intros w. reflexivity. Qed.

Lemma keeps_code_raise {A : Type} (e : exn) : keeps_code (@raise A e).
Proof. intros w. reflexivity. Qed.

Lemma keeps_code_call_remote c : keeps_code (call_remote c).
Proof. intros w. reflexivity. Qed.

Lemma keeps_code_write_file p t : keeps_code (write_file p t).
Proof. intros w. reflexivity. Qed.

Lemma keeps_code_read : keeps_code read_score_code.
Proof. intros w. reflexivity. Qed.

Lemma keeps_code_bind {A B : Type} (c : M A) (k : A -> M B) :
  keeps_code c -> (forall a, keeps_code (k a)) -> keeps_code (bind c k).
Proof.
  intros Hc Hk w. unfold bind. specialize (Hc w).
  destruct (c w) as [[e | a] w1]; simpl in *; [exact Hc |].
  now rewrite Hk.
Qed.

Lemma keeps_code_for_each {A : Type} (body : A -> M unit) (xs : list A) :
  (forall x, keeps_code (body x)) -> keeps_code (for_each xs body).
Proof.
  intros Hb. induction xs as [|x xs IH]; simpl.
  - apply keeps_code_ret.
  - apply keeps_code_bind; [apply Hb | intros _; apply IH].
Qed.

Ltac keeps_step :=
  match goal with
  | |- keeps_code (bind _ _) => apply keeps_code_bind; [| intros ?]
  | |- keeps_code (for_each _ _) => apply keeps_code_for_each; intros ?
  | |- keeps_code (ret _) => apply keeps_code_ret
  | |- keeps_code (raise _) => apply keeps_code_raise
  | |- keeps_code (call_remote _) => apply keeps_code_call_remote
  | |- keeps_code (write_file _ _) => apply keeps_code_write_file
  | |- keeps_code read_score_code => apply keeps_code_read
  | |- keeps_code (if ?b then _ else _) => destruct b
  | |- keeps_code (match ?x with _ => _ end) => destruct x
  end.

Section Tail.
Context {rt : Runtime}.
Variable env : environment.

Lemma upload_and_copy_score_resources_keeps_code model files :
  keeps_code (upload_and_copy_score_resources model files).
Proof.
  unfold upload_and_copy_score_resources.
  apply keeps_code_bind; [| intros _; apply keeps_code_call_remote].
  apply keeps_code_for_each. intros [[name file] role]. apply keeps_code_call_remote.
Qed.

Lemma convert_mas_to_cas_keeps_code mas model :
  keeps_code (convert_mas_to_cas env mas model).
Proof. unfold convert_mas_to_cas. repeat keeps_step. Qed.

Lemma after_metrics_keeps_code a model_id : keeps_code (after_metrics env a model_id).
Proof.
  unfold after_metrics. cbv zeta.
  apply keeps_code_bind.
  - destruct (truthy_opt model_id); [| apply keeps_code_ret].
    apply keeps_code_bind; [apply keeps_code_read | intros code].
    apply keeps_code_bind;
      [apply upload_and_copy_score_resources_keeps_code | intros _].
    apply keeps_code_bind; [apply keeps_code_call_remote | intros _].
    destruct (score_cas a); [| apply keeps_code_ret].
    destruct (List.find _ _); [| apply keeps_code_ret].
    apply keeps_code_bind;
      [apply upload_and_copy_score_resources_keeps_code | intros _].
    apply keeps_code_bind; [apply convert_mas_to_cas_keeps_code | intros cas].
    apply keeps_code_bind;
      [apply upload_and_copy_score_resources_keeps_code | intros _].
    repeat keeps_step.
  - intros sas. repeat keeps_step.
Qed.

End Tail.

(** ** Following a call through its parts *)

Lemma bind_inv {A B : Type} (c : M A) (k : A -> M B) (w w' : world) (b : B) :
  bind c k w = (inr b, w') ->
  exists a w1, c w = (inr a, w1) /\ k a w1 = (inr b, w').
Proof.
  unfold bind. destruct (c w) as [[e | a] w1]; [discriminate |].
  intros H. now exists a, w1.
Qed.

Lemma oblivious_run {A : Type} (c : M A) (w w' : world) (r : exn + A) :
  oblivious c -> c w = (r, w') ->
  exists t, score_code w' = score_code w ++ t
            /\ disk w' = disk w /\ remote w' = remote w.
Proof.
  intros (r0 & t & ws & Hc) H. rewrite Hc in H. injection H as _ <-.
  now exists t.
Qed.

Section Following.
Context {rt : Runtime}.
Variable env : environment.

Lemma before_metrics_inv a w model_id w1 :
  before_metrics env a w = (inr model_id, w1) ->
  exists wa wb wc wd we wf model_load,
    _check_for_invalid_variable_names (input_var_list_of (input_data a)) w
      = (inr tt, wa)
    /\ model_id_stage env a wa = (inr model_id, wb)
    /\ imports_stage env a wb = (inr tt, wc)
    /\ model_load_stage a model_id wc = (inr model_load, wd)
    /\ we = append_code (append_code wd (header_text a)) (guard_text model_load)
    /\ impute_stage a we = (inr tt, wf)
    /\ predict_stage a wf = (inr tt, w1).
Proof.
  unfold before_metrics, model_id_stage, imports_stage, model_load_stage,
    model_file_name_used, header_text, guard_text, impute_stage, predict_stage,
    is_h2o.
  cbv zeta. intros H.
  apply bind_inv in H as ([] & wa & H1 & H).
  apply bind_inv in H as (mid & wb & H2 & H).
  apply bind_inv in H as ([] & wc & H3 & H).
  apply bind_inv in H as (model_load & wd & H4 & H).
  apply bind_inv in H as ([] & wd' & H5 & H).
  apply bind_inv in H as ([] & we & H6 & H).
  apply bind_inv in H as ([] & wf & H7 & H).
  apply bind_inv in H as ([] & wg & H8 & H).
  unfold ret in H. injection H as -> ->.
  exists wa, wb, wc, wd, we, wf, model_load.
  repeat split; try assumption.
  unfold emit in H5. injection H5 as <-.
  destruct (truthy_opt model_load).
  - unfold emit in H6. now injection H6 as <-.
  - unfold ret in H6. injection H6 as <-. now rewrite append_code_nil.
Qed.

Lemma model_load_stage_oblivious a model_id : oblivious (model_load_stage a model_id).
Proof.
  unfold model_load_stage.
  repeat match goal with
         | |- oblivious (if ?b then _ else _) => destruct b
         end;
    [apply oblivious_bind;
       [apply _viya35_model_load_oblivious | intros ?; apply oblivious_ret]
    |apply oblivious_bind;
       [apply _viya4_model_load_oblivious | intros ?; apply oblivious_ret]
    |apply oblivious_ret].
Qed.

Lemma impute_stage_oblivious a : oblivious (impute_stage a).
Proof.
  unfold impute_stage.
  destruct (missing_values a);
    [apply _impute_missing_values_oblivious | apply oblivious_ret].
Qed.

Lemma predict_stage_oblivious a : oblivious (predict_stage a).
Proof. unfold predict_stage. destruct (is_h2o a); apply _predict_method_oblivious. Qed.

(** A stage that completed in one world completes in every world, with the
    same result and the same text. *)
Lemma oblivious_writes {A : Type} (c : M A) (w w' : world) (x : A) :
  oblivious c -> c w = (inr x, w') ->
  exists t ws, writes c (inr x) t ws /\ score_code w' = score_code w ++ t.
Proof.
  intros (r & t & ws & Hc) H. rewrite Hc in H. injection H as -> <-.
  now exists t, ws.
Qed.

Lemma writes_text {A : Type} (c : M A) (r r' : exn + A) t ws (w : world) t' :
  writes c r t ws -> c w = (r', append_code w t') -> r = r' /\ t = t'.
Proof.
  intros Hc H. rewrite Hc in H. injection H as -> H _. split; [reflexivity |].
  now apply append_inv_head in H.
Qed.

(** The buffer after the stages before the metric mapping: the text found,
    the imports, the model load, the function header, the guarded load,
    the imputation and the prediction call, each the text its stage
    writes. *)
Lemma before_metrics_layout a w model_id w1 :
  before_metrics env a w = (inr model_id, w1) ->
  exists t_imports t_load model_load t_impute t_predict ws1 ws2 ws3 ws4,
    forallb isidentifier (input_var_list_of (input_data a)) = true
    /\ writes (imports_stage env a) (inr tt) t_imports ws1
    /\ writes (model_load_stage a model_id) (inr model_load) t_load ws2
    /\ writes (impute_stage a) (inr tt) t_impute ws3
    /\ writes (predict_stage a) (inr tt) t_predict ws4
    /\ score_code w1
       = score_code w ++ t_imports ++ t_load ++ header_text a ++
         guard_text model_load ++ t_impute ++ t_predict.
Proof.
  intros Hb.
  apply before_metrics_inv in Hb
    as (wa & wb & wc & wd & we & wf & load & H1 & H2 & H3 & H4 & H5 & H6 & H7).
  assert (Hid : forallb isidentifier (input_var_list_of (input_data a)) = true).
  { revert H1. unfold _check_for_invalid_variable_names. cbv zeta.
    generalize (input_var_list_of (input_data a)) as l. intros l.
    destruct (filter _ l) as [|x f] eqn:E; [| discriminate].
    intros _. induction l as [|y l IH]; [reflexivity |].
    simpl in *. destruct (isidentifier y); simpl in *; [now apply IH | discriminate]. }
  destruct (oblivious_run _ _ _ _ (_check_for_invalid_variable_names_oblivious _) H1)
    as (t1 & E1 & _).
  assert (E1' : score_code wa = score_code w).
  { revert H1. unfold _check_for_invalid_variable_names. cbv zeta.
    destruct (0 <? _)%nat; unfold raise, ret; now intros [= <-]. }
  assert (E2 : score_code wb = score_code wa).
  { revert H2. unfold model_id_stage.
    destruct (current_session env) as [[|]|].
    - unfold bind, _get_model_id.
      destruct (negb (truthy_opt (model a))); [now intros [= _ <-] |].
      destruct (get_model env _); now intros [= _ <-].
    - now intros [= _ <-].
    - now intros [= _ <-]. }
  destruct (oblivious_writes _ _ _ _ (_write_imports_oblivious env _ _ _ _) H3)
    as (t3 & ws3 & W3 & E3).
  destruct (oblivious_writes _ _ _ _ (model_load_stage_oblivious a model_id) H4)
    as (t4 & ws4 & W4 & E4).
  destruct (oblivious_writes _ _ _ _ (impute_stage_oblivious a) H6)
    as (t6 & ws6 & W6 & E6).
  destruct (oblivious_writes _ _ _ _ (predict_stage_oblivious a) H7)
    as (t7 & ws7 & W7 & E7).
  exists t3, t4, load, t6, t7, ws3, ws4, ws6, ws7.
  repeat split; try assumption.
  rewrite E7, E6, H5. unfold append_code. cbn [score_code].
  rewrite E4, E3, E2, E1'.
  repeat rewrite append_assoc. reflexivity.
Qed.

(** An error raised by the metric mapping ends the call, in the world the
    earlier stages left. *)
Lemma write_score_code_metric_error a w model_id w1 e w2 :
  before_metrics env a w = (inr model_id, w1) ->
  _predictions_to_metrics (metrics a) (target_values a) (predict_threshold a)
    (is_h2o a) w1 = (inl e, w2) ->
  write_score_code env a w = (inl e, w2).
Proof.
  intros Hb Hm. rewrite write_score_code_parts.
  rewrite (bind_ok _ _ _ _ _ Hb). now rewrite (bind_err _ _ _ _ _ Hm).
Qed.

Lemma write_score_code_inv a w out w' :
  write_score_code env a w = (inr out, w') ->
  exists model_id w1 w2,
    before_metrics env a w = (inr model_id, w1)
    /\ _predictions_to_metrics (metrics a) (target_values a) (predict_threshold a)
         (is_h2o a) w1 = (inr tt, w2)
    /\ after_metrics env a model_id w2 = (inr out, w')
    /\ score_code w' = score_code w2.
Proof.
  rewrite write_score_code_parts. intros H.
  apply bind_inv in H as (mid & w1 & Hb & H).
  apply bind_inv in H as ([] & w2 & Hm & H).
  exists mid, w1, w2. repeat split; try assumption.
  pose proof (after_metrics_keeps_code env a mid w2) as K.
  now rewrite H in K.
Qed.

(** The buffer is only ever appended to: the text a call adds does not
    depend on the buffer it finds, and follows it. *)
Lemma write_score_code_appends a :
  exists t, forall w,
    score_code (snd (write_score_code env a w)) = score_code w ++ t.
Proof.
  destruct (before_metrics_oblivious env a) as ([e | mid] & t1 & ws1 & Hb).
  - exists t1. intros w. rewrite write_score_code_parts.
    rewrite (bind_err _ _ _ _ _ (Hb w)). reflexivity.
  - destruct (_predictions_to_metrics_oblivious (metrics a) (target_values a)
                (predict_threshold a) (is_h2o a)) as ([e | []] & t2 & ws2 & Hm).
    + exists (t1 ++ t2). intros w. rewrite write_score_code_parts.
      rewrite (bind_ok _ _ _ _ _ (Hb w)), (bind_err _ _ _ _ _ (Hm _)).
      simpl. now rewrite append_assoc.
    + exists (t1 ++ t2). intros w. rewrite write_score_code_parts.
      rewrite (bind_ok _ _ _ _ _ (Hb w)), (bind_ok _ _ _ _ _ (Hm _)).
      rewrite after_metrics_keeps_code. simpl. now rewrite append_assoc.
Qed.

End Following.

Section Completing.
Context {rt : Runtime}.
Variable env : environment.

(** Once the metric mapping is done, the rest of the call keeps the
    buffer. *)
Lemma write_score_code_after_metrics a w model_id w1 w2 :
  before_metrics env a w = (inr model_id, w1) ->
  _predictions_to_metrics (metrics a) (target_values a) (predict_threshold a)
    (is_h2o a) w1 = (inr tt, w2) ->
  write_score_code env a w = after_metrics env a model_id w2
  /\ score_code (snd (write_score_code env a w)) = score_code w2.
Proof.
  intros Hb Hm. rewrite write_score_code_parts.
  rewrite (bind_ok _ _ _ _ _ Hb), (bind_ok _ _ _ _ _ Hm).
  split; [reflexivity | apply after_metrics_keeps_code].
Qed.

(** Without a model id and without a path the call returns the dict with
    the buffer under the name of the score file. *)
Lemma after_metrics_dict a model_id w :
  truthy_opt model_id = false ->
  truthy_opt (score_code_path a) = false ->
  after_metrics env a model_id w
  = (inr (Some [(model_prefix a ++ "_score.py", score_code w)]), w).
Proof.
  intros Hid Hp. unfold after_metrics. rewrite Hid, Hp. reflexivity.
Qed.

End Completing.

(** ** Stages that always complete *)

Section AlwaysComplete.
Context {rt : Runtime}.
Variable env : environment.

Lemma _write_imports_completes pt mojo h2o b w :
  exists w', _write_imports env pt mojo h2o b w = (inr tt, w').
Proof.
  unfold _write_imports. cbv zeta. unfold bind, emit, warn, ret.
  destruct (current_session env) as [[|]|]; destruct (mojo || h2o);
    try (eexists; reflexivity);
    destruct b as [b|]; try (eexists; reflexivity);
    destruct (py_bool b); eexists; reflexivity.
Qed.

Lemma _predict_method_completes m vars dtypes sm w :
  exists w', _predict_method m vars dtypes sm w = (inr tt, w').
Proof.
  unfold _predict_method. cbv zeta.
  destruct dtypes as [[|d l]|]; try destruct sm; eexists; reflexivity.
Qed.

End AlwaysComplete.

(** ** Validation of the predictor names *)

Section Validation.
Context {rt : Runtime}.
Variable env : environment.

Lemma _check_for_invalid_variable_names_raises var_list w :
  (exists name, In name var_list /\ isidentifier name = false) ->
  _check_for_invalid_variable_names var_list w
  = (inl (SyntaxError
            (invalid_names_message
               (filter (fun name => negb (isidentifier name)) var_list))), w).
Proof.
  intros (name & Hin & Hid). unfold _check_for_invalid_variable_names. cbv zeta.
  assert (Hf : In name (filter (fun name => negb (isidentifier name)) var_list)).
  { apply filter_In. split; [exact Hin | now rewrite Hid]. }
  destruct (filter _ var_list) as [|x l] eqn:E; [destruct Hf |].
  simpl Nat.ltb. cbv iota. unfold raise, invalid_names_message.
  repeat f_equal. repeat (progress simpl || rewrite append_assoc). reflexivity.
Qed.

Lemma _check_for_invalid_variable_names_passes var_list w :
  forallb isidentifier var_list = true ->
  _check_for_invalid_variable_names var_list w = (inr tt, w).
Proof.
  intros H. unfold _check_for_invalid_variable_names. cbv zeta.
  replace (filter (fun name => negb (isidentifier name)) var_list) with (@nil string).
  - reflexivity.
  - symmetry. induction var_list as [|x l IH]; [reflexivity |].
    simpl in *. apply andb_true_iff in H as [Hx Hl]. rewrite Hx. simpl. now apply IH.
Qed.

(** C3. When some predictor name is not a valid identifier,
    write_score_code raises SyntaxError before anything is emitted: the
    world, and with it the buffer, is as the call found it. The message
    lists, in the order of the predictors, exactly the names that are not
    identifiers. *)
Theorem invalid_predictor_names_rejected (a : arguments) (w : world) :
  (exists name,
      In name (input_var_list_of (input_data a)) /\ isidentifier name = false) ->
  let offenders :=
    filter (fun name => negb (isidentifier name)) (input_var_list_of (input_data a)) in
  write_score_code env a w
    = (inl (SyntaxError (invalid_names_message offenders)), w)
  /\ (forall name,
         In name offenders <->
         In name (input_var_list_of (input_data a)) /\ isidentifier name = false).
Proof.
  intros H offenders. split.
  - rewrite write_score_code_parts. unfold before_metrics. cbv zeta.
    repeat rewrite bind_assoc.
    apply bind_err. now apply _check_for_invalid_variable_names_raises.
  - intros name. unfold offenders. rewrite filter_In.
    now rewrite negb_true_iff.
Qed.

End Validation.

Lemma invalid_predictor_names_rejected_witness :
  (exists name,
      In name (input_var_list_of (input_data Sample.bad_names_call))
      /\ AsciiRuntime.isidentifier name = false)
  /\ write_score_code (rt := AsciiRuntime.runtime)
       Sample.no_session Sample.bad_names_call initial_world
     = (inl (SyntaxError (invalid_names_message ["MORT DUE"; "2ndLien"])),
        initial_world).
Proof.
  assert (H : exists name,
             In name (input_var_list_of (input_data Sample.bad_names_call))
             /\ AsciiRuntime.isidentifier name = false).
  { exists "MORT DUE". split; [simpl; auto | reflexivity]. }
  split; [exact H |].
  exact (proj1 (invalid_predictor_names_rejected
                  (rt := AsciiRuntime.runtime) Sample.no_session
                  Sample.bad_names_call initial_world H)).
Defined.

(** ** The metric mapping: several target values *)

(** C1 holds of the code for a metrics list one longer than the target
    values and for the lengths that are rejected, and fails for a metrics
    list as long as the target values. There the stage writes the
    positional assignments of the metrics after the first and the return
    of all metrics: the selection of the target value with the largest
    probability, which the branch for one metric more assigns to the
    first metric at this place, is missing, and the first metric is
    assigned nowhere. With the home-equity frame, the metrics
    EM_CLASSIFICATION, EM_EVENTPROBABILITY and the target values 1, 0 the
    module returned ends with the three lines of the stage, holds no
    [max(] and no assignment to EM_CLASSIFICATION, which it returns; the
    same call with three metrics assigns it. *)
Theorem same_length_metrics_return_unbound_label :
  (forall (rt : Runtime) m0 rest tvs thr h2o w,
      (2 <= List.length tvs)%nat ->
      List.length (m0 :: rest) = List.length tvs ->
      _predictions_to_metrics (MList (m0 :: rest)) (Some tvs) thr h2o w
      = (inr tt,
         append_code w
           (target_values_line tvs ++
            numbered_lines (passthrough_line h2o) 1 rest ++
            return_line (m0 :: rest))))
  /\ (forall (rt : Runtime) m0 rest tvs thr h2o w,
         (2 <= List.length tvs)%nat ->
         List.length (m0 :: rest) = (List.length tvs + 1)%nat ->
         _predictions_to_metrics (MList (m0 :: rest)) (Some tvs) thr h2o w
         = (inr tt,
            append_code w
              (target_values_line tvs ++
               numbered_lines (passthrough_line h2o) 1 rest ++
               argmax_line h2o m0 ++ return_line (m0 :: rest))))
  /\ (forall (rt : Runtime) ms tvs thr h2o w,
         (2 <= List.length tvs)%nat ->
         List.length ms <> 1%nat -> List.length ms <> List.length tvs ->
         List.length ms <> (List.length tvs + 1)%nat ->
         _predictions_to_metrics (MList ms) (Some tvs) thr h2o w
         = (inl (ValueError invalid_number_of_metrics), w))
  /\ (exists code,
         fst (write_score_code (rt := AsciiRuntime.runtime) Sample.no_session
                (Sample.hmeq_call "hmeq" ["EM_CLASSIFICATION"; "EM_EVENTPROBABILITY"]
                   (Some [PyInt 1; PyInt 0]) None)
                initial_world)
         = inr (Some [("hmeq_score.py", code)])
         /\ skipn (List.length (text_lines code) - 3) (text_lines code)
            = [ pad 4 ++ "target_values = [1, 0]";
                pad 4 ++ "EM_EVENTPROBABILITY = prediction[1]";
                pad 4 ++ "return EM_CLASSIFICATION, EM_EVENTPROBABILITY" ]
         /\ contains "max(" code = false
         /\ contains "EM_CLASSIFICATION =" code = false)
  /\ (exists code,
         fst (write_score_code (rt := AsciiRuntime.runtime) Sample.no_session
                (Sample.hmeq_call "hmeq"
                   ["EM_CLASSIFICATION"; "P_BAD1"; "P_BAD0"]
                   (Some [PyInt 1; PyInt 0]) None)
                initial_world)
         = inr (Some [("hmeq_score.py", code)])
         /\ contains
              ("EM_CLASSIFICATION = target_values[prediction.index(max(prediction))]")
              code = true).
Proof.
  split; [| split; [| split; [| split]]].
  - intros rt m0 rest tvs thr h2o w Htv Hlen.
    rewrite _predictions_to_metrics_multiclass by exact Htv.
    destruct rest as [|m1 rest]; [simpl in Hlen; lia |].
    now apply _nonbinary_targets_probabilities_only.
  - intros rt m0 rest tvs thr h2o w Htv Hlen.
    rewrite _predictions_to_metrics_multiclass by exact Htv.
    destruct rest as [|m1 rest]; [simpl in Hlen; lia |].
    now apply _nonbinary_targets_with_label.
  - intros rt ms tvs thr h2o w Htv H1 HN HN1.
    rewrite _predictions_to_metrics_multiclass by exact Htv.
    destruct ms as [|m0 [|m1 rest]]; simpl in *; try lia;
      now apply _nonbinary_targets_invalid.
  - eexists. split; [vm_compute; reflexivity |].
    split; [vm_compute; reflexivity |].
    split; vm_compute; reflexivity.
  - eexists. split; vm_compute; reflexivity.
Qed.

(** ** The metric mapping: one target value equal to 1 *)

(** C2 fails on the code in what the emitted code returns. With exactly
    one target value whose int() is 1 the stage does emit the comparison
    of the prediction (for H2O, of the positive-class probability) with
    the threshold, 0.5 when none was given, and it rejects metrics lists
    of a length other than 1 and 2. But the comparison ends with an empty
    line and the return statement follows at the first column, where the
    other mappings indent theirs: in the module of a call with the metric
    BAD and the target value 1 every line after the [def] line is
    indented or empty except the last, [return BAD], which stands
    outside the function; the same call without target values ends with
    the indented return. *)
Theorem binary_return_is_outside_the_function :
  (forall (rt : Runtime) value m thr h2o w,
      int_of value = Some 1%Z ->
      _predictions_to_metrics (MList [m]) (Some [value]) thr h2o w
      = (inr tt,
         append_code w (threshold_test h2o (threshold_text thr) m ++ "return " ++ m)))
  /\ (forall (rt : Runtime) value m0 m1 thr h2o w,
         int_of value = Some 1%Z ->
         _predictions_to_metrics (MList [m0; m1]) (Some [value]) thr h2o w
         = (inr tt,
            append_code w
              (threshold_test h2o (threshold_text thr) m0 ++
               "return " ++ m0 ++ ", " ++ positive_probability h2o)))
  /\ threshold_text None = "0.5"
  /\ (forall h2o threshold m,
         exists lines, threshold_test h2o threshold m = lines ++ nl ++ nl)
  /\ (forall metrics, return_line metrics = pad 4 ++ "return " ++ join ", " metrics)
  /\ (forall (rt : Runtime) value ms thr h2o w,
         int_of value = Some 1%Z ->
         List.length ms <> 1%nat -> List.length ms <> 2%nat ->
         _predictions_to_metrics (MList ms) (Some [value]) thr h2o w
         = (inl (ValueError "Too many metrics were provided for a binary model."), w))
  /\ (exists code,
         fst (write_score_code (rt := AsciiRuntime.runtime) Sample.no_session
                (Sample.hmeq_call "hmeq" ["BAD"] (Some [PyInt 1]) None)
                initial_world)
         = inr (Some [("hmeq_score.py", code)])
         /\ last (text_lines code) "" = "return BAD"
         /\ inside_block (last (text_lines code) "") = false
         /\ lines_after "def scorehmeq(LOAN, MORTDUE):" (text_lines code) <> []
         /\ forallb inside_block
              (removelast
                 (lines_after "def scorehmeq(LOAN, MORTDUE):" (text_lines code)))
            = true)
  /\ (exists code,
         fst (write_score_code (rt := AsciiRuntime.runtime) Sample.no_session
                (Sample.hmeq_call "hmeq" ["BAD"] None None)
                initial_world)
         = inr (Some [("hmeq_score.py", code)])
         /\ last (text_lines code) "" = pad 4 ++ "return BAD"
         /\ forallb inside_block
              (lines_after "def scorehmeq(LOAN, MORTDUE):" (text_lines code))
            = true).
Proof.
  split; [| split; [| split; [| split; [| split; [| split; [| split]]]]]].
  - intros rt value m thr h2o w Hv.
    rewrite _predictions_to_metrics_binary by exact Hv.
    apply _binary_target_single.
  - intros rt value m0 m1 thr h2o w Hv.
    rewrite _predictions_to_metrics_binary by exact Hv.
    apply _binary_target_pair.
  - reflexivity.
  - intros h2o threshold m. unfold threshold_test.
    exists (pad 4 ++ "if " ++ positive_probability h2o ++ " > " ++ threshold ++ ":" ++
            nl ++ pad 8 ++ m ++ " = 1" ++ nl ++ pad 4 ++ "else:" ++ nl ++
            pad 8 ++ m ++ " = 0").
    repeat (progress simpl || rewrite append_assoc). reflexivity.
  - reflexivity.
  - intros rt value ms thr h2o w Hv H1 H2.
    rewrite _predictions_to_metrics_binary by exact Hv.
    destruct ms as [|m0 [|m1 rest]]; simpl in *; try lia;
      now apply _binary_target_too_many.
  - eexists. split; [vm_compute; reflexivity |].
    split; [vm_compute; reflexivity |].
    split; [vm_compute; reflexivity |].
    split; [vm_compute; discriminate | vm_compute; reflexivity].
  - eexists. split; [vm_compute; reflexivity |].
    split; vm_compute; reflexivity.
Qed.

(** ** A threshold without target values *)


Section ThresholdOnly.
Context {rt : Runtime}.
Variable env : environment.




End ThresholdOnly.


(** ** The scenario: LOAN, MORTDUE and the metric BAD with target values 1, 0 *)

(** C6, as the claim states it, fails: for the prefix hmeq the generated
    text has no signature [def score_hmeq(LOAN, MORTDUE):] and compares
    nothing with 0.5, nor does it assign 1 to BAD. *)
Lemma scenario_has_no_threshold_test :
  exists code,
    fst (write_score_code (rt := AsciiRuntime.runtime) Sample.no_session
           (Sample.hmeq_call "hmeq" ["BAD"] (Some [PyInt 1; PyInt 0]) None)
           initial_world)
    = inr (Some [("hmeq_score.py", code)])
    /\ contains ("def score_" ++ "hmeq" ++ "(LOAN, MORTDUE):") code = false
    /\ contains "0.5" code = false
    /\ contains "BAD = 1" code = false.
Proof. eexists. repeat split; vm_compute; reflexivity. Qed.

Section Scenario.
Context {rt : Runtime}.
Variable env : environment.

(** C6, amended. For the predictors LOAN and MORTDUE, the metrics list
    [BAD] and the target values [1, 0], whatever the threshold, a call
    for a model that is not an H2O model and whose stages before the
    metric mapping complete leaves in the generated text the signature
    [def score<prefix>(LOAN, MORTDUE):], the prefix following [score]
    directly, and the text ends with the target_values line, the
    assignment to BAD of the target value at the index of the largest
    prediction, and [return BAD]; without a model id and a path this text
    is returned under [<prefix>_score.py]. *)
Theorem scenario_selects_argmax (a : arguments) (w : world)
  (model_id : option string) (w1 : world) :
  input_var_list_of (input_data a) = ["LOAN"; "MORTDUE"] ->
  metrics a = MList ["BAD"] ->
  target_values a = Some [PyInt 1; PyInt 0] ->
  is_h2o a = false ->
  before_metrics env a w = (inr model_id, w1) ->
  (exists head middle,
      score_code (snd (write_score_code env a w))
      = score_code w ++ head ++
        "def score" ++ model_prefix a ++ "(LOAN, MORTDUE):" ++ nl ++
        middle ++
        pad 4 ++ "target_values = [1, 0]" ++ nl ++
        pad 4 ++ "BAD = target_values[prediction.index(max(prediction))]" ++ nl ++
        pad 4 ++ "return BAD")
  /\ (truthy_opt model_id = false -> truthy_opt (score_code_path a) = false ->
      fst (write_score_code env a w)
      = inr (Some [(model_prefix a ++ "_score.py",
                    score_code (snd (write_score_code env a w)))])).
Proof.
  intros Hv Hm Ht Hh Hb.
  assert (Hmap : _predictions_to_metrics (metrics a) (target_values a)
                   (predict_threshold a) (is_h2o a) w1
                 = (inr tt,
                    append_code w1
                      (target_values_line [PyInt 1; PyInt 0] ++
                       argmax_line false "BAD" ++ return_line ["BAD"]))).
  { rewrite Hm, Ht, Hh.
    rewrite _predictions_to_metrics_multiclass by (simpl; lia).
    apply _nonbinary_targets_single. }
  destruct (write_score_code_after_metrics env a w model_id w1 _ Hb Hmap) as [Hw Hc].
  split.
  - rewrite Hc.
    apply before_metrics_layout in Hb
      as (t_imports & t_load & load & t_impute & t_predict & ws1 & ws2 & ws3 & ws4
          & _ & _ & _ & _ & _ & E).
    unfold append_code. cbn [score_code]. rewrite E.
    unfold header_text. rewrite Hv, Hm.
    exists (t_imports ++ t_load).
    exists (pad 4 ++ dq ++ "Output: BAD" ++ dq ++ nl ++ nl ++
            guard_text load ++ t_impute ++ t_predict).
    unfold target_values_line, argmax_line, argmax_target, probabilities,
      return_line, repr_list.
    repeat (progress simpl || rewrite append_assoc). reflexivity.
  - intros Hid Hp. rewrite Hw at 1.
    rewrite (after_metrics_dict env a model_id _ Hid Hp). rewrite Hc. reflexivity.
Qed.

End Scenario.

Lemma scenario_selects_argmax_witness :
  (input_var_list_of
     (input_data (Sample.hmeq_call "hmeq" ["BAD"] (Some [PyInt 1; PyInt 0]) None))
   = ["LOAN"; "MORTDUE"]
   /\ before_metrics (rt := AsciiRuntime.runtime) Sample.no_session
        (Sample.hmeq_call "hmeq" ["BAD"] (Some [PyInt 1; PyInt 0]) None)
        initial_world
      = (inr None,
         snd (before_metrics (rt := AsciiRuntime.runtime) Sample.no_session
                (Sample.hmeq_call "hmeq" ["BAD"] (Some [PyInt 1; PyInt 0]) None)
                initial_world)))
  /\ exists head middle,
       score_code
         (snd (write_score_code (rt := AsciiRuntime.runtime) Sample.no_session
                 (Sample.hmeq_call "hmeq" ["BAD"] (Some [PyInt 1; PyInt 0]) None)
                 initial_world))
       = score_code initial_world ++ head ++
         "def score" ++ "hmeq" ++ "(LOAN, MORTDUE):" ++ nl ++
         middle ++
         pad 4 ++ "target_values = [1, 0]" ++ nl ++
         pad 4 ++ "BAD = target_values[prediction.index(max(prediction))]" ++ nl ++
         pad 4 ++ "return BAD".
Proof.
  assert (Hb : before_metrics (rt := AsciiRuntime.runtime) Sample.no_session
                 (Sample.hmeq_call "hmeq" ["BAD"] (Some [PyInt 1; PyInt 0]) None)
                 initial_world
               = (inr None,
                  snd (before_metrics (rt := AsciiRuntime.runtime) Sample.no_session
                         (Sample.hmeq_call "hmeq" ["BAD"] (Some [PyInt 1; PyInt 0])
                            None)
                         initial_world))) by (vm_compute; reflexivity).
  split; [split; [reflexivity | exact Hb] |].
  exact (proj1 (scenario_selects_argmax (rt := AsciiRuntime.runtime)
                  Sample.no_session
                  (Sample.hmeq_call "hmeq" ["BAD"] (Some [PyInt 1; PyInt 0]) None)
                  initial_world None _
                  eq_refl eq_refl eq_refl eq_refl Hb)).
Defined.

(** ** The buffer across calls *)

Section Accumulation.
Context {rt : Runtime}.
Variable env : environment.

(** After the stages before the metric mapping completed, whatever the
    rest of the call does, the buffer it leaves starts with theirs. *)
Lemma write_score_code_extends a w model_id w1 :
  before_metrics env a w = (inr model_id, w1) ->
  exists t, score_code (snd (write_score_code env a w)) = score_code w1 ++ t.
Proof.
  intros Hb. rewrite write_score_code_parts. rewrite (bind_ok _ _ _ _ _ Hb).
  destruct (_predictions_to_metrics_oblivious (metrics a) (target_values a)
              (predict_threshold a) (is_h2o a)) as ([e | []] & t2 & ws2 & Hm).
  - rewrite (bind_err _ _ _ _ _ (Hm _)). now exists t2.
  - rewrite (bind_ok _ _ _ _ _ (Hm _)). rewrite after_metrics_keeps_code.
    now exists t2.
Qed.

End Accumulation.

(** C7 fails on the code. The buffer is never reset: a call appends its
    text to whatever the buffer holds, so the text it returns starts with
    the text of the calls before it. Two successive calls with the same
    arguments, the first on the fresh class: the first returns its text,
    the second returns that text twice. *)
Theorem second_call_returns_first_text :
  (forall (rt : Runtime) env a,
      exists t, forall w,
        score_code (snd (write_score_code env a w)) = score_code w ++ t)
  /\ exists code w1,
       code <> ""
       /\ write_score_code (rt := AsciiRuntime.runtime) Sample.no_session
            (Sample.hmeq_call "hmeq" ["BAD"] (Some [PyInt 1; PyInt 0]) None)
            initial_world
          = (inr (Some [("hmeq_score.py", code)]), w1)
       /\ fst (write_score_code (rt := AsciiRuntime.runtime) Sample.no_session
                 (Sample.hmeq_call "hmeq" ["BAD"] (Some [PyInt 1; PyInt 0]) None)
                 w1)
          = inr (Some [("hmeq_score.py", code ++ code)]).
Proof.
  split.
  - intros rt env a. apply write_score_code_appends.
  - eexists. eexists. split; [| split].
    2:{ vm_compute. reflexivity. }
    + discriminate.
    + vm_compute. reflexivity.
Qed.

(** ** The model load *)

Section ModelLoad.
Context {rt : Runtime}.
Variable env : environment.

Lemma _viya4_model_load_pickle model_file_name pickle_type w :
  _viya4_model_load model_file_name pickle_type false false w
  = (inr (viya4_pickle_guard (str_opt model_file_name) (module_or_pickle pickle_type)),
     append_code w
       (viya4_pickle_load (str_opt model_file_name) (module_or_pickle pickle_type))).
Proof.
  unfold _viya4_model_load, viya4_pickle_guard, viya4_pickle_load, module_or_pickle.
  cbv zeta. unfold bind, emit, ret.
  apply f_equal2; [apply f_equal | apply f_equal];
    repeat (progress simpl || rewrite append_assoc); reflexivity.
Qed.

Lemma _viya35_model_load_pickle model_id model_file_name pickle_type w :
  _viya35_model_load model_id model_file_name pickle_type false false w
  = (inr (viya35_pickle_guard model_id (str_opt model_file_name)
            (module_or_pickle pickle_type)),
     append_code w
       (viya35_pickle_load model_id (str_opt model_file_name)
          (module_or_pickle pickle_type))).
Proof.
  unfold _viya35_model_load, viya35_pickle_guard, viya35_pickle_load, module_or_pickle.
  cbv zeta. unfold bind, emit, ret.
  apply f_equal2; [apply f_equal | apply f_equal];
    repeat (progress simpl || rewrite append_assoc); reflexivity.
Qed.

Lemma model_load_stage_pickle a model_id w :
  is_h2o a = false ->
  kw_binary_string (kwargs a) = None ->
  model_load_stage a model_id w
  = (inr (Some (if truthy_opt model_id
                then viya35_pickle_guard (str_opt model_id)
                       (str_opt (pickle_type a)) (module_or_pickle (model_file_name a))
                else viya4_pickle_guard
                       (str_opt (pickle_type a)) (module_or_pickle (model_file_name a)))),
     append_code w
       (if truthy_opt model_id
        then viya35_pickle_load (str_opt model_id)
               (str_opt (pickle_type a)) (module_or_pickle (model_file_name a))
        else viya4_pickle_load
               (str_opt (pickle_type a)) (module_or_pickle (model_file_name a)))).
Proof.
  intros Hh Hbin. unfold is_h2o in Hh. apply orb_false_iff in Hh as [Hmojo Hbh].
  unfold model_load_stage, model_file_name_used. rewrite Hbin, Hmojo, Hbh.
  cbn [truthy_obj negb]. rewrite andb_true_r.
  destruct (truthy_opt model_id); unfold bind.
  - now rewrite _viya35_model_load_pickle.
  - now rewrite _viya4_model_load_pickle.
Qed.

(** The buffer of a call extends the buffer its stages before the metric
    mapping leave, whether they complete or not. *)
Lemma write_score_code_extends_any a w :
  exists t,
    score_code (snd (write_score_code env a w))
    = score_code (snd (before_metrics env a w)) ++ t.
Proof.
  destruct (before_metrics env a w) as [[e | model_id] w1] eqn:Hb.
  - exists "". rewrite write_score_code_parts. rewrite (bind_err _ _ _ _ _ Hb).
    simpl. now rewrite append_nil_r.
  - apply (write_score_code_extends env a w model_id w1 Hb).
Qed.

(** Once the names are checked and the model id is settled, a call
    without H2O flag and binary string writes the imports, the load block
    with the arguments as write_score_code passes them, the header and
    the guarded load, whatever the later stages do. *)
Lemma before_metrics_through_load a w model_id wb :
  is_h2o a = false ->
  kw_binary_string (kwargs a) = None ->
  forallb isidentifier (input_var_list_of (input_data a)) = true ->
  model_id_stage env a w = (inr model_id, wb) ->
  exists imports rest,
    score_code (snd (before_metrics env a w))
    = score_code w ++ imports ++
      (if truthy_opt model_id
       then viya35_pickle_load (str_opt model_id)
              (str_opt (pickle_type a)) (module_or_pickle (model_file_name a))
       else viya4_pickle_load
              (str_opt (pickle_type a)) (module_or_pickle (model_file_name a))) ++
      header_text a ++ name_error_guard ++
      (if truthy_opt model_id
       then viya35_pickle_guard (str_opt model_id)
              (str_opt (pickle_type a)) (module_or_pickle (model_file_name a))
       else viya4_pickle_guard
              (str_opt (pickle_type a)) (module_or_pickle (model_file_name a))) ++
      rest.
Proof.
  intros Hh Hbin Hid H2.
  assert (E2 : score_code wb = score_code w).
  { revert H2. unfold model_id_stage.
    destruct (current_session env) as [[|]|].
    - unfold bind, _get_model_id.
      destruct (negb (truthy_opt (model a))); [discriminate |].
      destruct (get_model env _); [| discriminate]. now intros [= _ <-].
    - now intros [= _ <-].
    - now intros [= _ <-]. }
  destruct (_write_imports_oblivious env (pickle_type a) (kw_mojo_model (kwargs a))
              (kw_binary_h2o_model (kwargs a)) (kw_binary_string (kwargs a)))
    as (r3 & t3 & ws3 & W3).
  assert (H3 : r3 = inr tt).
  { destruct (_write_imports_completes env (pickle_type a) (kw_mojo_model (kwargs a))
                (kw_binary_h2o_model (kwargs a)) (kw_binary_string (kwargs a)) wb)
      as (wc & Hc).
    rewrite W3 in Hc. now injection Hc. }
  subst r3.
  pose proof (model_load_stage_pickle a model_id (effect wb t3 ws3) Hh Hbin) as H4.
  unfold model_load_stage, model_file_name_used in H4.
  unfold model_id_stage in H2.
  unfold before_metrics. cbv zeta.
  rewrite (bind_ok _ _ _ _ _ (_check_for_invalid_variable_names_passes _ w Hid)).
  rewrite (bind_ok _ _ _ _ _ H2).
  rewrite (bind_ok _ _ _ _ _ (W3 wb)).
  rewrite (bind_ok _ _ _ _ _ H4).
  unfold bind at 1. unfold emit at 1.
  match goal with |- context [truthy_opt (Some ?g)] =>
    replace (truthy_opt (Some g)) with true
      by (destruct (truthy_opt model_id); reflexivity) end.
  unfold bind at 1. unfold emit at 1.
  match goal with |- context [snd (?c ?w0)] =>
    assert (Ho : oblivious c); [| destruct (c w0) as [r w1] eqn:Hr;
                                 destruct (oblivious_run _ _ _ _ Ho Hr)
                                   as (rest & Hrest & _)] end.
  { apply oblivious_bind; [| intros _].
    - destruct (missing_values a);
        [apply _impute_missing_values_oblivious | apply oblivious_ret].
    - apply oblivious_bind; [| intros _; apply oblivious_ret].
      match goal with |- oblivious (if ?b then _ else _) => destruct b end;
        apply _predict_method_oblivious. }
  exists t3, rest. cbn [snd]. rewrite Hrest.
  unfold append_code, effect. cbn [score_code]. rewrite E2.
  unfold header_text, name_error_guard. cbn [str_opt].
  repeat rewrite append_assoc. reflexivity.
Qed.

(** C8. The load helpers open the file named by their [model_file_name]
    parameter and call [load] of the module named by their [pickle_type]
    parameter. write_score_code passes its pickle_type in the place of
    [model_file_name] and its model_file_name in the place of
    [pickle_type]: for every call that is not an H2O call and carries no
    binary string, once the predictor names are checked and the model id
    is settled, the buffer the call leaves holds, after the imports, the
    load block that opens the file named by the pickle_type argument and
    calls [<model_file_name>.load] ([pickle.load] when model_file_name is
    empty), then the function header and the same swapped block under the
    NameError handler; with a model id the SAS Viya 3.5 block, without one
    the SAS Viya 4 block. *)
Theorem load_block_swaps_arguments (a : arguments) (w : world)
  (model_id : option string) (wb : world) :
  is_h2o a = false ->
  kw_binary_string (kwargs a) = None ->
  forallb isidentifier (input_var_list_of (input_data a)) = true ->
  model_id_stage env a w = (inr model_id, wb) ->
  let file := str_opt (pickle_type a) in
  let module := module_or_pickle (model_file_name a) in
  (forall f p w0,
      _viya4_model_load f p false false w0
      = (inr (viya4_pickle_guard (str_opt f) (module_or_pickle p)),
         append_code w0 (viya4_pickle_load (str_opt f) (module_or_pickle p)))
      /\ forall id,
           _viya35_model_load id f p false false w0
           = (inr (viya35_pickle_guard id (str_opt f) (module_or_pickle p)),
              append_code w0 (viya35_pickle_load id (str_opt f) (module_or_pickle p))))
  /\ (forall name, model_file_name a = Some name -> name <> "" -> module = name)
  /\ exists imports rest,
       score_code (snd (write_score_code env a w))
       = score_code w ++ imports ++
         (if truthy_opt model_id
          then viya35_pickle_load (str_opt model_id) file module
          else viya4_pickle_load file module) ++
         header_text a ++ name_error_guard ++
         (if truthy_opt model_id
          then viya35_pickle_guard (str_opt model_id) file module
          else viya4_pickle_guard file module) ++
         rest.
Proof.
  intros Hh Hbin Hid H2 file module. split; [| split].
  - intros f p w0. split; [apply _viya4_model_load_pickle |].
    intros id. apply _viya35_model_load_pickle.
  - intros name Hn Hne. unfold module, module_or_pickle. rewrite Hn. simpl.
    unfold truthy_str. apply String.eqb_neq in Hne. now rewrite Hne.
  - subst file module.
    destruct (before_metrics_through_load a w model_id wb Hh Hbin Hid H2)
      as (imports & rest & E).
    destruct (write_score_code_extends_any a w) as (t & ->).
    exists imports, (rest ++ t). rewrite E.
    repeat rewrite append_assoc. reflexivity.
Qed.

End ModelLoad.

Lemma load_block_swaps_arguments_witness :
  (is_h2o (Sample.hmeq_call "hmeq" ["BAD"] (Some [PyInt 1; PyInt 0]) None) = false
   /\ kw_binary_string
        (kwargs (Sample.hmeq_call "hmeq" ["BAD"] (Some [PyInt 1; PyInt 0]) None))
      = None
   /\ forallb AsciiRuntime.isidentifier
        (input_var_list_of
           (input_data (Sample.hmeq_call "hmeq" ["BAD"] (Some [PyInt 1; PyInt 0]) None)))
      = true
   /\ model_id_stage Sample.no_session
        (Sample.hmeq_call "hmeq" ["BAD"] (Some [PyInt 1; PyInt 0]) None)
        initial_world
      = (inr None, add_warning initial_world no_session_warning))
  /\ exists imports rest,
       score_code
         (snd (write_score_code (rt := AsciiRuntime.runtime) Sample.no_session
                 (Sample.hmeq_call "hmeq" ["BAD"] (Some [PyInt 1; PyInt 0]) None)
                 initial_world))
       = score_code initial_world ++ imports ++
         viya4_pickle_load "pickle" "hmeq.pickle" ++
         header_text (Sample.hmeq_call "hmeq" ["BAD"] (Some [PyInt 1; PyInt 0]) None) ++
         name_error_guard ++
         viya4_pickle_guard "pickle" "hmeq.pickle" ++
         rest.
Proof.
  split; [split; [reflexivity | split; [reflexivity | split; reflexivity]] |].
  exact (proj2 (proj2 (load_block_swaps_arguments (rt := AsciiRuntime.runtime)
                         Sample.no_session
                         (Sample.hmeq_call "hmeq" ["BAD"] (Some [PyInt 1; PyInt 0]) None)
                         initial_world None _ eq_refl eq_refl eq_refl eq_refl))).
Defined.

(** ** The prediction call of a statsmodels model *)

Section Statsmodels.
Context {rt : Runtime}.
Variable env : environment.

Lemma _predict_method_statsmodels method var_list w :
  _predict_method method var_list None true w
  = (inr tt, append_code w (statsmodels_block method var_list)).
Proof.
  unfold _predict_method, statsmodels_block, statsmodels_frame, assignment, emit.
  cbv zeta. apply f_equal. apply f_equal.
  repeat (progress simpl || rewrite append_assoc). reflexivity.
Qed.

(** C10. With the statsmodels flag and no H2O flag, the prediction block
    is two assignments: the frame is bound to [inputArray], and
    [prediction] is bound to the predict call on [input_array], a name
    that is neither of the two names the block binds. For every such
    call whose stages before the metric mapping complete, the buffer they
    leave ends with this block, and the buffer the call leaves holds
    it. *)
Theorem statsmodels_block_uses_unbound_name (a : arguments) (w : world)
  (model_id : option string) (w1 : world) :
  is_h2o a = false ->
  kw_statsmodels_model (kwargs a) = true ->
  before_metrics env a w = (inr model_id, w1) ->
  let var_list := input_var_list_of (input_data a) in
  (forall method vars w0,
      _predict_method method vars None true w0
      = (inr tt,
         append_code w0
           (assignment "inputArray" (statsmodels_frame vars) ++
            assignment "prediction"
              ("model." ++ method ++ "(" ++ "input_array" ++ ")"))))
  /\ "inputArray" <> "input_array" /\ "prediction" <> "input_array"
  /\ (exists before,
         score_code w1
         = score_code w ++ before ++ statsmodels_block (predict_method a) var_list)
  /\ contains (statsmodels_block (predict_method a) var_list)
       (score_code (snd (write_score_code env a w))) = true.
Proof.
  intros Hh Hs Hb var_list.
  assert (Hc : exists before,
             score_code w1
             = score_code w ++ before ++
               statsmodels_block (predict_method a) var_list).
  { apply before_metrics_layout in Hb
      as (t_imports & t_load & load & t_impute & t_predict & ws1 & ws2 & ws3 & ws4
          & _ & _ & _ & _ & W4 & E).
    assert (Hp : predict_stage a w
                 = (inr tt,
                    append_code w (statsmodels_block (predict_method a) var_list))).
    { unfold predict_stage. rewrite Hh, Hs. apply _predict_method_statsmodels. }
    destruct (writes_text _ _ _ _ _ w _ W4 Hp) as [_ ->].
    exists (t_imports ++ t_load ++ header_text a ++ guard_text load ++ t_impute).
    rewrite E. repeat rewrite append_assoc. reflexivity. }
  split; [| split; [| split; [| split]]].
  - intros method vars w0. apply _predict_method_statsmodels.
  - discriminate.
  - discriminate.
  - exact Hc.
  - destruct Hc as (before & Hc).
    destruct (write_score_code_extends env a w model_id w1 Hb) as (t & ->).
    apply contains_spec. exists (score_code w ++ before), t.
    rewrite Hc. repeat rewrite append_assoc. reflexivity.
Qed.

End Statsmodels.

Lemma statsmodels_block_uses_unbound_name_witness :
  (is_h2o Sample.statsmodels_call = false
   /\ kw_statsmodels_model (kwargs Sample.statsmodels_call) = true
   /\ before_metrics (rt := AsciiRuntime.runtime) Sample.no_session
        Sample.statsmodels_call initial_world
      = (inr None,
         snd (before_metrics (rt := AsciiRuntime.runtime) Sample.no_session
                Sample.statsmodels_call initial_world)))
  /\ contains
       (assignment "inputArray" (statsmodels_frame ["LOAN"; "MORTDUE"]) ++
        assignment "prediction" "model.predict(input_array)")
       (score_code
          (snd (write_score_code (rt := AsciiRuntime.runtime) Sample.no_session
                  Sample.statsmodels_call initial_world))) = true.
Proof.
  assert (Hb : before_metrics (rt := AsciiRuntime.runtime) Sample.no_session
                 Sample.statsmodels_call initial_world
               = (inr None,
                  snd (before_metrics (rt := AsciiRuntime.runtime) Sample.no_session
                         Sample.statsmodels_call initial_world)))
    by (vm_compute; reflexivity).
  split; [split; [reflexivity | split; [reflexivity | exact Hb]] |].
  exact (proj2 (proj2 (proj2 (proj2
           (statsmodels_block_uses_unbound_name (rt := AsciiRuntime.runtime)
              Sample.no_session Sample.statsmodels_call initial_world None _
              eq_refl eq_refl Hb))))).
Defined.

(** ** The imputation of missing values *)

Lemma filter_none {A : Type} (p : A -> bool) (l : list A) :
  (forall x, In x l -> p x = false) -> filter p l = [].
Proof.
  induction l as [|x l IH]; intros H; [reflexivity |]. simpl.
  rewrite (H x (or_introl eq_refl)). apply IH. intros y Hy. apply H. now right.
Qed.

Lemma filter_unique_label (columns : list column) (c : column) :
  NoDup (map col_name columns) -> In c columns ->
  filter (fun x => col_name x =? col_name c) columns = [c].
Proof.
  induction columns as [|x l IH]; intros Hnd Hin; [destruct Hin |].
  simpl in Hnd. inversion Hnd as [|? ? Hx Hl]; subst. simpl.
  destruct Hin as [-> | Hin].
  - rewrite String.eqb_refl. f_equal. apply filter_none.
    intros y Hy. apply String.eqb_neq. intros E. apply Hx. rewrite <- E.
    now apply in_map.
  - destruct (String.eqb_spec (col_name x) (col_name c)) as [E | _].
    + exfalso. apply Hx. rewrite E. now apply in_map.
    + now apply IH.
Qed.

Lemma cat_In {A : Type} (f : A -> string) (l : list A) (x : A) :
  In x l -> exists before after, cat (map f l) = before ++ f x ++ after.
Proof.
  induction l as [|y l IH]; intros Hin; [destruct Hin |]. simpl.
  destruct Hin as [-> | Hin].
  - now exists "", (cat (map f l)).
  - destruct (IH Hin) as (b & a & ->). exists (f y ++ b), a.
    now rewrite append_assoc.
Qed.

Section Imputation.
Context {rt : Runtime}.
Variable env : environment.

Lemma impute_one_unique columns c w :
  filter (fun x => col_name x =? col_name c) columns = [c] ->
  impute_one columns (col_name c, col_dtype c) w
  = (inr tt, append_code w (column_imputation c)).
Proof.
  intros Hf. unfold impute_one, column_imputation.
  destruct (is_numeric_dtype (col_dtype c)).
  - unfold _impute_numeric, data_column, bind. rewrite Hf. unfold ret.
    destruct (col_stats c); unfold emit, numeric_imputation;
      apply f_equal; apply f_equal;
      repeat (progress simpl || rewrite append_assoc); reflexivity.
  - unfold _impute_char, emit, char_imputation.
    apply f_equal; apply f_equal;
      repeat (progress simpl || rewrite append_assoc); reflexivity.
Qed.

Lemma impute_one_inv columns c w w' :
  In c columns ->
  impute_one columns (col_name c, col_dtype c) w = (inr tt, w') ->
  w' = append_code w (column_imputation c).
Proof.
  intros Hin H.
  destruct (is_numeric_dtype (col_dtype c)) eqn:En.
  - assert (Hf : filter (fun x => col_name x =? col_name c) columns = [c]).
    { assert (Hc : In c (filter (fun x => col_name x =? col_name c) columns)).
      { apply filter_In. split; [exact Hin | apply String.eqb_refl]. }
      revert H. unfold impute_one. rewrite En.
      unfold _impute_numeric, data_column, bind.
      destruct (filter _ columns) as [|c1 [|c2 l]]; try discriminate.
      destruct Hc as [-> | []]. reflexivity. }
    rewrite (impute_one_unique _ _ _ Hf) in H. now injection H as <-.
  - revert H. unfold impute_one, column_imputation. rewrite En.
    unfold _impute_char, emit, char_imputation. intros [= <-].
    apply f_equal. repeat (progress simpl || rewrite append_assoc). reflexivity.
Qed.

Lemma impute_loop_unique columns (rest : list column) : forall w,
  (forall c, In c rest ->
     filter (fun x => col_name x =? col_name c) columns = [c]) ->
  for_each (combine (map col_name rest) (map col_dtype rest)) (impute_one columns) w
  = (inr tt, append_code w (cat (map column_imputation rest))).
Proof.
  induction rest as [|c rest IH]; intros w H; cbn [for_each combine map cat].
  - now rewrite append_code_nil.
  - unfold bind. rewrite impute_one_unique by (apply H; now left).
    rewrite IH by (intros x Hx; apply H; now right).
    now rewrite append_code_append.
Qed.

Lemma impute_loop_inv columns (rest : list column) : forall w w',
  (forall c, In c rest -> In c columns) ->
  for_each (combine (map col_name rest) (map col_dtype rest)) (impute_one columns) w
  = (inr tt, w') ->
  w' = append_code w (cat (map column_imputation rest)).
Proof.
  induction rest as [|c rest IH]; intros w w' Hsub H;
    cbn [for_each combine map cat] in *.
  - unfold ret in H. injection H as <-. now rewrite append_code_nil.
  - apply bind_inv in H as ([] & wm & H1 & H2).
    apply impute_one_inv in H1; [| apply Hsub; now left]. subst wm.
    apply IH in H2; [| intros x Hx; apply Hsub; now right].
    now rewrite H2, append_code_append.
Qed.

(** On a frame whose column labels are distinct the imputation completes
    and appends the block of its columns. *)
Lemma _impute_missing_values_frame columns w :
  NoDup (map col_name columns) ->
  _impute_missing_values (DataFrame columns)
    (map col_name columns) (map col_dtype columns) w
  = (inr tt, append_code w (imputation_block columns)).
Proof.
  intros Hnd. unfold _impute_missing_values, imputation_block.
  change (fun '(var, dtype) =>
            if is_numeric_dtype dtype then _impute_numeric (DataFrame columns) var
            else _impute_char var) with (impute_one columns).
  unfold bind. rewrite impute_loop_unique.
  - unfold emit. now rewrite append_code_append.
  - intros c Hc. now apply filter_unique_label.
Qed.

(** Whenever the imputation completes on a frame, it appended that
    block. *)
Lemma _impute_missing_values_inv columns w w' :
  _impute_missing_values (DataFrame columns)
    (map col_name columns) (map col_dtype columns) w = (inr tt, w') ->
  w' = append_code w (imputation_block columns).
Proof.
  unfold _impute_missing_values, imputation_block.
  change (fun '(var, dtype) =>
            if is_numeric_dtype dtype then _impute_numeric (DataFrame columns) var
            else _impute_char var) with (impute_one columns).
  intros H. apply bind_inv in H as ([] & wm & H1 & H2).
  apply impute_loop_inv in H1; [| auto]. subst wm.
  unfold emit in H2. injection H2 as <-. now rewrite append_code_append.
Qed.

End Imputation.

Section ImputationClaim.
Context {rt : Runtime}.
Variable env : environment.

Lemma numeric_imputation_clause var value clause :
  exists before,
    numeric_imputation var value clause
    = before ++ pad 4 ++ clause ++ nl ++ pad 8 ++ var ++ " = " ++ value ++ nl.
Proof.
  unfold numeric_imputation.
  exists (pad 4 ++ "try:" ++ nl ++ pad 8 ++ "if math.isnan(" ++ var ++ "):" ++ nl ++
          pad 12 ++ var ++ " = " ++ value ++ nl).
  repeat (progress simpl || rewrite append_assoc). reflexivity.
Qed.

Lemma imputation_block_clause columns c value clause :
  In c columns ->
  column_imputation c = numeric_imputation (col_name c) value clause ->
  contains (pad 4 ++ clause ++ nl ++ pad 8 ++ col_name c ++ " = " ++ value ++ nl)
    (imputation_block columns) = true.
Proof.
  intros Hin Hc. apply contains_spec. unfold imputation_block.
  destruct (cat_In column_imputation columns c Hin) as (b & a & ->).
  rewrite Hc. destruct (numeric_imputation_clause (col_name c) value clause) as (b' & ->).
  exists (b ++ b'), (a ++ nl). repeat rewrite append_assoc. reflexivity.
Qed.

(** C9. With missing_values set and a frame as input, a numeric column
    (its dtype text holds int or float) whose values are not all 0 or 1
    gets an imputation block whose handler line is [except TypeError]
    followed directly by the newline, without the colon; a numeric 0/1
    column gets [except TypeError:] with the colon. On a frame with
    distinct column labels the imputation stage completes and appends the
    block of all columns; and for every call whose stages before the
    metric mapping complete, the buffer they leave holds that block, and
    the buffer the call leaves holds the line without the colon. That a
    handler line without colon is no Python is outside this model. *)
Theorem numeric_imputation_lacks_colon (a : arguments) (w : world)
  (model_id : option string) (w1 : world)
  (columns : list column) (c : column) (mean : string) :
  missing_values a = true ->
  input_data a = DataFrame columns ->
  In c columns ->
  is_numeric_dtype (col_dtype c) = true ->
  col_stats c = NotBinary mean ->
  before_metrics env a w = (inr model_id, w1) ->
  let line :=
    pad 4 ++ "except TypeError" ++ nl ++ pad 8 ++ col_name c ++ " = " ++ mean ++ nl in
  (NoDup (map col_name columns) ->
   forall w0,
     _impute_missing_values (DataFrame columns)
       (map col_name columns) (map col_dtype columns) w0
     = (inr tt, append_code w0 (imputation_block columns)))
  /\ contains line (imputation_block columns) = true
  /\ (forall c' mode,
         In c' columns -> is_numeric_dtype (col_dtype c') = true ->
         col_stats c' = AllBinary mode ->
         contains
           (pad 4 ++ "except TypeError:" ++ nl ++ pad 8 ++ col_name c' ++ " = " ++
            mode ++ nl)
           (imputation_block columns) = true)
  /\ (exists before after,
         score_code w1 = score_code w ++ before ++ imputation_block columns ++ after)
  /\ contains line (score_code (snd (write_score_code env a w))) = true.
Proof.
  intros Hmv Hdata Hin Hnum Hstats Hb line.
  assert (Hline : contains line (imputation_block columns) = true).
  { apply (imputation_block_clause columns c mean "except TypeError" Hin).
    unfold column_imputation. now rewrite Hnum, Hstats. }
  assert (Hc : exists before after,
             score_code w1
             = score_code w ++ before ++ imputation_block columns ++ after).
  { apply before_metrics_layout in Hb
      as (t_imports & t_load & load & t_impute & t_predict & ws1 & ws2 & ws3 & ws4
          & _ & _ & _ & W3 & _ & E).
    assert (Hi : t_impute = imputation_block columns).
    { specialize (W3 w). unfold impute_stage in W3.
      rewrite Hmv, Hdata in W3. cbn [input_var_list_of input_dtypes_list_of] in W3.
      apply _impute_missing_values_inv in W3.
      apply (f_equal score_code) in W3. cbn [effect append_code score_code] in W3.
      now apply append_inv_head in W3. }
    subst t_impute.
    exists (t_imports ++ t_load ++ header_text a ++ guard_text load), t_predict.
    rewrite E. repeat rewrite append_assoc. reflexivity. }
  split; [| split; [| split; [| split]]].
  - intros Hnd w0. now apply _impute_missing_values_frame.
  - exact Hline.
  - intros c' mode Hin' Hnum' Hstats'.
    apply (imputation_block_clause columns c' mode "except TypeError:" Hin').
    unfold column_imputation. now rewrite Hnum', Hstats'.
  - exact Hc.
  - destruct Hc as (before & after & Hc).
    destruct (write_score_code_extends env a w model_id w1 Hb) as (t & ->).
    rewrite Hc. apply contains_spec in Hline as (x & y & ->).
    apply contains_spec. exists (score_code w ++ before ++ x), (y ++ after ++ t).
    repeat rewrite append_assoc. reflexivity.
Qed.

End ImputationClaim.

Lemma numeric_imputation_lacks_colon_witness :
  (missing_values Sample.imputing_call = true
   /\ In (mk_column "LOAN" "int64" (NotBinary "18607.97"))
        [ mk_column "LOAN" "int64" (NotBinary "18607.97");
          mk_column "DELINQ" "int64" (AllBinary "0");
          mk_column "JOB" "object" (NotBinary "nan") ]
   /\ is_numeric_dtype "int64" = true
   /\ before_metrics (rt := AsciiRuntime.runtime) Sample.no_session
        Sample.imputing_call initial_world
      = (inr None,
         snd (before_metrics (rt := AsciiRuntime.runtime) Sample.no_session
                Sample.imputing_call initial_world)))
  /\ contains
       (pad 4 ++ "except TypeError" ++ nl ++ pad 8 ++ "LOAN = 18607.97" ++ nl)
       (score_code
          (snd (write_score_code (rt := AsciiRuntime.runtime) Sample.no_session
                  Sample.imputing_call initial_world))) = true.
Proof.
  assert (Hin : In (mk_column "LOAN" "int64" (NotBinary "18607.97"))
                  [ mk_column "LOAN" "int64" (NotBinary "18607.97");
                    mk_column "DELINQ" "int64" (AllBinary "0");
                    mk_column "JOB" "object" (NotBinary "nan") ])
    by (simpl; auto).
  assert (Hb : before_metrics (rt := AsciiRuntime.runtime) Sample.no_session
                 Sample.imputing_call initial_world
               = (inr None,
                  snd (before_metrics (rt := AsciiRuntime.runtime) Sample.no_session
                         Sample.imputing_call initial_world)))
    by (vm_compute; reflexivity).
  split; [split; [reflexivity | split; [exact Hin | split; [reflexivity | exact Hb]]] |].
  exact (proj2 (proj2 (proj2 (proj2
           (numeric_imputation_lacks_colon (rt := AsciiRuntime.runtime)
              Sample.no_session Sample.imputing_call initial_world None _
              _ (mk_column "LOAN" "int64" (NotBinary "18607.97")) "18607.97"
              eq_refl eq_refl Hin eq_refl eq_refl Hb))))).
Defined.

(** ** The MAS-to-CAS rewrite *)






Section Converter.
Context {rt : Runtime}.
Variable env : environment.



End Converter.


(** ** Calls whose stages before the metric mapping complete *)

Section Completion.
Context {rt : Runtime}.
Variable env : environment.

(** The stages before the metric mapping complete when the predictor
    names are identifiers, the model is found if the session is a SAS
    Viya 3.5 session, the model is no MOJO model, and missing values are
    imputed only on a frame with distinct column labels. *)
Lemma before_metrics_completes (a : arguments) (w : world) :
  forallb isidentifier (input_var_list_of (input_data a)) = true ->
  (current_session env = Some Viya35 ->
   truthy_opt (model a) = true /\ get_model env (str_opt (model a)) <> None) ->
  kw_mojo_model (kwargs a) = false ->
  (missing_values a = true ->
   exists columns,
     input_data a = DataFrame columns /\ NoDup (map col_name columns)) ->
  exists model_id w1, before_metrics env a w = (inr model_id, w1).
Proof.
  intros Hid Hsession Hmojo Hframe. unfold before_metrics. cbv zeta.
  rewrite (bind_ok _ _ _ _ _ (_check_for_invalid_variable_names_passes _ w Hid)).
  assert (H2 : exists model_id wb,
             match current_session env with
             | Some Viya35 => id <- _get_model_id env (model a) ;; ret (Some id)
             | Some ViyaOther => ret None
             | None => warn no_session_warning ;; ret None
             end w = (inr model_id, wb)).
  { destruct (current_session env) as [[|]|].
    - destruct (Hsession eq_refl) as [Ht Hg].
      unfold bind, _get_model_id. rewrite Ht. simpl negb. cbv iota.
      destruct (get_model env (str_opt (model a))); [| now destruct Hg].
      eexists. eexists. reflexivity.
    - eexists. eexists. reflexivity.
    - eexists. eexists. reflexivity. }
  destruct H2 as (model_id & wb & H2). rewrite (bind_ok _ _ _ _ _ H2).
  destruct (_write_imports_completes env (pickle_type a) (kw_mojo_model (kwargs a))
              (kw_binary_h2o_model (kwargs a)) (kw_binary_string (kwargs a)) wb)
    as (wc & H3).
  rewrite (bind_ok _ _ _ _ _ H3). rewrite Hmojo. cbn [orb].
  match goal with |- context [bind ?c _ wc] =>
    assert (H4 : exists load wd, c wc = (inr load, wd)) end.
  { unfold _viya35_model_load, _viya4_model_load. cbv zeta.
    repeat match goal with
           | |- context [if ?b then _ else _] => destruct b
           end; eexists; eexists; reflexivity. }
  destruct H4 as (load & wd & H4). rewrite (bind_ok _ _ _ _ _ H4).
  unfold bind at 1. unfold emit at 1.
  match goal with |- context [bind ?c _ (append_code wd ?t)] =>
    assert (H5 : exists we, c (append_code wd t) = (inr tt, we)) end.
  { destruct (truthy_opt load); eexists; reflexivity. }
  destruct H5 as (we & H5). rewrite (bind_ok _ _ _ _ _ H5).
  match goal with |- context [bind ?c _ we] =>
    assert (H6 : exists wf, c we = (inr tt, wf)) end.
  { destruct (missing_values a); [| eexists; reflexivity].
    destruct (Hframe eq_refl) as (columns & -> & Hnd).
    cbn [input_var_list_of input_dtypes_list_of].
    eexists. now apply _impute_missing_values_frame. }
  destruct H6 as (wf & H6). rewrite (bind_ok _ _ _ _ _ H6).
  match goal with |- context [bind ?c _ wf] =>
    assert (H7 : exists w1, c wf = (inr tt, w1)) end.
  { destruct (kw_binary_h2o_model (kwargs a)); apply _predict_method_completes. }
  destruct H7 as (w1 & H7). rewrite (bind_ok _ _ _ _ _ H7).
  now exists model_id, w1.
Qed.

End Completion.

(** * Further properties of the generator *)

(** ** The metric mapping outside the binary and multiclass cases *)

Section OtherMappings.
Context {rt : Runtime}.
Variable env : environment.

Lemma with_threshold_same (a : arguments) :
  with_threshold a (predict_threshold a) = a.
Proof. destruct a; reflexivity. Qed.

(** The parts of a call before and after the metric mapping do not look
    at the threshold. *)
Lemma write_score_code_threshold (a : arguments) (t1 t2 : option pyobj) (w : world) :
  (forall w1,
      _predictions_to_metrics (metrics a) (target_values a) t1 (is_h2o a) w1
      = _predictions_to_metrics (metrics a) (target_values a) t2 (is_h2o a) w1) ->
  write_score_code env (with_threshold a t1) w
  = write_score_code env (with_threshold a t2) w.
Proof.
  intros H. rewrite 2 write_score_code_parts.
  change (before_metrics env (with_threshold a t1)) with (before_metrics env a).
  change (before_metrics env (with_threshold a t2)) with (before_metrics env a).
  apply bind_cong. intros model_id w1.
  change (metrics (with_threshold a t1)) with (metrics a).
  change (metrics (with_threshold a t2)) with (metrics a).
  change (target_values (with_threshold a t1)) with (target_values a).
  change (target_values (with_threshold a t2)) with (target_values a).
  change (predict_threshold (with_threshold a t1)) with t1.
  change (predict_threshold (with_threshold a t2)) with t2.
  change (is_h2o (with_threshold a t1)) with (is_h2o a).
  change (is_h2o (with_threshold a t2)) with (is_h2o a).
  unfold bind. rewrite H. reflexivity.
Qed.

Lemma _predictions_to_metrics_falsy_threshold metrics tvs t h2o w :
  py_bool t = false ->
  _predictions_to_metrics metrics tvs (Some t) h2o w
  = _predictions_to_metrics metrics tvs None h2o w.
Proof.
  intros H. unfold _predictions_to_metrics, _binary_target, truthy_obj.
  rewrite H. reflexivity.
Qed.

(** X1. One target value whose int() is not 1 (or that int() rejects)
    ends the metric mapping with ValueError before anything is appended,
    whatever the metrics and the threshold: a single target value is
    taken as binary only if it is 1. The generation call that got this
    far fails with that error. *)
Theorem single_target_other_than_one_rejected (value : pyval) (ms : metrics_t)
  (thr : option pyobj) (h2o : bool) (w : world) :
  int_of value <> Some 1%Z ->
  let error :=
    ValueError
      match int_of value with
      | Some _ => single_target_message
      | None => "invalid literal for int() with base 10: " ++ repr value
      end in
  _predictions_to_metrics ms (Some [value]) thr h2o w = (inl error, w)
  /\ forall a w0 model_id,
       metrics a = ms -> target_values a = Some [value] ->
       predict_threshold a = thr -> is_h2o a = h2o ->
       before_metrics env a w0 = (inr model_id, w) ->
       write_score_code env a w0 = (inl error, w).
Proof.
  intros Hv error.
  assert (H : _predictions_to_metrics ms (Some [value]) thr h2o w = (inl error, w)).
  { unfold _predictions_to_metrics, error. cbv zeta. cbn [orb negb andb List.length].
    cbn [Nat.ltb Nat.leb]. unfold bind, int_of_target.
    destruct (int_of value) as [z|]; [| reflexivity].
    unfold ret. destruct (Z.eqb_spec z 1) as [-> | _]; [now destruct Hv |].
    reflexivity. }
  split; [exact H |].
  intros a w0 mid Hm Ht Hthr Hh Hb.
  apply write_score_code_metric_error with mid w; [exact Hb |].
  now rewrite Hm, Ht, Hthr, Hh.
Qed.

End OtherMappings.

Lemma single_target_other_than_one_rejected_witness :
  int_of (rt := AsciiRuntime.runtime) (PyStr "0") <> Some 1%Z
  /\ _predictions_to_metrics (rt := AsciiRuntime.runtime)
       (MList ["BAD"]) (Some [PyStr "0"]) None false initial_world
     = (inl (ValueError single_target_message), initial_world).
Proof.
  assert (H : int_of (rt := AsciiRuntime.runtime) (PyStr "0") <> Some 1%Z)
    by (vm_compute; discriminate).
  split; [exact H |].
  exact (proj1 (single_target_other_than_one_rejected (rt := AsciiRuntime.runtime)
                  Sample.no_session (PyStr "0") (MList ["BAD"]) None false
                  initial_world H)).
Defined.

Section Passthrough.
Context {rt : Runtime}.
Variable env : environment.

Lemma _no_targets_no_thresholds_single m h2o w :
  _no_targets_no_thresholds (MStr m) h2o w
  = (inr tt,
     append_code w
       (pad 4 ++ m ++ " = " ++ (if h2o then "prediction[1][0]" else "prediction") ++
        nl ++ nl ++ return_line [m])).
Proof.
  unfold _no_targets_no_thresholds, emit, return_line. cbn [single_metric].
  destruct h2o; apply f_equal; apply f_equal;
    repeat (progress simpl || rewrite append_assoc); reflexivity.
Qed.

Lemma _no_targets_no_thresholds_several m0 m1 rest h2o w :
  _no_targets_no_thresholds (MList (m0 :: m1 :: rest)) h2o w
  = (inr tt, append_code w (passthrough_text h2o (m0 :: m1 :: rest))).
Proof.
  unfold _no_targets_no_thresholds. cbn [single_metric names_of]. cbv zeta.
  destruct h2o.
  - unfold bind at 1. unfold bind at 1. unfold item at 1. cbn [nth_error]. unfold ret.
    unfold bind at 1. unfold emit at 1.
    rewrite (for_range_lines (passthrough_line true) m0 (m1 :: rest)).
    unfold emit. repeat rewrite append_code_append. apply f_equal. apply f_equal.
    unfold passthrough_text, passthrough_line, return_line.
    cbn [numbered_lines]. repeat (progress simpl || rewrite append_assoc). reflexivity.
  - unfold bind at 1. unfold bind at 1. unfold item at 1. cbn [nth_error]. unfold ret.
    unfold bind at 1. unfold emit at 1.
    rewrite (for_range_lines (passthrough_line false) m0 (m1 :: rest)).
    unfold emit. repeat rewrite append_code_append. apply f_equal. apply f_equal.
    unfold passthrough_text, passthrough_line, return_line.
    cbn [numbered_lines]. repeat (progress simpl || rewrite append_assoc). reflexivity.
Qed.

Lemma _predictions_to_metrics_passthrough metrics tvs thr h2o w :
  tvs = None \/ tvs = Some [] ->
  truthy_obj thr = false ->
  _predictions_to_metrics metrics tvs thr h2o w
  = _no_targets_no_thresholds
      (match metrics with MList [name] => MStr name | _ => metrics end) h2o w.
Proof.
  intros Htv Hthr. unfold _predictions_to_metrics.
  destruct Htv as [-> | ->]; rewrite Hthr; reflexivity.
Qed.

(** X2. Without target values (None or an empty list) and without a
    truthy threshold the prediction is handed through: one metric is
    bound to the prediction itself (for H2O to prediction[1][0]) and
    returned; several metrics are bound to the components of the
    prediction by position, the first to index 0 (for H2O to the
    components of prediction[1]), and returned in the order given; an
    empty metrics list raises IndexError before anything is appended. *)
Theorem prediction_passed_through (ms : list string) (tvs : option (list pyval))
  (thr : option pyobj) (h2o : bool) (w : world) :
  tvs = None \/ tvs = Some [] ->
  truthy_obj thr = false ->
  (forall m, ms = [m] ->
     _predictions_to_metrics (MList ms) tvs thr h2o w
     = (inr tt,
        append_code w
          (pad 4 ++ m ++ " = " ++
           (if h2o then "prediction[1][0]" else "prediction") ++ nl ++ nl ++
           pad 4 ++ "return " ++ m)))
  /\ (forall m0 m1 rest, ms = m0 :: m1 :: rest ->
        _predictions_to_metrics (MList ms) tvs thr h2o w
        = (inr tt,
           append_code w
             (numbered_lines (passthrough_line h2o) 0 ms ++ nl ++
              pad 4 ++ "return " ++ join ", " ms)))
  /\ (ms = [] ->
      _predictions_to_metrics (MList ms) tvs thr h2o w
      = (inl (IndexError "list index out of range"), w)).
Proof.
  intros Htv Hthr. split; [| split].
  - intros m ->. rewrite _predictions_to_metrics_passthrough by assumption.
    apply _no_targets_no_thresholds_single.
  - intros m0 m1 rest ->. rewrite _predictions_to_metrics_passthrough by assumption.
    apply _no_targets_no_thresholds_several.
  - intros ->. rewrite _predictions_to_metrics_passthrough by assumption.
    unfold _no_targets_no_thresholds. cbn [single_metric names_of]. cbv zeta.
    destruct h2o; reflexivity.
Qed.

(** X3. A threshold that is supplied but not truthy (0, 0.0) is treated
    in every respect as no threshold: the call does what it does without
    one, so the binary mapping compares with 0.5 and the value supplied
    appears nowhere. *)
Theorem falsy_threshold_is_no_threshold (a : arguments) (t : pyobj) (w : world) :
  predict_threshold a = Some t ->
  py_bool t = false ->
  write_score_code env a w = write_score_code env (with_threshold a None) w.
Proof.
  intros Ht Hf. rewrite <- (with_threshold_same a) at 1. rewrite Ht.
  apply write_score_code_threshold. intros w1.
  now apply _predictions_to_metrics_falsy_threshold.
Qed.

(** X4. With two target values or more the threshold is not looked at:
    the call does what it does without one. *)
Theorem threshold_ignored_for_multiclass (a : arguments) (tvs : list pyval)
  (w : world) :
  target_values a = Some tvs ->
  (2 <= List.length tvs)%nat ->
  write_score_code env a w = write_score_code env (with_threshold a None) w.
Proof.
  intros Ht Hlen. rewrite <- (with_threshold_same a) at 1.
  apply write_score_code_threshold. intros w1. rewrite Ht.
  now rewrite 2 _predictions_to_metrics_multiclass.
Qed.

End Passthrough.

Lemma prediction_passed_through_witness :
  ((@None (list pyval) = None \/ @None (list pyval) = Some [])
   /\ truthy_obj None = false)
  /\ _predictions_to_metrics (rt := AsciiRuntime.runtime)
       (MList ["P_BAD0"; "P_BAD1"; "I_BAD"]) None None false initial_world
     = (inr tt,
        append_code initial_world
          (pad 4 ++ "P_BAD0 = prediction[0]" ++ nl ++
           pad 4 ++ "P_BAD1 = prediction[1]" ++ nl ++
           pad 4 ++ "I_BAD = prediction[2]" ++ nl ++ nl ++
           pad 4 ++ "return P_BAD0, P_BAD1, I_BAD")).
Proof.
  assert (H1 : @None (list pyval) = None \/ @None (list pyval) = Some [])
    by (left; reflexivity).
  split; [split; [exact H1 | reflexivity] |].
  exact (proj1 (proj2 (prediction_passed_through (rt := AsciiRuntime.runtime)
                         ["P_BAD0"; "P_BAD1"; "I_BAD"] None None false
                         initial_world H1 eq_refl))
           "P_BAD0" "P_BAD1" ["I_BAD"] eq_refl).
Defined.

Lemma falsy_threshold_is_no_threshold_witness :
  (predict_threshold
     (Sample.hmeq_call "hmeq" ["BAD"] (Some [PyInt 1]) (Some MoreSamples.zero))
   = Some MoreSamples.zero
   /\ py_bool MoreSamples.zero = false)
  /\ write_score_code (rt := AsciiRuntime.runtime) Sample.no_session
       (Sample.hmeq_call "hmeq" ["BAD"] (Some [PyInt 1]) (Some MoreSamples.zero))
       initial_world
     = write_score_code (rt := AsciiRuntime.runtime) Sample.no_session
         (Sample.hmeq_call "hmeq" ["BAD"] (Some [PyInt 1]) None) initial_world.
Proof.
  split; [split; reflexivity |].
  exact (falsy_threshold_is_no_threshold (rt := AsciiRuntime.runtime)
           Sample.no_session
           (Sample.hmeq_call "hmeq" ["BAD"] (Some [PyInt 1]) (Some MoreSamples.zero))
           MoreSamples.zero initial_world eq_refl eq_refl).
Defined.

Lemma threshold_ignored_for_multiclass_witness :
  (target_values
     (Sample.hmeq_call "hmeq" ["BAD"] (Some [PyInt 1; PyInt 0]) (Some Sample.half))
   = Some [PyInt 1; PyInt 0]
   /\ (2 <= List.length [PyInt 1; PyInt 0])%nat)
  /\ write_score_code (rt := AsciiRuntime.runtime) Sample.no_session
       (Sample.hmeq_call "hmeq" ["BAD"] (Some [PyInt 1; PyInt 0]) (Some Sample.half))
       initial_world
     = write_score_code (rt := AsciiRuntime.runtime) Sample.no_session
         (Sample.hmeq_call "hmeq" ["BAD"] (Some [PyInt 1; PyInt 0]) None)
         initial_world.
Proof.
  assert (H : (2 <= List.length [PyInt 1; PyInt 0])%nat) by (simpl; lia).
  split; [split; [reflexivity | exact H] |].
  exact (threshold_ignored_for_multiclass (rt := AsciiRuntime.runtime)
           Sample.no_session
           (Sample.hmeq_call "hmeq" ["BAD"] (Some [PyInt 1; PyInt 0])
              (Some Sample.half))
           [PyInt 1; PyInt 0] initial_world eq_refl H).
Defined.

(** ** The text of the stages, one after the other *)

Lemma writes_eq {A : Type} (c : M A) r t ws t' ws' :
  writes c r t ws -> t = t' -> ws = ws' -> writes c r t' ws'.
Proof. now intros H <- <-. Qed.

Lemma writes_at {A : Type} (c : M A) r t :
  (forall w, c w = (r, append_code w t)) -> writes c r t [].
Proof. intros H w. now rewrite H, append_code_effect. Qed.

Section Stages.
Context {rt : Runtime}.
Variable env : environment.

Lemma before_metrics_staged a w :
  before_metrics env a w
  = (_check_for_invalid_variable_names (input_var_list_of (input_data a)) ;;
     model_id <- model_id_stage env a ;;
     imports_stage env a ;;
     model_load <- model_load_stage a model_id ;;
     emit (header_text a) ;;
     (if truthy_opt model_load then emit (guard_text model_load) else ret tt) ;;
     impute_stage a ;;
     predict_stage a ;;
     ret model_id) w.
Proof.
  unfold before_metrics, model_id_stage, imports_stage, model_load_stage,
    model_file_name_used, header_text, guard_text, impute_stage, predict_stage,
    is_h2o.
  cbv zeta.
  apply bind_cong; intros ? ?. apply bind_cong; intros ? ?.
  apply bind_cong; intros ? ?. apply bind_cong; intros load ?.
  apply bind_cong; intros ? ?.
  destruct (truthy_opt load); reflexivity.
Qed.

Lemma guard_writes (model_load : option string) :
  writes (if truthy_opt model_load then emit (guard_text model_load) else ret tt)
    (inr tt) (guard_text model_load) [].
Proof.
  unfold guard_text. destruct (truthy_opt model_load).
  - apply writes_emit.
  - apply writes_ret.
Qed.

Lemma imports_stage_writes a :
  writes (imports_stage env a) (inr tt) (imports_text env a) (session_warnings env).
Proof.
  unfold imports_stage, _write_imports, imports_text, session_warnings, is_h2o,
    core_imports, settings_import, h2o_imports, binary_string_block,
    module_or_pickle.
  cbv zeta. intros w. unfold bind, emit, warn, ret, append_code, add_warning, effect.
  destruct (current_session env) as [[|]|];
    destruct (kw_mojo_model (kwargs a) || kw_binary_h2o_model (kwargs a));
    try destruct (kw_binary_string (kwargs a)) as [b|];
    try destruct (py_bool b);
    cbn [score_code disk remote warnings];
    apply f_equal; rewrite ?app_nil_r;
    (apply f_equal4; [| reflexivity | reflexivity | reflexivity]);
    repeat (progress simpl || rewrite append_assoc || rewrite append_nil_r);
    reflexivity.
Qed.

(** The stages before the imputation, given the model id and the load
    block. *)
Lemma before_metrics_writes a model_id ws0 model_load t_load r t_rest ws_rest :
  forallb isidentifier (input_var_list_of (input_data a)) = true ->
  writes (model_id_stage env a) (inr model_id) "" ws0 ->
  writes (model_load_stage a model_id) (inr model_load) t_load [] ->
  writes (impute_stage a ;; predict_stage a ;; ret model_id) r t_rest ws_rest ->
  writes (before_metrics env a) r
    (imports_text env a ++ t_load ++ header_text a ++ guard_text model_load ++ t_rest)
    (ws0 ++ session_warnings env ++ ws_rest).
Proof.
  intros Hid H1 H2 H3 w. rewrite before_metrics_staged.
  rewrite (bind_ok _ _ _ _ _ (_check_for_invalid_variable_names_passes _ w Hid)).
  rewrite (bind_ok _ _ _ _ _ (H1 w)).
  rewrite (bind_ok _ _ _ _ _ (imports_stage_writes a _)).
  rewrite (bind_ok _ _ _ _ _ (H2 _)).
  rewrite (bind_ok _ _ _ _ _ (writes_emit (header_text a) _)).
  rewrite (bind_ok _ _ _ _ _ (guard_writes model_load _)).
  rewrite H3. repeat rewrite effect_effect. apply f_equal.
  apply f_equal2; reflexivity.
Qed.

End Stages.

(** ** The model id under SAS Viya 3.5 *)

Section ModelId.
Context {rt : Runtime}.
Variable env : environment.

Lemma write_score_code_model_id_error a w e :
  forallb isidentifier (input_var_list_of (input_data a)) = true ->
  model_id_stage env a w = (inl e, w) ->
  write_score_code env a w = (inl e, w).
Proof.
  intros Hid He. rewrite write_score_code_parts.
  assert (Hb : before_metrics env a w = (inl e, w)).
  { rewrite before_metrics_staged.
    rewrite (bind_ok _ _ _ _ _ (_check_for_invalid_variable_names_passes _ w Hid)).
    now rewrite (bind_err _ _ _ _ _ He). }
  now rewrite (bind_err _ _ _ _ _ Hb).
Qed.

(** X5. Under a SAS Viya 3.5 session a call with valid predictor names
    but without a model (None or an empty name), or with a model the
    repository does not know, raises ValueError before anything is
    written: the buffer, the disk, the repository and the warnings are
    as before the call. *)
Theorem viya35_needs_a_known_model (a : arguments) (w : world) :
  current_session env = Some Viya35 ->
  forallb isidentifier (input_var_list_of (input_data a)) = true ->
  (truthy_opt (model a) = false ->
   write_score_code env a w = (inl (ValueError no_model_identification), w))
  /\ (truthy_opt (model a) = true ->
      get_model env (str_opt (model a)) = None ->
      write_score_code env a w = (inl (ValueError no_model_found), w)).
Proof.
  intros Hs Hid. split.
  - intros Hm. apply write_score_code_model_id_error; [exact Hid |].
    unfold model_id_stage, _get_model_id. now rewrite Hs, Hm.
  - intros Hm Hg. apply write_score_code_model_id_error; [exact Hid |].
    unfold model_id_stage, _get_model_id. now rewrite Hs, Hm, Hg.
Qed.

End ModelId.

Lemma viya35_needs_a_known_model_witness :
  (current_session MoreSamples.empty_repository = Some Viya35
   /\ forallb (isidentifier (Runtime := AsciiRuntime.runtime))
        (input_var_list_of (input_data (Sample.hmeq_call "hmeq" ["BAD"] None None)))
      = true)
  /\ write_score_code (rt := AsciiRuntime.runtime) MoreSamples.empty_repository
       (Sample.hmeq_call "hmeq" ["BAD"] None None) initial_world
     = (inl (ValueError no_model_identification), initial_world).
Proof.
  split; [split; reflexivity |].
  exact (proj1 (viya35_needs_a_known_model (rt := AsciiRuntime.runtime)
                  MoreSamples.empty_repository
                  (Sample.hmeq_call "hmeq" ["BAD"] None None) initial_world
                  eq_refl eq_refl) eq_refl).
Defined.

(** ** Parts of the world a computation leaves alone *)

Lemma preserves_bind {A B C : Type} (f : world -> C) (c : M A) (k : A -> M B) :
  preserves f c -> (forall a, preserves f (k a)) -> preserves f (bind c k).
Proof.
  intros Hc Hk w. unfold bind. specialize (Hc w).
  destruct (c w) as [[e | a] w1]; simpl in *; [exact Hc |].
  now rewrite Hk.
Qed.

Lemma preserves_for_range_from {C : Type} (f : world -> C) (body : nat -> M unit) :
  (forall i, preserves f (body i)) ->
  forall n start, preserves f (for_range_from start n body).
Proof.
  intros Hb. induction n as [|n IH]; intros start; simpl.
  - intros w. reflexivity.
  - apply preserves_bind; [apply Hb | intros _; apply IH].
Qed.

Lemma preserves_for_each {A C : Type} (f : world -> C) (body : A -> M unit)
  (xs : list A) :
  (forall x, preserves f (body x)) -> preserves f (for_each xs body).
Proof.
  intros Hb. induction xs as [|x xs IH]; simpl.
  - intros w. reflexivity.
  - apply preserves_bind; [apply Hb | intros _; apply IH].
Qed.

Create HintDb preserves.

Ltac preserves_step :=
  match goal with
  | |- preserves _ (bind _ _) => apply preserves_bind; [| intros ?]
  | |- preserves _ (for_range _ _) => apply preserves_for_range_from; intros ?
  | |- preserves _ (for_each _ _) => apply preserves_for_each; intros ?
  | |- preserves _ (if ?b then _ else _) => destruct b
  | |- preserves _ (match ?x with _ => _ end) => destruct x
  | |- preserves _ (let '(_, _) := ?p in _) => destruct p
  end.

Ltac preserves_auto :=
  repeat preserves_step;
  first [ solve [auto with preserves] | intros ?; reflexivity ].

Section Quiet.
Context {rt : Runtime}.
Variable env : environment.

Lemma item_quiet (names : list string) (i : nat) : preserves warnings (item names i).
Proof. unfold item. preserves_auto. Qed.

Lemma _get_model_id_quiet m : preserves warnings (_get_model_id env m).
Proof. unfold _get_model_id. preserves_auto. Qed.

Lemma _check_for_invalid_variable_names_quiet l :
  preserves warnings (_check_for_invalid_variable_names l).
Proof. unfold _check_for_invalid_variable_names. cbv zeta. preserves_auto. Qed.

Lemma zip_name_quiet n : preserves warnings (zip_name n).
Proof. unfold zip_name. preserves_auto. Qed.

#[local] Hint Resolve item_quiet _get_model_id_quiet
  _check_for_invalid_variable_names_quiet zip_name_quiet : preserves.

Lemma model_load_stage_quiet a model_id :
  preserves warnings (model_load_stage a model_id).
Proof.
  unfold model_load_stage, _viya35_model_load, _viya4_model_load. cbv zeta.
  preserves_auto.
Qed.

Lemma impute_stage_quiet a : preserves warnings (impute_stage a).
Proof.
  unfold impute_stage, _impute_missing_values, _impute_numeric, _impute_char,
    data_column.
  preserves_auto.
Qed.

Lemma predict_stage_quiet a : preserves warnings (predict_stage a).
Proof. unfold predict_stage, _predict_method. cbv zeta. preserves_auto. Qed.

Lemma _predictions_to_metrics_quiet metrics tvs thr h2o :
  preserves warnings (_predictions_to_metrics metrics tvs thr h2o).
Proof.
  unfold _predictions_to_metrics, _no_targets_no_thresholds, _binary_target,
    _nonbinary_targets, int_of_target.
  cbv zeta. preserves_auto.
Qed.

Lemma upload_and_copy_score_resources_quiet model files :
  preserves warnings (upload_and_copy_score_resources model files).
Proof. unfold upload_and_copy_score_resources. preserves_auto. Qed.

Lemma convert_mas_to_cas_quiet mas model :
  preserves warnings (convert_mas_to_cas env mas model).
Proof. unfold convert_mas_to_cas. preserves_auto. Qed.

#[local] Hint Resolve model_load_stage_quiet impute_stage_quiet predict_stage_quiet
  _predictions_to_metrics_quiet upload_and_copy_score_resources_quiet
  convert_mas_to_cas_quiet : preserves.

Lemma after_metrics_quiet a model_id : preserves warnings (after_metrics env a model_id).
Proof. unfold after_metrics. cbv zeta. preserves_auto. Qed.

(** What follows the imports of a call. *)
Lemma after_imports_quiet a model_id :
  preserves warnings
    (model_id' <-
       (model_load <- model_load_stage a model_id ;;
        emit (header_text a) ;;
        (if truthy_opt model_load then emit (guard_text model_load) else ret tt) ;;
        impute_stage a ;;
        predict_stage a ;;
        ret model_id) ;;
     _predictions_to_metrics (metrics a) (target_values a) (predict_threshold a)
       (is_h2o a) ;;
     after_metrics env a model_id').
Proof.
  pose proof after_metrics_quiet.
  apply preserves_bind; [| intros ?; apply preserves_bind; [| intros ?]];
    preserves_auto.
Qed.

End Quiet.

(** ** The warnings of a call *)

Lemma bind_cong_l {A B : Type} (c c' : M A) (k : A -> M B) (w : world) :
  c w = c' w -> bind c k w = bind c' k w.
Proof. intros H. unfold bind. now rewrite H. Qed.

Section Warnings.
Context {rt : Runtime}.
Variable env : environment.

Lemma write_score_code_staged a w :
  write_score_code env a w
  = (_check_for_invalid_variable_names (input_var_list_of (input_data a)) ;;
     model_id <- model_id_stage env a ;;
     imports_stage env a ;;
     model_id' <-
       (model_load <- model_load_stage a model_id ;;
        emit (header_text a) ;;
        (if truthy_opt model_load then emit (guard_text model_load) else ret tt) ;;
        impute_stage a ;;
        predict_stage a ;;
        ret model_id) ;;
     _predictions_to_metrics (metrics a) (target_values a) (predict_threshold a)
       (is_h2o a) ;;
     after_metrics env a model_id') w.
Proof.
  rewrite write_score_code_parts.
  rewrite (bind_cong_l _ _ _ _ (before_metrics_staged env a w)).
  rewrite bind_assoc. apply bind_cong; intros ? ?.
  rewrite bind_assoc. apply bind_cong; intros ? ?.
  rewrite bind_assoc. reflexivity.
Qed.

Lemma model_id_stage_warnings a w r w1 :
  model_id_stage env a w = (r, w1) ->
  warnings w1 = (warnings w ++ session_warnings env)%list
  /\ (forall e, r = inl e -> session_warnings env = []).
Proof.
  unfold model_id_stage, session_warnings.
  destruct (current_session env) as [[|]|].
  - intros H. split; [| reflexivity]. rewrite app_nil_r.
    assert (P : preserves warnings (id <- _get_model_id env (model a) ;; ret (Some id))).
    { pose proof (_get_model_id_quiet env). preserves_auto. }
    specialize (P w). now rewrite H in P.
  - intros H. injection H as <- <-. split; [now rewrite app_nil_r | reflexivity].
  - intros H. injection H as <- <-. split; [reflexivity | discriminate].
Qed.

(** X6. A call with valid predictor names and no session to a SAS Viya
    server warns twice with the same message, once where the model id is
    looked up and once where the imports are written, whatever else the
    call does and however it ends; with a session it warns about
    nothing. *)
Theorem missing_session_warned_twice (a : arguments) (w : world) :
  forallb isidentifier (input_var_list_of (input_data a)) = true ->
  warnings (snd (write_score_code env a w))
  = (warnings w ++
     match current_session env with
     | None => [no_session_warning; no_session_warning]
     | Some _ => []
     end)%list.
Proof.
  intros Hid.
  assert (E : warnings (snd (write_score_code env a w))
              = (warnings w ++ session_warnings env ++ session_warnings env)%list).
  { rewrite write_score_code_staged.
    rewrite (bind_ok _ _ _ _ _ (_check_for_invalid_variable_names_passes _ w Hid)).
    destruct (model_id_stage env a w) as [[e | model_id] w1] eqn:H1;
      destruct (model_id_stage_warnings _ _ _ _ H1) as [Hw He].
    - rewrite (bind_err _ _ _ _ _ H1). cbn [snd].
      rewrite Hw, (He e eq_refl). reflexivity.
    - rewrite (bind_ok _ _ _ _ _ H1).
      rewrite (bind_ok _ _ _ _ _ (imports_stage_writes env a w1)).
      rewrite (after_imports_quiet env a model_id). cbn [effect warnings].
      now rewrite Hw, <- app_assoc. }
  rewrite E. unfold session_warnings. now destruct (current_session env).
Qed.

End Warnings.

Lemma missing_session_warned_twice_witness :
  forallb (isidentifier (Runtime := AsciiRuntime.runtime))
    (input_var_list_of (input_data (Sample.hmeq_call "hmeq" ["BAD"] None None)))
  = true
  /\ warnings (snd (write_score_code (rt := AsciiRuntime.runtime) Sample.no_session
                      (Sample.hmeq_call "hmeq" ["BAD"] None None) initial_world))
     = [no_session_warning; no_session_warning].
Proof.
  split; [reflexivity |].
  exact (missing_session_warned_twice (rt := AsciiRuntime.runtime) Sample.no_session
           (Sample.hmeq_call "hmeq" ["BAD"] None None) initial_world eq_refl).
Defined.

(** ** The text of a call up to the guarded load *)

Lemma truthy_opt_some (s : string) : s <> "" -> truthy_opt (Some s) = true.
Proof.
  intros H. unfold truthy_opt, truthy_str. apply String.eqb_neq in H.
  now rewrite H.
Qed.

Section ThroughLoad.
Context {rt : Runtime}.
Variable env : environment.

Lemma model_id_stage_no_session a :
  current_session env = None ->
  writes (model_id_stage env a) (inr None) "" [no_session_warning].
Proof.
  intros Hs w. unfold model_id_stage. rewrite Hs.
  unfold bind, warn, ret, add_warning, effect. now rewrite append_nil_r.
Qed.

Lemma model_id_stage_viya4 a :
  current_session env = Some ViyaOther ->
  writes (model_id_stage env a) (inr None) "" [].
Proof. intros Hs w. unfold model_id_stage. rewrite Hs. apply writes_ret. Qed.

Lemma model_id_stage_viya35 a record :
  current_session env = Some Viya35 ->
  truthy_opt (model a) = true ->
  get_model env (str_opt (model a)) = Some record ->
  writes (model_id_stage env a) (inr (Some (mr_id record))) "" [].
Proof.
  intros Hs Hm Hg w. unfold model_id_stage, _get_model_id. rewrite Hs, Hm, Hg.
  apply writes_ret.
Qed.

Lemma model_id_stage_result a w model_id wb :
  model_id_stage env a w = (inr model_id, wb) ->
  writes (model_id_stage env a) (inr model_id) "" (session_warnings env).
Proof.
  unfold session_warnings. destruct (current_session env) as [[|]|] eqn:Hs.
  - unfold model_id_stage at 1. rewrite Hs. unfold bind, _get_model_id.
    destruct (truthy_opt (model a)) eqn:Hm; [| discriminate]. cbn [negb].
    destruct (get_model env (str_opt (model a))) as [record |] eqn:Hg;
      [| discriminate].
    intros [= <- _]. now apply model_id_stage_viya35.
  - unfold model_id_stage at 1. rewrite Hs. intros [= <- _].
    now apply model_id_stage_viya4.
  - unfold model_id_stage at 1. rewrite Hs. intros [= <- _].
    now apply model_id_stage_no_session.
Qed.

Lemma after_load_oblivious a (model_id : option string) :
  oblivious (impute_stage a ;; predict_stage a ;; ret model_id).
Proof.
  apply oblivious_bind; [apply impute_stage_oblivious | intros _].
  apply oblivious_bind; [apply predict_stage_oblivious | intros _].
  apply oblivious_ret.
Qed.

Lemma write_score_code_through_load a model_id ws0 model_load t_load w :
  forallb isidentifier (input_var_list_of (input_data a)) = true ->
  writes (model_id_stage env a) (inr model_id) "" ws0 ->
  writes (model_load_stage a model_id) (inr model_load) t_load [] ->
  exists rest,
    score_code (snd (write_score_code env a w))
    = score_code w ++ imports_text env a ++ t_load ++ header_text a ++
      guard_text model_load ++ rest.
Proof.
  intros Hid H1 H2.
  destruct (after_load_oblivious a model_id) as (r & t_rest & ws_rest & H3).
  pose proof (before_metrics_writes env a _ _ _ _ _ _ _ Hid H1 H2 H3 w) as Hb.
  destruct (write_score_code_extends_any env a w) as (t & ->).
  rewrite Hb. cbn [snd effect score_code].
  exists (t_rest ++ t). repeat rewrite append_assoc. reflexivity.
Qed.

Lemma model_load_stage_pickle_writes a model_id :
  is_h2o a = false ->
  kw_binary_string (kwargs a) = None ->
  writes (model_load_stage a model_id)
    (inr (Some (if truthy_opt model_id
                then viya35_pickle_guard (str_opt model_id)
                       (str_opt (pickle_type a)) (module_or_pickle (model_file_name a))
                else viya4_pickle_guard
                       (str_opt (pickle_type a)) (module_or_pickle (model_file_name a)))))
    (if truthy_opt model_id
     then viya35_pickle_load (str_opt model_id)
            (str_opt (pickle_type a)) (module_or_pickle (model_file_name a))
     else viya4_pickle_load
            (str_opt (pickle_type a)) (module_or_pickle (model_file_name a)))
    [].
Proof.
  intros Hh Hb. apply writes_at. intros w. now apply model_load_stage_pickle.
Qed.

Lemma _write_imports_writes pt mojo h2o b :
  writes (_write_imports env pt mojo h2o b) (inr tt)
    (core_imports (module_or_pickle pt) ++
     match current_session env with
     | Some ViyaOther => "import settings" ++ nl ++ nl
     | _ => ""
     end ++
     (if mojo || h2o then h2o_imports
      else match b with
           | Some value =>
               if py_bool value
               then binary_string_block (module_or_pickle pt) (py_str value)
               else ""
           | None => ""
           end))
    (session_warnings env).
Proof.
  unfold _write_imports, session_warnings, core_imports, h2o_imports,
    binary_string_block, module_or_pickle.
  cbv zeta. intros w. unfold bind, emit, warn, ret, append_code, add_warning, effect.
  destruct (current_session env) as [[|]|];
    destruct (mojo || h2o);
    try destruct b as [value|];
    try destruct (py_bool value);
    cbn [score_code disk remote warnings];
    apply f_equal; rewrite ?app_nil_r;
    (apply f_equal4; [| reflexivity | reflexivity | reflexivity]);
    repeat (progress simpl || rewrite append_assoc || rewrite append_nil_r);
    reflexivity.
Qed.

(** X7. The settings module is imported exactly under a session that is
    not SAS Viya 3.5: whatever its arguments, [_write_imports] writes the
    core imports, then [import settings] under such a session and
    nothing under SAS Viya 3.5 or without a session, then the H2O
    imports or the binary string. A call for a pickled model without a
    session writes the SAS Viya 4 load block, which reads
    [settings.pickle_path], directly after the core imports: nothing
    imports [settings]. Under a SAS Viya 4 session [import settings]
    stands between the two. Under SAS Viya 3.5 the load block of the
    model follows the core imports directly. The serializer imported is
    the one named by the pickle_type argument. *)
Theorem settings_import_needs_a_session (a : arguments) (w : world) :
  forallb isidentifier (input_var_list_of (input_data a)) = true ->
  is_h2o a = false ->
  kw_binary_string (kwargs a) = None ->
  let imports := core_imports (module_or_pickle (pickle_type a)) in
  let file := str_opt (pickle_type a) in
  let module := module_or_pickle (model_file_name a) in
  (current_session env = None ->
   exists rest,
     score_code (snd (write_score_code env a w))
     = score_code w ++ imports ++ viya4_pickle_load file module ++ rest)
  /\ (current_session env = Some ViyaOther ->
      exists rest,
        score_code (snd (write_score_code env a w))
        = score_code w ++ imports ++ "import settings" ++ nl ++ nl ++
          viya4_pickle_load file module ++ rest)
  /\ (current_session env = Some Viya35 ->
      forall record,
        truthy_opt (model a) = true ->
        get_model env (str_opt (model a)) = Some record ->
        mr_id record <> "" ->
        exists rest,
          score_code (snd (write_score_code env a w))
          = score_code w ++ imports ++
            viya35_pickle_load (mr_id record) file module ++ rest)
  /\ (forall pt mojo h2o b w0,
        _write_imports env pt mojo h2o b w0
        = (inr tt,
           effect w0
             (core_imports (module_or_pickle pt) ++
              match current_session env with
              | Some ViyaOther => "import settings" ++ nl ++ nl
              | _ => ""
              end ++
              (if mojo || h2o then h2o_imports
               else match b with
                    | Some value =>
                        if py_bool value
                        then binary_string_block (module_or_pickle pt) (py_str value)
                        else ""
                    | None => ""
                    end))
             (session_warnings env))).
Proof.
  intros Hid Hh Hb imports file module. subst imports file module.
  split; [| split; [| split]].
  - intros Hs.
    pose proof (model_load_stage_pickle_writes a None Hh Hb) as HL.
    cbn [truthy_opt] in HL.
    destruct (write_score_code_through_load a _ _ _ _ w Hid
                (model_id_stage_no_session a Hs) HL) as (rest & E).
    rewrite E. unfold imports_text. rewrite Hs, Hh, Hb.
    eexists. repeat (progress simpl || rewrite append_assoc). reflexivity.
  - intros Hs.
    pose proof (model_load_stage_pickle_writes a None Hh Hb) as HL.
    cbn [truthy_opt] in HL.
    destruct (write_score_code_through_load a _ _ _ _ w Hid
                (model_id_stage_viya4 a Hs) HL) as (rest & E).
    rewrite E. unfold imports_text, settings_import. rewrite Hs, Hh, Hb.
    eexists. repeat (progress simpl || rewrite append_assoc). reflexivity.
  - intros Hs record Hm Hg Hne.
    pose proof (model_load_stage_pickle_writes a (Some (mr_id record)) Hh Hb) as HL.
    rewrite (truthy_opt_some _ Hne) in HL. cbn [str_opt] in HL.
    destruct (write_score_code_through_load a _ _ _ _ w Hid
                (model_id_stage_viya35 a record Hs Hm Hg) HL) as (rest & E).
    rewrite E. unfold imports_text. rewrite Hs, Hh, Hb.
    eexists. repeat (progress simpl || rewrite append_assoc). reflexivity.
  - intros pt mojo h2o b w0. apply _write_imports_writes.
Qed.

End ThroughLoad.

Lemma settings_import_needs_a_session_witness :
  (forallb (isidentifier (Runtime := AsciiRuntime.runtime))
     (input_var_list_of (input_data (Sample.hmeq_call "hmeq" ["BAD"] None None)))
   = true
   /\ is_h2o (Sample.hmeq_call "hmeq" ["BAD"] None None) = false
   /\ kw_binary_string (kwargs (Sample.hmeq_call "hmeq" ["BAD"] None None)) = None)
  /\ exists rest,
       score_code (snd (write_score_code (rt := AsciiRuntime.runtime)
                          Sample.no_session
                          (Sample.hmeq_call "hmeq" ["BAD"] None None) initial_world))
       = score_code initial_world ++ core_imports "pickle" ++
         viya4_pickle_load "pickle" "hmeq.pickle" ++ rest.
Proof.
  split; [repeat split |].
  exact (proj1 (settings_import_needs_a_session (rt := AsciiRuntime.runtime)
                  Sample.no_session
                  (Sample.hmeq_call "hmeq" ["BAD"] None None) initial_world
                  eq_refl eq_refl eq_refl) eq_refl).
Defined.

(** ** H2O models and the load block *)

Section Mojo.
Context {rt : Runtime}.
Variable env : environment.

Lemma model_id_stage_without_viya35 a :
  current_session env <> Some Viya35 ->
  writes (model_id_stage env a) (inr None) "" (session_warnings env).
Proof.
  intros Hs. unfold session_warnings.
  destruct (current_session env) as [[|]|] eqn:E.
  - now destruct Hs.
  - now apply model_id_stage_viya4.
  - now apply model_id_stage_no_session.
Qed.

Lemma _viya4_model_load_mojo name zip p h2o w :
  with_suffix_zip name = Some zip ->
  _viya4_model_load (Some name) p true h2o w
  = (inr (viya4_mojo_guard zip),
     append_code w (viya4_mojo_load "{model_file_name}" zip)).
Proof.
  intros Hz. unfold _viya4_model_load, zip_name, viya4_mojo_guard, viya4_mojo_load.
  cbv zeta. rewrite Hz. unfold bind, emit, ret.
  apply f_equal2; [apply f_equal | apply f_equal];
    repeat (progress simpl || rewrite append_assoc); reflexivity.
Qed.

Lemma model_load_stage_mojo_viya4 a name zip :
  kw_mojo_model (kwargs a) = true ->
  kw_binary_string (kwargs a) = None ->
  pickle_type a = Some name ->
  with_suffix_zip name = Some zip ->
  writes (model_load_stage a None) (inr (Some (viya4_mojo_guard zip)))
    (viya4_mojo_load "{model_file_name}" zip) [].
Proof.
  intros Hm Hb Hp Hz. apply writes_at. intros w.
  unfold model_load_stage, model_file_name_used. rewrite Hm, Hb, Hp.
  cbn [truthy_opt truthy_obj negb andb].
  now rewrite (bind_ok _ _ _ _ _ (_viya4_model_load_mojo _ _ _ _ _ Hz)).
Qed.

(** X8. A call for an H2O MOJO model outside SAS Viya 3.5 names the
    archive after its pickle_type argument: the load block unpacks to
    [Path(pickle_type).with_suffix('.zip')] and imports the model from
    there, in the block and again under the NameError handler. The file
    it opens with gzip is the text [{model_file_name}] as it stands, a
    placeholder that was never filled in; the model_file_name argument
    appears nowhere in the block. With pickle_type None the call raises
    TypeError after the imports were written. *)
Theorem mojo_archive_named_after_pickle_type (a : arguments) (w : world) :
  forallb isidentifier (input_var_list_of (input_data a)) = true ->
  current_session env <> Some Viya35 ->
  kw_mojo_model (kwargs a) = true ->
  kw_binary_string (kwargs a) = None ->
  (forall name zip,
     pickle_type a = Some name -> with_suffix_zip name = Some zip ->
     exists rest,
       score_code (snd (write_score_code env a w))
       = score_code w ++ imports_text env a ++
         viya4_mojo_load "{model_file_name}" zip ++
         header_text a ++ name_error_guard ++ viya4_mojo_guard zip ++ rest)
  /\ (pickle_type a = None ->
      exists message,
        write_score_code env a w
        = (inl (TypeError message),
           effect w (imports_text env a)
             (session_warnings env ++ session_warnings env))).
Proof.
  intros Hid Hs Hm Hb. split.
  - intros name zip Hp Hz.
    destruct (write_score_code_through_load env a _ _ _ _ w Hid
                (model_id_stage_without_viya35 a Hs)
                (model_load_stage_mojo_viya4 a name zip Hm Hb Hp Hz)) as (rest & E).
    exists rest. rewrite E. reflexivity.
  - intros Hp. rewrite write_score_code_staged.
    rewrite (bind_ok _ _ _ _ _ (_check_for_invalid_variable_names_passes _ w Hid)).
    rewrite (bind_ok _ _ _ _ _ (model_id_stage_without_viya35 a Hs w)).
    rewrite (bind_ok _ _ _ _ _ (imports_stage_writes env a _)).
    rewrite effect_effect.
    unfold model_load_stage, model_file_name_used. rewrite Hm, Hb, Hp.
    exists path_of_none. reflexivity.
Qed.

End Mojo.

Lemma mojo_archive_named_after_pickle_type_witness :
  (forallb (isidentifier (Runtime := AsciiRuntime.runtime))
     (input_var_list_of (input_data (MoreSamples.mojo_call (Some "pickle")))) = true
   /\ current_session MoreSamples.viya4 <> Some Viya35
   /\ kw_mojo_model (kwargs (MoreSamples.mojo_call (Some "pickle"))) = true
   /\ kw_binary_string (kwargs (MoreSamples.mojo_call (Some "pickle"))) = None)
  /\ exists rest,
       score_code (snd (write_score_code (rt := AsciiRuntime.runtime)
                          MoreSamples.viya4
                          (MoreSamples.mojo_call (Some "pickle")) initial_world))
       = score_code initial_world ++
         imports_text MoreSamples.viya4 (MoreSamples.mojo_call (Some "pickle")) ++
         viya4_mojo_load "{model_file_name}" "pickle.zip" ++
         header_text (MoreSamples.mojo_call (Some "pickle")) ++
         name_error_guard ++ viya4_mojo_guard "pickle.zip" ++ rest.
Proof.
  assert (Hs : current_session MoreSamples.viya4 <> Some Viya35) by discriminate.
  split; [repeat split; exact Hs |].
  exact (proj1 (mojo_archive_named_after_pickle_type (rt := AsciiRuntime.runtime)
                  MoreSamples.viya4 (MoreSamples.mojo_call (Some "pickle"))
                  initial_world eq_refl Hs eq_refl eq_refl)
           "pickle" "pickle.zip" eq_refl eq_refl).
Defined.

(** ** The guarded load and what follows it *)

Section GuardedLoad.
Context {rt : Runtime}.
Variable env : environment.

Lemma _predict_method_generic method var_list w :
  _predict_method method var_list None false w
  = (inr tt, append_code w (generic_block method var_list)).
Proof.
  unfold _predict_method, generic_block, emit. cbv zeta.
  apply f_equal. apply f_equal.
  repeat (progress simpl || rewrite append_assoc). reflexivity.
Qed.

Lemma predict_stage_writes a :
  is_h2o a = false ->
  writes (predict_stage a) (inr tt) (prediction_block a) [].
Proof.
  intros Hh. apply writes_at. intros w. unfold predict_stage, prediction_block.
  rewrite Hh. destruct (kw_statsmodels_model (kwargs a)).
  - apply _predict_method_statsmodels.
  - apply _predict_method_generic.
Qed.

(** Without imputation and H2O the prediction block follows the guarded
    load. *)
Lemma after_load_writes a (model_id : option string) :
  missing_values a = false ->
  is_h2o a = false ->
  writes (impute_stage a ;; predict_stage a ;; ret model_id) (inr model_id)
    (prediction_block a) [].
Proof.
  intros Hm Hh.
  eapply writes_eq.
  - eapply writes_bind.
    + unfold impute_stage. rewrite Hm. apply writes_ret.
    + eapply writes_bind; [apply (predict_stage_writes a Hh) | apply writes_ret].
  - simpl. apply append_nil_r.
  - reflexivity.
Qed.

Lemma before_metrics_plain a model_id ws0 :
  forallb isidentifier (input_var_list_of (input_data a)) = true ->
  is_h2o a = false ->
  kw_binary_string (kwargs a) = None ->
  missing_values a = false ->
  writes (model_id_stage env a) (inr model_id) "" ws0 ->
  let file := str_opt (pickle_type a) in
  let module := module_or_pickle (model_file_name a) in
  writes (before_metrics env a) (inr model_id)
    (imports_text env a ++
     (if truthy_opt model_id
      then viya35_pickle_load (str_opt model_id) file module
      else viya4_pickle_load file module) ++
     header_text a ++ name_error_guard ++
     (if truthy_opt model_id
      then viya35_pickle_guard (str_opt model_id) file module
      else viya4_pickle_guard file module) ++
     prediction_block a)
    (ws0 ++ session_warnings env).
Proof.
  intros Hid Hh Hb Hm H1 file module. subst file module.
  eapply writes_eq.
  - apply (before_metrics_writes env a _ _ _ _ _ _ _ Hid H1
             (model_load_stage_pickle_writes a model_id Hh Hb)
             (after_load_writes a model_id Hm Hh)).
  - destruct (truthy_opt model_id); unfold guard_text; cbn [truthy_opt str_opt];
      repeat (progress simpl || rewrite append_assoc); reflexivity.
  - now rewrite app_nil_r.
Qed.

Lemma viya35_pickle_guard_end model_id file module :
  exists head,
    viya35_pickle_guard model_id file module = head ++ ".load(pickle_model)".
Proof.
  unfold viya35_pickle_guard.
  exists (pad 8 ++ "model_path = Path(" ++ dq ++ "/models/resources/viya/" ++
          model_id ++ dq ++ ")" ++ nl ++
          pad 8 ++ "with open(model_path / " ++ dq ++ file ++ dq ++ ", " ++
          dq ++ "rb" ++ dq ++ ") as pickle_model:" ++ nl ++
          pad 12 ++ "model = " ++ module).
  repeat (progress simpl || rewrite append_assoc). reflexivity.
Qed.

Lemma viya4_pickle_guard_end file module :
  exists head,
    viya4_pickle_guard file module = head ++ ".load(pickle_model)" ++ nl ++ nl.
Proof.
  unfold viya4_pickle_guard.
  exists (pad 8 ++ "with open(Path(settings.pickle_path) / " ++ dq ++ file ++ dq ++
          ", " ++ dq ++ "rb" ++ dq ++ ") as pickle_model:" ++ nl ++
          pad 16 ++ "model = " ++ module).
  repeat (progress simpl || rewrite append_assoc). reflexivity.
Qed.

Lemma prediction_block_start a :
  exists tail,
    prediction_block a
    = pad 4 ++
      (if kw_statsmodels_model (kwargs a) then "inputArray" else "input_array") ++
      " = pd.DataFrame([[" ++ tail.
Proof.
  unfold prediction_block, statsmodels_block, statsmodels_frame, assignment,
    generic_block.
  destruct (kw_statsmodels_model (kwargs a)); eexists; simpl; reflexivity.
Qed.

(** X9. The load block that [_viya35_model_load] returns for the
    NameError handler ends without a newline, the one of
    [_viya4_model_load] with two. In the text of a call under SAS Viya
    3.5 for a pickled model without imputation, the first line of the
    prediction block therefore stands on the line of the load call:
    [.load(pickle_model)] is followed by four spaces and the assignment
    of the input frame. Outside SAS Viya 3.5 an empty line stands
    between them. *)
Theorem viya35_guard_runs_into_prediction (a : arguments) (w : world)
  (model_id : option string) (wb : world) :
  forallb isidentifier (input_var_list_of (input_data a)) = true ->
  is_h2o a = false ->
  kw_binary_string (kwargs a) = None ->
  missing_values a = false ->
  model_id_stage env a w = (inr model_id, wb) ->
  let frame := if kw_statsmodels_model (kwargs a) then "inputArray" else "input_array" in
  exists before rest,
    score_code (snd (write_score_code env a w))
    = before ++ ".load(pickle_model)" ++
      (if truthy_opt model_id then "" else nl ++ nl) ++
      pad 4 ++ frame ++ " = pd.DataFrame([[" ++ rest.
Proof.
  intros Hid Hh Hb Hm H1 frame. subst frame.
  apply model_id_stage_result in H1.
  pose proof (before_metrics_plain a model_id _ Hid Hh Hb Hm H1 w) as E.
  cbv zeta in E.
  destruct (write_score_code_extends_any env a w) as (t & ->).
  rewrite E. cbn [snd effect score_code]. clear E.
  destruct (prediction_block_start a) as (tail & ->).
  destruct (truthy_opt model_id).
  - destruct (viya35_pickle_guard_end (str_opt model_id) (str_opt (pickle_type a))
                (module_or_pickle (model_file_name a))) as (head & ->).
    exists (score_code w ++ imports_text env a ++
            viya35_pickle_load (str_opt model_id) (str_opt (pickle_type a))
              (module_or_pickle (model_file_name a)) ++
            header_text a ++ name_error_guard ++ head), (tail ++ t).
    repeat rewrite append_assoc. reflexivity.
  - destruct (viya4_pickle_guard_end (str_opt (pickle_type a))
                (module_or_pickle (model_file_name a))) as (head & ->).
    exists (score_code w ++ imports_text env a ++
            viya4_pickle_load (str_opt (pickle_type a))
              (module_or_pickle (model_file_name a)) ++
            header_text a ++ name_error_guard ++ head), (tail ++ t).
    repeat rewrite append_assoc. reflexivity.
Qed.

End GuardedLoad.

Lemma viya35_guard_runs_into_prediction_witness :
  (forallb (isidentifier (Runtime := AsciiRuntime.runtime))
     (input_var_list_of (input_data (MoreSamples.registered_call None false))) = true
   /\ is_h2o (MoreSamples.registered_call None false) = false
   /\ kw_binary_string (kwargs (MoreSamples.registered_call None false)) = None
   /\ missing_values (MoreSamples.registered_call None false) = false
   /\ model_id_stage Sample.viya35 (MoreSamples.registered_call None false)
        initial_world
      = (inr (Some "f3a1"), initial_world))
  /\ exists before rest,
       score_code (snd (write_score_code (rt := AsciiRuntime.runtime) Sample.viya35
                          (MoreSamples.registered_call None false) initial_world))
       = before ++ ".load(pickle_model)" ++ "" ++
         pad 4 ++ "input_array" ++ " = pd.DataFrame([[" ++ rest.
Proof.
  split; [repeat split |].
  exact (viya35_guard_runs_into_prediction (rt := AsciiRuntime.runtime) Sample.viya35
           (MoreSamples.registered_call None false) initial_world
           (Some "f3a1") initial_world eq_refl eq_refl eq_refl eq_refl eq_refl).
Defined.

(** ** What a call returns and writes *)

Section Output.
Context {rt : Runtime}.
Variable env : environment.

Lemma before_metrics_without_viya35 a w model_id w1 :
  current_session env <> Some Viya35 ->
  before_metrics env a w = (inr model_id, w1) ->
  model_id = None.
Proof.
  intros Hs Hb.
  apply before_metrics_inv in Hb
    as (wa & wb & wc & wd & we & wf & load & _ & H2 & _).
  rewrite (model_id_stage_without_viya35 env a Hs) in H2. now injection H2.
Qed.

Lemma after_metrics_without_model_id a w :
  after_metrics env a None w
  = if truthy_opt (score_code_path a)
    then (inr None,
          add_files w
            [(path_join (str_opt (score_code_path a)) (model_prefix a ++ "_score.py"),
              score_code w)])
    else (inr (Some [(model_prefix a ++ "_score.py", score_code w)]), w).
Proof.
  unfold after_metrics. cbn [truthy_opt andb]. rewrite bind_ret.
  unfold bind at 1. unfold read_score_code at 1.
  destruct (truthy_opt (score_code_path a)); reflexivity.
Qed.

(** X10. Outside a SAS Viya 3.5 session a call never reaches the
    repository, whatever its arguments, score_cas included. When it
    fails, the disk is as before. When it returns, it has either written
    one file, [<prefix>_score.py] under score_code_path with the buffer
    as its text, and returns None; or, without a score_code_path, it
    has written no file and returns the dict with the buffer under that
    one name. *)
Theorem without_viya35_one_file_or_one_entry (a : arguments) (w : world) :
  current_session env <> Some Viya35 ->
  let outcome := fst (write_score_code env a w) in
  let w' := snd (write_score_code env a w) in
  let name := model_prefix a ++ "_score.py" in
  remote w' = remote w
  /\ (forall e, outcome = inl e -> disk w' = disk w)
  /\ (forall out, outcome = inr out ->
      if truthy_opt (score_code_path a)
      then out = None
           /\ disk w' = (disk w ++
                         [(path_join (str_opt (score_code_path a)) name,
                           score_code w')])%list
      else out = Some [(name, score_code w')] /\ disk w' = disk w).
Proof.
  intros Hs. cbv zeta. rewrite write_score_code_parts.
  destruct (before_metrics env a w) as [[e1 | model_id] w1] eqn:Hb;
    destruct (oblivious_run _ _ _ _ (before_metrics_oblivious env a) Hb)
      as (t1 & _ & Hd1 & Hr1).
  - rewrite (bind_err _ _ _ _ _ Hb). cbn [fst snd].
    split; [exact Hr1 | split; [intros _ _; exact Hd1 | discriminate]].
  - rewrite (bind_ok _ _ _ _ _ Hb).
    rewrite (before_metrics_without_viya35 _ _ _ _ Hs Hb).
    destruct (_predictions_to_metrics (metrics a) (target_values a)
                (predict_threshold a) (is_h2o a) w1) as [[e2 | []] w2] eqn:Hm;
      destruct (oblivious_run _ _ _ _
                  (_predictions_to_metrics_oblivious _ _ _ _) Hm)
        as (t2 & _ & Hd2 & Hr2).
    + rewrite (bind_err _ _ _ _ _ Hm). cbn [fst snd].
      split; [congruence | split; [intros _ _; congruence | discriminate]].
    + rewrite (bind_ok _ _ _ _ _ Hm). rewrite after_metrics_without_model_id.
      destruct (truthy_opt (score_code_path a));
        cbn [fst snd add_files remote disk score_code].
      * split; [congruence | split; [discriminate |]].
        intros out [= <-]. split; [reflexivity | congruence].
      * split; [congruence | split; [discriminate |]].
        intros out [= <-]. split; [reflexivity | congruence].
Qed.

End Output.

Lemma without_viya35_one_file_or_one_entry_witness :
  current_session Sample.no_session <> Some Viya35
  /\ remote (snd (write_score_code (rt := AsciiRuntime.runtime) Sample.no_session
                    (MoreSamples.regression_call ["P_BAD"] (Some "out"))
                    initial_world))
     = remote initial_world.
Proof.
  assert (Hs : current_session Sample.no_session <> Some Viya35) by discriminate.
  split; [exact Hs |].
  exact (proj1 (without_viya35_one_file_or_one_entry (rt := AsciiRuntime.runtime)
                  Sample.no_session
                  (MoreSamples.regression_call ["P_BAD"] (Some "out"))
                  initial_world Hs)).
Defined.

(** ** Publication under SAS Viya 3.5 *)

Lemma length_app (s t : string) :
  String.length (s ++ t) = String.length s + String.length t.
Proof. induction s as [|c s IH]; simpl; [reflexivity | now rewrite IH]. Qed.

(** A score file is named neither like the MAS nor like the CAS
    wrapper. *)
Lemma score_file_is_no_wrapper (prefix name : string) :
  In name [MAS_CODE_NAME; CAS_CODE_NAME] ->
  (prefix ++ "_score.py" =? name) = false.
Proof.
  intros Hn. apply String.eqb_neq. intros E.
  assert (L : String.length (prefix ++ "_score.py") = String.length name)
    by now rewrite E.
  rewrite length_app in L.
  pose proof (append_correct2 prefix "_score.py" 8) as G. rewrite E in G.
  destruct Hn as [<- | [<- | []]]; simpl in L.
  - replace (String.length prefix) with 17 in G by lia. vm_compute in G.
    discriminate.
  - replace (String.length prefix) with 12 in G by lia. vm_compute in G.
    discriminate.
Qed.

Section Publication.
Context {rt : Runtime}.
Variable env : environment.

Lemma upload_and_copy_score_resources_one model name file w :
  upload_and_copy_score_resources model [(name, file, "score")] w
  = (inr tt, add_remote w (upload_calls model name file)).
Proof.
  unfold upload_and_copy_score_resources, add_remote, upload_calls.
  cbn [for_each]. unfold bind, call_remote, ret. cbn [remote score_code disk warnings].
  now rewrite <- app_assoc.
Qed.

Lemma add_remote_add_remote w l1 l2 :
  add_remote (add_remote w l1) l2 = add_remote w (l1 ++ l2).
Proof. unfold add_remote. cbn [remote score_code disk warnings]. now rewrite app_assoc. Qed.

Lemma call_remote_add c w : call_remote c w = (inr tt, add_remote w [c]).
Proof. reflexivity. Qed.

(** The uploads and the conversion of a call with a model id, when the
    MAS wrapper is found and the model is known by its id. *)
Lemma publication_stage a model_id file record w :
  score_sas env model_id = Some file ->
  get_model env model_id = Some record ->
  let name := model_prefix a ++ "_score.py" in
  let mas := file_text file in
  let cas := cas_of mas (outputVariables record) in
  (code <- read_score_code ;;
   upload_and_copy_score_resources model_id [(name, code, "score")] ;;
   call_remote (ConvertPythonToDs2 model_id) ;;
   match List.find (fun file => file_name file =? "score.sas")
                   (get_model_contents env model_id) with
   | Some file =>
       let mas_code := file_text file in
       upload_and_copy_score_resources model_id
         [(MAS_CODE_NAME, mas_code, "score")] ;;
       cas_code <- convert_mas_to_cas env mas_code model_id ;;
       upload_and_copy_score_resources model_id
         [(CAS_CODE_NAME, cas_code, "score")] ;;
       match get_model env model_id with
       | Some _ => call_remote (UpdateModel model_id "ds2MultiType")
       | None =>
           raise (TypeError "'NoneType' object does not support item assignment")
       end ;;
       ret (Some (mas_code, cas_code))
   | None => ret None
   end) w
  = (inr (Some (mas, cas)),
     add_remote w (publication_calls model_id name (score_code w) mas cas)).
Proof.
  intros Hf Hg name mas cas. subst name mas cas.
  unfold score_sas in Hf. rewrite Hf. cbv zeta.
  unfold bind at 1. unfold read_score_code at 1.
  rewrite (bind_ok _ _ _ _ _ (upload_and_copy_score_resources_one _ _ _ _)).
  rewrite (bind_ok _ _ _ _ _ (call_remote_add _ _)).
  rewrite (bind_ok _ _ _ _ _ (upload_and_copy_score_resources_one _ _ _ _)).
  unfold convert_mas_to_cas. rewrite Hg.
  rewrite bind_ret.
  rewrite (bind_ok _ _ _ _ _ (upload_and_copy_score_resources_one _ _ _ _)).
  rewrite (bind_ok _ _ _ _ _ (call_remote_add _ _)).
  unfold ret. repeat rewrite add_remote_add_remote.
  unfold publication_calls, cas_of. cbn [score_code add_remote].
  repeat rewrite <- app_assoc. reflexivity.
Qed.

Lemma upload_stage a model_id w :
  (code <- read_score_code ;;
   upload_and_copy_score_resources model_id
     [(model_prefix a ++ "_score.py", code, "score")] ;;
   call_remote (ConvertPythonToDs2 model_id) ;;
   @ret (option (string * string)) None) w
  = (inr None,
     add_remote w
       (upload_calls model_id (model_prefix a ++ "_score.py") (score_code w) ++
        [ConvertPythonToDs2 model_id])).
Proof.
  unfold bind at 1. unfold read_score_code at 1.
  rewrite (bind_ok _ _ _ _ _ (upload_and_copy_score_resources_one _ _ _ _)).
  rewrite (bind_ok _ _ _ _ _ (call_remote_add _ _)).
  unfold ret. now rewrite add_remote_add_remote.
Qed.

Lemma write_file_add path content w :
  write_file path content w = (inr tt, add_files w [(path, content)]).
Proof. reflexivity. Qed.

Lemma add_files_add_files w l1 l2 :
  add_files (add_files w l1) l2 = add_files w (l1 ++ l2).
Proof. unfold add_files. cbn [remote score_code disk warnings]. now rewrite app_assoc. Qed.

Lemma after_metrics_published a model_id file record w :
  model_id <> "" ->
  score_cas a = true ->
  score_sas env model_id = Some file ->
  get_model env model_id = Some record ->
  let name := model_prefix a ++ "_score.py" in
  let code := score_code w in
  let mas := file_text file in
  let cas := cas_of mas (outputVariables record) in
  let dir := str_opt (score_code_path a) in
  let w1 := add_remote w (publication_calls model_id name code mas cas) in
  after_metrics env a (Some model_id) w
  = if truthy_opt (score_code_path a)
    then (inr None,
          add_files w1 [(path_join dir name, code);
                        (path_join dir MAS_CODE_NAME, mas);
                        (path_join dir CAS_CODE_NAME, cas)])
    else (inr (Some [(name, code); (MAS_CODE_NAME, mas); (CAS_CODE_NAME, cas)]), w1).
Proof.
  intros Hid Hc Hf Hg. cbv zeta. unfold after_metrics.
  rewrite (truthy_opt_some _ Hid), Hc. cbn [str_opt andb]. cbv zeta.
  rewrite (bind_ok _ _ _ _ _ (publication_stage a model_id file record w Hf Hg)).
  unfold bind at 1. unfold read_score_code at 1.
  cbn [score_code add_remote].
  destruct (truthy_opt (score_code_path a)).
  - rewrite (bind_ok _ _ _ _ _ (write_file_add _ _ _)).
    rewrite (bind_ok _ _ _ _ _
               (bind_ok _ _ _ _ _ (write_file_add _ _ _))).
    unfold ret, add_files, add_remote. cbn [score_code disk remote warnings].
    repeat rewrite <- app_assoc. reflexivity.
  - unfold ret. cbn [dict_set].
    rewrite (score_file_is_no_wrapper _ MAS_CODE_NAME) by (simpl; auto).
    cbn [dict_set].
    rewrite (score_file_is_no_wrapper _ CAS_CODE_NAME) by (simpl; auto).
    replace (MAS_CODE_NAME =? CAS_CODE_NAME) with false by reflexivity.
    reflexivity.
Qed.

Lemma after_metrics_uploaded a model_id w :
  model_id <> "" ->
  score_cas a = false ->
  let name := model_prefix a ++ "_score.py" in
  let w1 := add_remote w (upload_calls model_id name (score_code w) ++
                          [ConvertPythonToDs2 model_id]) in
  after_metrics env a (Some model_id) w
  = if truthy_opt (score_code_path a)
    then (inr None,
          add_files w1 [(path_join (str_opt (score_code_path a)) name, score_code w)])
    else (inr (Some [(name, score_code w)]), w1).
Proof.
  intros Hid Hc. cbv zeta. unfold after_metrics.
  rewrite (truthy_opt_some _ Hid), Hc. cbn [str_opt andb]. cbv zeta.
  rewrite (bind_ok _ _ _ _ _ (upload_stage a model_id w)).
  unfold bind at 1. unfold read_score_code at 1.
  cbn [score_code add_remote].
  destruct (truthy_opt (score_code_path a)); reflexivity.
Qed.

(** The name of the local variable holds nothing when no file of the
    model is called score.sas. *)
Lemma after_metrics_without_score_sas a model_id w :
  model_id <> "" ->
  score_cas a = true ->
  score_sas env model_id = None ->
  let name := model_prefix a ++ "_score.py" in
  let dir := str_opt (score_code_path a) in
  let w1 := add_remote w (upload_calls model_id name (score_code w) ++
                          [ConvertPythonToDs2 model_id]) in
  after_metrics env a (Some model_id) w
  = (inl (unbound "mas_code"),
     if truthy_opt (score_code_path a)
     then add_files w1 [(path_join dir name, score_code w);
                        (path_join dir MAS_CODE_NAME, "")]
     else w1).
Proof.
  intros Hid Hc Hf. cbv zeta. unfold after_metrics.
  rewrite (truthy_opt_some _ Hid), Hc. cbn [str_opt andb]. cbv zeta.
  unfold score_sas in Hf. rewrite Hf.
  rewrite (bind_ok _ _ _ _ _ (upload_stage a model_id w)).
  unfold bind at 1. unfold read_score_code at 1.
  cbn [score_code add_remote].
  destruct (truthy_opt (score_code_path a)); [| reflexivity].
  rewrite (bind_ok _ _ _ _ _ (write_file_add _ _ _)).
  unfold bind, write_file, raise, add_files, add_remote.
  cbn [score_code disk remote warnings].
  repeat rewrite <- app_assoc. reflexivity.
Qed.

(** The text stages neither write files nor reach the repository. *)
Lemma text_stages_local a w model_id w1 w2 :
  before_metrics env a w = (inr model_id, w1) ->
  _predictions_to_metrics (metrics a) (target_values a) (predict_threshold a)
    (is_h2o a) w1 = (inr tt, w2) ->
  disk w2 = disk w /\ remote w2 = remote w.
Proof.
  intros Hb Hm.
  destruct (oblivious_run _ _ _ _ (before_metrics_oblivious env a) Hb)
    as (t1 & _ & Hd1 & Hr1).
  destruct (oblivious_run _ _ _ _ (_predictions_to_metrics_oblivious _ _ _ _) Hm)
    as (t2 & _ & Hd2 & Hr2).
  split; congruence.
Qed.

(** X11. A call under SAS Viya 3.5 with score_cas, once its text is
    written: it uploads the score file and copies the resources, asks
    for the conversion to DS2, takes the first file called score.sas
    among the contents of the model as the MAS wrapper, uploads it,
    rewrites it to the CAS wrapper with the output variables of the
    model, uploads that and sets the score code type to ds2MultiType.
    These eight are, in this order, all the changes it sends to the
    repository; what it reads there in between (the contents of the
    model, the file, the model) leaves no entry. With a score_code_path
    it then writes the three files there and returns None; without one
    it writes no file and returns the dict of the three texts, the
    score file first. *)
Theorem viya35_publishes_both_wrappers (a : arguments) (w w1 w2 : world)
  (model_id : string) (file : remote_file) (record : model_record) :
  before_metrics env a w = (inr (Some model_id), w1) ->
  _predictions_to_metrics (metrics a) (target_values a) (predict_threshold a)
    (is_h2o a) w1 = (inr tt, w2) ->
  model_id <> "" ->
  score_cas a = true ->
  score_sas env model_id = Some file ->
  get_model env model_id = Some record ->
  let name := model_prefix a ++ "_score.py" in
  let code := score_code w2 in
  let mas := file_text file in
  let cas := cas_of mas (outputVariables record) in
  let dir := str_opt (score_code_path a) in
  let outcome := fst (write_score_code env a w) in
  let w' := snd (write_score_code env a w) in
  remote w'
  = (remote w ++
     [ AddModelContent model_id name code "score"; CopyPythonResources model_id;
       ConvertPythonToDs2 model_id;
       AddModelContent model_id MAS_CODE_NAME mas "score";
       CopyPythonResources model_id;
       AddModelContent model_id CAS_CODE_NAME cas "score";
       CopyPythonResources model_id;
       UpdateModel model_id "ds2MultiType" ])%list
  /\ score_code w' = code
  /\ (if truthy_opt (score_code_path a)
      then outcome = inr None
           /\ disk w' = (disk w ++ [ (path_join dir name, code);
                                     (path_join dir MAS_CODE_NAME, mas);
                                     (path_join dir CAS_CODE_NAME, cas) ])%list
      else outcome = inr (Some [ (name, code); (MAS_CODE_NAME, mas);
                                 (CAS_CODE_NAME, cas) ])
           /\ disk w' = disk w).
Proof.
  intros Hb Hm Hid Hc Hf Hg. cbv zeta.
  destruct (text_stages_local _ _ _ _ _ Hb Hm) as [Hd Hr].
  rewrite (proj1 (write_score_code_after_metrics env a w _ w1 w2 Hb Hm)).
  rewrite (after_metrics_published a model_id file record w2 Hid Hc Hf Hg).
  destruct (truthy_opt (score_code_path a));
    cbn [fst snd add_files add_remote remote disk score_code];
    rewrite Hd, Hr; repeat split; reflexivity.
Qed.

(** X12. A call under SAS Viya 3.5 with score_cas for a model none of
    whose files is called score.sas, once its text is written: it
    uploads the score file, copies the resources and asks for the
    conversion, changes nothing further in the repository, and then
    fails with
    UnboundLocalError where the MAS wrapper is first read. With a
    score_code_path the score file is written by then and the file of
    the MAS wrapper is created empty; without one no file is written and
    no dict is returned. *)
Theorem viya35_without_score_sas_fails_late (a : arguments) (w w1 w2 : world)
  (model_id : string) :
  before_metrics env a w = (inr (Some model_id), w1) ->
  _predictions_to_metrics (metrics a) (target_values a) (predict_threshold a)
    (is_h2o a) w1 = (inr tt, w2) ->
  model_id <> "" ->
  score_cas a = true ->
  score_sas env model_id = None ->
  let name := model_prefix a ++ "_score.py" in
  let code := score_code w2 in
  let dir := str_opt (score_code_path a) in
  let outcome := fst (write_score_code env a w) in
  let w' := snd (write_score_code env a w) in
  (exists message, outcome = inl (UnboundLocalError message))
  /\ remote w'
     = (remote w ++
        [ AddModelContent model_id name code "score"; CopyPythonResources model_id;
          ConvertPythonToDs2 model_id ])%list
  /\ disk w'
     = (disk w ++
        if truthy_opt (score_code_path a)
        then [ (path_join dir name, code); (path_join dir MAS_CODE_NAME, "") ]
        else [])%list.
Proof.
  intros Hb Hm Hid Hc Hf. cbv zeta.
  destruct (text_stages_local _ _ _ _ _ Hb Hm) as [Hd Hr].
  rewrite (proj1 (write_score_code_after_metrics env a w _ w1 w2 Hb Hm)).
  rewrite (after_metrics_without_score_sas a model_id w2 Hid Hc Hf).
  cbn [fst snd]. split; [eexists; reflexivity |].
  destruct (truthy_opt (score_code_path a));
    cbn [add_files add_remote remote disk score_code];
    rewrite Hd, Hr, ?app_nil_r; split; reflexivity.
Qed.

(** X13. A call under SAS Viya 3.5 without score_cas, once its text is
    written: it uploads the score file, copies the resources and asks
    for the conversion to DS2, and these are all the changes it sends
    to the repository: no wrapper is uploaded or written and the score
    code type is not set. It writes the score file alone under
    score_code_path and returns None, or returns the dict with the
    score file alone. *)
Theorem viya35_without_score_cas_uploads_only (a : arguments) (w w1 w2 : world)
  (model_id : string) :
  before_metrics env a w = (inr (Some model_id), w1) ->
  _predictions_to_metrics (metrics a) (target_values a) (predict_threshold a)
    (is_h2o a) w1 = (inr tt, w2) ->
  model_id <> "" ->
  score_cas a = false ->
  let name := model_prefix a ++ "_score.py" in
  let code := score_code w2 in
  let outcome := fst (write_score_code env a w) in
  let w' := snd (write_score_code env a w) in
  remote w'
  = (remote w ++
     [ AddModelContent model_id name code "score"; CopyPythonResources model_id;
       ConvertPythonToDs2 model_id ])%list
  /\ (if truthy_opt (score_code_path a)
      then outcome = inr None
           /\ disk w'
              = (disk w ++ [ (path_join (str_opt (score_code_path a)) name, code) ])%list
      else outcome = inr (Some [ (name, code) ]) /\ disk w' = disk w).
Proof.
  intros Hb Hm Hid Hc. cbv zeta.
  destruct (text_stages_local _ _ _ _ _ Hb Hm) as [Hd Hr].
  rewrite (proj1 (write_score_code_after_metrics env a w _ w1 w2 Hb Hm)).
  rewrite (after_metrics_uploaded a model_id w2 Hid Hc).
  destruct (truthy_opt (score_code_path a));
    cbn [fst snd add_files add_remote remote disk score_code];
    rewrite Hd, Hr; repeat split; reflexivity.
Qed.

End Publication.

Lemma viya35_publishes_both_wrappers_witness :
  (before_metrics (rt := AsciiRuntime.runtime) Sample.viya35
     (MoreSamples.registered_call None true) initial_world
   = (inr (Some "f3a1"),
      MoreSamples.after_before Sample.viya35 (MoreSamples.registered_call None true))
   /\ _predictions_to_metrics (rt := AsciiRuntime.runtime) (MList ["BAD"]) None None
        false
        (MoreSamples.after_before Sample.viya35 (MoreSamples.registered_call None true))
      = (inr tt,
         MoreSamples.after_text Sample.viya35 (MoreSamples.registered_call None true))
   /\ "f3a1" <> ""
   /\ score_cas (MoreSamples.registered_call None true) = true
   /\ score_sas Sample.viya35 "f3a1" = Some MoreSamples.hmeq_score_sas
   /\ get_model Sample.viya35 "f3a1" = Some MoreSamples.hmeq_record)
  /\ score_code (snd (write_score_code (rt := AsciiRuntime.runtime) Sample.viya35
                        (MoreSamples.registered_call None true) initial_world))
     = score_code
         (MoreSamples.after_text Sample.viya35 (MoreSamples.registered_call None true)).
Proof.
  assert (Hb : before_metrics (rt := AsciiRuntime.runtime) Sample.viya35
                 (MoreSamples.registered_call None true) initial_world
               = (inr (Some "f3a1"),
                  MoreSamples.after_before Sample.viya35
                    (MoreSamples.registered_call None true)))
    by (vm_compute; reflexivity).
  assert (Hm : _predictions_to_metrics (rt := AsciiRuntime.runtime) (MList ["BAD"])
                 None None false
                 (MoreSamples.after_before Sample.viya35
                    (MoreSamples.registered_call None true))
               = (inr tt,
                  MoreSamples.after_text Sample.viya35
                    (MoreSamples.registered_call None true)))
    by (vm_compute; reflexivity).
  assert (Hid : "f3a1" <> "") by discriminate.
  split; [repeat split; assumption |].
  exact (proj1 (proj2
           (viya35_publishes_both_wrappers (rt := AsciiRuntime.runtime) Sample.viya35
              (MoreSamples.registered_call None true) initial_world _ _
              "f3a1" MoreSamples.hmeq_score_sas MoreSamples.hmeq_record
              Hb Hm Hid eq_refl eq_refl eq_refl))).
Defined.

Lemma viya35_without_score_sas_fails_late_witness :
  (before_metrics (rt := AsciiRuntime.runtime) MoreSamples.no_score_sas
     (MoreSamples.registered_call (Some "out") true) initial_world
   = (inr (Some "f3a1"),
      MoreSamples.after_before MoreSamples.no_score_sas
        (MoreSamples.registered_call (Some "out") true))
   /\ _predictions_to_metrics (rt := AsciiRuntime.runtime) (MList ["BAD"]) None None
        false
        (MoreSamples.after_before MoreSamples.no_score_sas
           (MoreSamples.registered_call (Some "out") true))
      = (inr tt,
         MoreSamples.after_text MoreSamples.no_score_sas
           (MoreSamples.registered_call (Some "out") true))
   /\ "f3a1" <> ""
   /\ score_cas (MoreSamples.registered_call (Some "out") true) = true
   /\ score_sas MoreSamples.no_score_sas "f3a1" = None)
  /\ exists message,
       fst (write_score_code (rt := AsciiRuntime.runtime) MoreSamples.no_score_sas
              (MoreSamples.registered_call (Some "out") true) initial_world)
       = inl (UnboundLocalError message).
Proof.
  assert (Hb : before_metrics (rt := AsciiRuntime.runtime) MoreSamples.no_score_sas
                 (MoreSamples.registered_call (Some "out") true) initial_world
               = (inr (Some "f3a1"),
                  MoreSamples.after_before MoreSamples.no_score_sas
                    (MoreSamples.registered_call (Some "out") true)))
    by (vm_compute; reflexivity).
  assert (Hm : _predictions_to_metrics (rt := AsciiRuntime.runtime) (MList ["BAD"])
                 None None false
                 (MoreSamples.after_before MoreSamples.no_score_sas
                    (MoreSamples.registered_call (Some "out") true))
               = (inr tt,
                  MoreSamples.after_text MoreSamples.no_score_sas
                    (MoreSamples.registered_call (Some "out") true)))
    by (vm_compute; reflexivity).
  assert (Hid : "f3a1" <> "") by discriminate.
  split; [repeat split; assumption |].
  exact (proj1
           (viya35_without_score_sas_fails_late (rt := AsciiRuntime.runtime)
              MoreSamples.no_score_sas
              (MoreSamples.registered_call (Some "out") true) initial_world _ _
              "f3a1" Hb Hm Hid eq_refl eq_refl)).
Defined.

Lemma viya35_without_score_cas_uploads_only_witness :
  (before_metrics (rt := AsciiRuntime.runtime) Sample.viya35
     (MoreSamples.registered_call None false) initial_world
   = (inr (Some "f3a1"),
      MoreSamples.after_before Sample.viya35 (MoreSamples.registered_call None false))
   /\ _predictions_to_metrics (rt := AsciiRuntime.runtime) (MList ["BAD"]) None None
        false
        (MoreSamples.after_before Sample.viya35 (MoreSamples.registered_call None false))
      = (inr tt,
         MoreSamples.after_text Sample.viya35 (MoreSamples.registered_call None false))
   /\ "f3a1" <> ""
   /\ score_cas (MoreSamples.registered_call None false) = false)
  /\ remote (snd (write_score_code (rt := AsciiRuntime.runtime) Sample.viya35
                    (MoreSamples.registered_call None false) initial_world))
     = (remote initial_world ++
        [ AddModelContent "f3a1" "hmeq_score.py"
            (score_code (MoreSamples.after_text Sample.viya35
                           (MoreSamples.registered_call None false))) "score";
          CopyPythonResources "f3a1"; ConvertPythonToDs2 "f3a1" ])%list.
Proof.
  assert (Hb : before_metrics (rt := AsciiRuntime.runtime) Sample.viya35
                 (MoreSamples.registered_call None false) initial_world
               = (inr (Some "f3a1"),
                  MoreSamples.after_before Sample.viya35
                    (MoreSamples.registered_call None false)))
    by (vm_compute; reflexivity).
  assert (Hm : _predictions_to_metrics (rt := AsciiRuntime.runtime) (MList ["BAD"])
                 None None false
                 (MoreSamples.after_before Sample.viya35
                    (MoreSamples.registered_call None false))
               = (inr tt,
                  MoreSamples.after_text Sample.viya35
                    (MoreSamples.registered_call None false)))
    by (vm_compute; reflexivity).
  assert (Hid : "f3a1" <> "") by discriminate.
  split; [repeat split; assumption |].
  exact (proj1
           (viya35_without_score_cas_uploads_only (rt := AsciiRuntime.runtime)
              Sample.viya35 (MoreSamples.registered_call None false)
              initial_world _ _ "f3a1" Hb Hm Hid eq_refl)).
Defined.

(** ** The call list of the run method *)

Lemma substring_all (s : string) : substring 0 (String.length s) s = s.
Proof. induction s as [|c s IH]; simpl; [reflexivity | now rewrite IH]. Qed.

Lemma substring_head (a b : string) : substring 0 (String.length a) (a ++ b) = a.
Proof.
  induction a as [|c a IH]; simpl.
  - now destruct b.
  - now rewrite IH.
Qed.

Lemma substring_skip (a s : string) (m : nat) :
  substring (String.length a) m (a ++ s) = substring 0 m s.
Proof. induction a as [|c a IH]; simpl; [reflexivity | exact IH]. Qed.

Lemma find_from_first (k pre rest : string) (i : Z) :
  no_match_in [k] pre (k ++ rest) = true ->
  find_from k (pre ++ k ++ rest) i = (i + Z.of_nat (String.length pre))%Z.
Proof.
  revert i. induction pre as [|c pre IH]; intros i H.
  - cbn [append String.length]. destruct (k ++ rest) eqn:E.
    + destruct k; [| discriminate]. simpl. lia.
    + rewrite <- E. unfold find_from.
      assert (S : startswith k (k ++ rest) = true) by apply startswith_append.
      rewrite E in *. cbn [find_from]. rewrite S. simpl. lia.
  - cbn [no_match_in] in H. apply andb_true_iff in H as [H0 H1].
    cbn [existsb] in H0. rewrite orb_false_r in H0. apply negb_true_iff in H0.
    cbn [append] in *. cbn [find_from]. rewrite H0.
    rewrite (IH (i + 1)%Z H1). cbn [String.length]. lia.
Qed.

Lemma find_first (k pre rest : string) :
  no_match_in [k] pre (k ++ rest) = true ->
  find k (pre ++ k ++ rest) = Z.of_nat (String.length pre).
Proof. intros H. unfold find. now rewrite find_from_first. Qed.

Lemma slice_middle (a s b : string) :
  slice (a ++ s ++ b) (Z.of_nat (String.length a))
    (Z.of_nat (String.length a) + Z.of_nat (String.length s))
  = s.
Proof.
  unfold slice, clip. cbv zeta. rewrite !length_app.
  replace (Z.of_nat (String.length a) <? 0)%Z with false by (symmetry; apply Z.ltb_ge; lia).
  replace (Z.of_nat (String.length a) + Z.of_nat (String.length s) <? 0)%Z
    with false by (symmetry; apply Z.ltb_ge; lia).
  rewrite !Z.min_l by lia.
  replace (Z.to_nat (Z.of_nat (String.length a))) with (String.length a) by lia.
  replace (Z.to_nat (Z.of_nat (String.length a) + Z.of_nat (String.length s)
                     - Z.of_nat (String.length a)))
    with (String.length s) by lia.
  rewrite substring_skip. apply substring_head.
Qed.

Lemma slice_from_tail (a s : string) :
  slice_from (a ++ s) (Z.of_nat (String.length a)) = s.
Proof.
  unfold slice_from. rewrite length_app.
  rewrite <- (append_nil_r s) at 1.
  replace (Z.of_nat (String.length a + String.length s))
    with (Z.of_nat (String.length a) + Z.of_nat (String.length s))%Z by lia.
  apply slice_middle.
Qed.

Lemma score_vars_found (pre args post : string) :
  signature_format pre args post = true ->
  let mas_code := signature_text pre args post in
  let start := find "score(" mas_code in
  let finish := find ");" (slice_from mas_code start) in
  slice mas_code (start + 6) (start + finish) = args.
Proof.
  unfold signature_format, signature_text. intros H.
  apply andb_true_iff in H as [H1 H2]. cbv zeta.
  rewrite (find_first "score(" pre (args ++ ");" ++ post) H1).
  rewrite slice_from_tail.
  assert (H3 : no_match_in [");"] ("score(" ++ args) (");" ++ post) = true).
  { cbn [append no_match_in existsb startswith Ascii.eqb Bool.eqb andb orb negb].
    exact H2. }
  replace ("score(" ++ args ++ ");" ++ post)
    with (("score(" ++ args) ++ ");" ++ post) by now rewrite append_assoc.
  rewrite (find_first ");" ("score(" ++ args) post H3).
  replace (pre ++ ("score(" ++ args) ++ ");" ++ post)
    with ((pre ++ "score(") ++ args ++ ");" ++ post)
    by now rewrite !append_assoc.
  etransitivity; [| apply (slice_middle (pre ++ "score(") args (");" ++ post))].
  rewrite !length_app. cbn [String.length]. f_equal; lia.
Qed.

Lemma split_nonempty (c : ascii) (s : string) : split c s <> [].
Proof.
  induction s as [|x s IH]; simpl; [discriminate |].
  destruct (split c s); [discriminate |]. now destruct (Ascii.eqb x c).
Qed.

Lemma contains_char_head (c x : ascii) (s : string) :
  contains (String c "") (String x s) = false ->
  Ascii.eqb x c = false /\ contains (String c "") s = false.
Proof.
  cbn [contains startswith]. intros H. apply orb_false_iff in H as [H0 H1].
  rewrite andb_true_r in H0. split; [| exact H1].
  now rewrite Ascii.eqb_sym.
Qed.

Lemma split_free (c : ascii) (t : string) :
  contains (String c "") t = false -> split c t = [t].
Proof.
  induction t as [|x t IH]; intros H; [reflexivity |].
  apply contains_char_head in H as [Hx Ht].
  cbn [split]. rewrite (IH Ht), Hx. reflexivity.
Qed.

Lemma split_app (c : ascii) (t rest : string) :
  contains (String c "") t = false ->
  split c (t ++ String c rest) = t :: split c rest.
Proof.
  induction t as [|x t IH]; intros H.
  - cbn [append split]. rewrite Ascii.eqb_refl.
    destruct (split c rest) eqn:E; [now destruct (split_nonempty c rest) | reflexivity].
  - apply contains_char_head in H as [Hx Ht].
    cbn [append split]. rewrite (IH Ht), Hx. reflexivity.
Qed.

(** Splitting at the blanks undoes joining with blanks. *)
Lemma split_join (tokens : list string) :
  tokens <> [] ->
  Forall (fun t => contains " " t = false) tokens ->
  split " " (join " " tokens) = tokens.
Proof.
  intros Hne Hall. induction Hall as [|t rest Ht Hrest IH]; [now destruct Hne |].
  destruct rest as [|t' rest'].
  - cbn [join String.concat]. now apply split_free.
  - unfold join in *.
    change (String.concat " " (t :: t' :: rest'))
      with (t ++ String " " (String.concat " " (t' :: rest'))).
    rewrite (split_app _ _ _ Ht). f_equal. apply IH. discriminate.
Qed.

Lemma find_from_absent (k s : string) (i : Z) :
  contains k s = false -> find_from k s i = (-1)%Z.
Proof.
  revert i. induction s as [|c s IH]; intros i H; cbn [contains] in H;
    apply orb_false_iff in H as [H0 H1]; cbn [find_from]; rewrite H0;
    [reflexivity | now apply IH].
Qed.

Lemma find_absent (k s : string) : contains k s = false -> find k s = (-1)%Z.
Proof. apply find_from_absent. Qed.

Lemma substring_length (a m : nat) (s : string) :
  String.length (substring a m s) <= m.
Proof.
  revert a m. induction s as [|c s IH]; intros a m.
  - destruct a, m; simpl; lia.
  - destruct a as [|a]; [destruct m as [|m] |]; cbn [substring String.length].
    + lia.
    + specialize (IH 0 m). lia.
    + apply IH.
Qed.

(** A text of one character or none holds no [);]. *)
Lemma find_short (t : string) : String.length t <= 1 -> find ");" t = (-1)%Z.
Proof.
  intros H. apply find_absent.
  destruct t as [|c [|c' t]]; cbn [String.length] in H; [reflexivity | | lia].
  cbn [contains startswith]. now rewrite andb_false_r.
Qed.

Section CallList.
Context {rt : Runtime}.

(** X14. In DS2 text in which [args] stands between the first [score(]
    and the first [);] after it, the call list that convert_mas_to_cas
    puts into the run method is [args] cut at its blanks, without the
    pieces that are exactly [double], [in_out] or [varchar(100)], the
    others joined by one blank each in their order. For a parameter
    list whose tokens are separated by single blanks these are the
    tokens that are no type keyword, a comma that ends a name
    included. *)
Theorem call_list_drops_type_keywords (pre args post : string) :
  signature_format pre args post = true ->
  score_call_of (signature_text pre args post)
  = join " " (filter (fun x => negb (is_type_keyword x)) (split " " args))
  /\ (forall tokens,
        tokens <> [] ->
        Forall (fun t => contains " " t = false) tokens ->
        args = join " " tokens ->
        end_block_of (signature_text pre args post)
        = "method run();" ++ nl ++ pad 4 ++ "set SASEP.IN;" ++ nl ++
          pad 4 ++ "score(" ++
          join " " (filter (fun x => negb (is_type_keyword x)) tokens) ++
          ");" ++ nl ++ "end;" ++ nl ++ "enddata;").
Proof.
  intros H.
  assert (E : score_call_of (signature_text pre args post)
              = join " " (filter (fun x => negb (is_type_keyword x))
                            (split " " args))).
  { unfold score_call_of. cbv zeta. rewrite (score_vars_found pre args post H).
    f_equal. apply filter_ext. intros x. unfold is_type_keyword.
    now rewrite !negb_orb. }
  split; [exact E |].
  intros tokens Hne Hall ->. unfold end_block_of. rewrite E.
  now rewrite (split_join tokens Hne Hall).
Qed.

(** X15. In text without [score(] nothing tells convert_mas_to_cas so:
    find yields -1, the text from there on is its last character, in
    which [);] is not found either, and the call list is made of the
    text from its sixth character to the last but two, cut at the
    blanks and without the type keywords. *)
Theorem call_list_without_signature (mas_code : string) :
  contains "score(" mas_code = false ->
  find "score(" mas_code = (-1)%Z
  /\ find ");" (slice_from mas_code (-1)) = (-1)%Z
  /\ score_call_of mas_code
     = join " " (filter (fun x => negb (is_type_keyword x))
                   (split " " (slice mas_code 5 (-2)))).
Proof.
  intros H.
  assert (E1 : find "score(" mas_code = (-1)%Z) by now apply find_absent.
  assert (E2 : find ");" (slice_from mas_code (-1)) = (-1)%Z).
  { apply find_short. unfold slice_from, slice. cbv zeta.
    etransitivity; [apply substring_length |].
    unfold clip. cbn [Z.ltb Z.compare].
    replace (Z.of_nat (String.length mas_code) <? 0)%Z
      with false by (symmetry; apply Z.ltb_ge; lia).
    lia. }
  split; [exact E1 | split; [exact E2 |]].
  unfold score_call_of. cbv zeta. rewrite E1, E2. cbn [Z.add Z.pos_sub Pos.pred_double].
  f_equal. apply filter_ext. intros x. unfold is_type_keyword.
  now rewrite !negb_orb.
Qed.

End CallList.

Lemma call_list_drops_type_keywords_witness :
  signature_format MoreSamples.signature_pre
    (join " " MoreSamples.signature_tokens) MoreSamples.signature_post = true
  /\ score_call_of
       (signature_text MoreSamples.signature_pre
          (join " " MoreSamples.signature_tokens) MoreSamples.signature_post)
     = "LOAN, resultCode, EM_CLASSIFICATION".
Proof.
  split; [reflexivity |].
  exact (eq_trans
           (proj1 (call_list_drops_type_keywords MoreSamples.signature_pre
                     (join " " MoreSamples.signature_tokens)
                     MoreSamples.signature_post eq_refl))
           eq_refl).
Defined.

Lemma call_list_without_signature_witness :
  contains "score(" "package pythonScore; endpackage;" = false
  /\ score_call_of "package pythonScore; endpackage;" = "ge pythonScore; endpackag".
Proof.
  split; [reflexivity |].
  exact (eq_trans
           (proj2 (proj2 (call_list_without_signature
                            "package pythonScore; endpackage;" eq_refl)))
           eq_refl).
Defined.

(** ** Imputation for the variables of an MLFlow model *)

Lemma combine_fst_snd {A B : Type} (l : list (A * B)) :
  combine (map fst l) (map snd l) = l.
Proof. induction l as [|[a b] l IH]; simpl; [reflexivity | now rewrite IH]. Qed.

Section MLFlowImputation.
Context {rt : Runtime}.
Variable env : environment.

Lemma _impute_char_text var w :
  _impute_char var w = (inr tt, append_code w (char_imputation var)).
Proof.
  unfold _impute_char, char_imputation, emit. apply f_equal. apply f_equal.
  repeat (progress simpl || rewrite append_assoc). reflexivity.
Qed.

Lemma impute_loop_chars (data : input_data_t) (before rest : list (string * string)) :
  forall w,
    forallb non_numeric before = true ->
    for_each (before ++ rest)
      (fun '(var, dtype) =>
         if is_numeric_dtype dtype then _impute_numeric data var
         else _impute_char var) w
    = for_each rest
        (fun '(var, dtype) =>
           if is_numeric_dtype dtype then _impute_numeric data var
           else _impute_char var)
        (append_code w (char_blocks before)).
Proof.
  induction before as [|[var dtype] before IH]; intros w H.
  - cbn [app char_blocks map cat]. now rewrite append_code_nil.
  - cbn [forallb] in H. apply andb_true_iff in H as [Hv Hb].
    unfold non_numeric in Hv. cbn [snd] in Hv. apply negb_true_iff in Hv.
    cbn [app for_each]. rewrite Hv.
    rewrite (bind_ok _ _ _ _ _ (_impute_char_text var w)).
    rewrite (IH _ Hb). rewrite append_code_append. reflexivity.
Qed.

Lemma _impute_missing_values_mlflow_fails vars before v after w :
  vars = (before ++ v :: after)%list ->
  forallb non_numeric before = true ->
  non_numeric v = false ->
  _impute_missing_values (MLFlow vars) (map fst vars) (map snd vars) w
  = (inl (TypeError "list indices must be integers or slices, not str"),
     append_code w (char_blocks before)).
Proof.
  intros E Hb Hv. unfold _impute_missing_values. rewrite combine_fst_snd.
  set (data := MLFlow vars). rewrite E.
  unfold bind at 1. rewrite (impute_loop_chars data before (v :: after) w Hb).
  destruct v as [var dtype]. unfold non_numeric in Hv. cbn [snd] in Hv.
  apply negb_false_iff in Hv. cbn [for_each]. rewrite Hv.
  reflexivity.
Qed.

(** X16. For the variables of an MLFlow model the imputation looks at
    the dtype alone as long as no variable is a number: every variable
    gets the strip-or-empty block and the stage ends with an empty
    line. At the first variable whose dtype holds int or float it reads
    [data[var]] on the list of variable descriptions and raises
    TypeError; the blocks of the variables before it are in the buffer
    by then. A write_score_code call with missing_values for such a
    model never returns. *)
Theorem mlflow_imputation_needs_no_numbers (vars : list (string * string))
  (w : world) :
  (forallb non_numeric vars = true ->
   _impute_missing_values (MLFlow vars) (map fst vars) (map snd vars) w
   = (inr tt, append_code w (char_blocks vars ++ nl)))
  /\ (forall before v after,
        vars = (before ++ v :: after)%list ->
        forallb non_numeric before = true ->
        non_numeric v = false ->
        (exists message,
           _impute_missing_values (MLFlow vars) (map fst vars) (map snd vars) w
           = (inl (TypeError message), append_code w (char_blocks before)))
        /\ forall a w0,
             input_data a = MLFlow vars ->
             missing_values a = true ->
             exists e, fst (write_score_code env a w0) = inl e).
Proof.
  split.
  - intros H. unfold _impute_missing_values. rewrite combine_fst_snd.
    set (data := MLFlow vars). unfold bind at 1.
    rewrite <- (app_nil_r vars) at 1.
    rewrite (impute_loop_chars data vars [] w H). cbn [for_each]. unfold ret, emit.
    now rewrite append_code_append.
  - intros before v after E Hb Hv. split.
    + eexists. now apply (_impute_missing_values_mlflow_fails vars before v after).
    + intros a w0 Hin Hm.
      destruct (write_score_code env a w0) as [[e | out] w'] eqn:Hw;
        [now exists e |].
      apply write_score_code_inv in Hw as (model_id & w1 & w2 & Hbm & _).
      apply before_metrics_inv in Hbm
        as (wa & wb & wc & wd & we & wf & load & _ & _ & _ & _ & _ & H6 & _).
      unfold impute_stage in H6. rewrite Hm, Hin in H6.
      cbn [input_var_list_of input_dtypes_list_of] in H6.
      rewrite (_impute_missing_values_mlflow_fails vars before v after we E Hb Hv)
        in H6.
      discriminate.
Qed.

End MLFlowImputation.

Lemma mlflow_imputation_needs_no_numbers_witness :
  (MoreSamples.mlflow_vars = ([("JOB", "string")] ++ ("LOAN", "int64") :: [])%list
   /\ forallb non_numeric [("JOB", "string")] = true
   /\ non_numeric ("LOAN", "int64") = false)
  /\ exists message,
       _impute_missing_values
         (MLFlow MoreSamples.mlflow_vars) ["JOB"; "LOAN"] ["string"; "int64"]
         initial_world
       = (inl (TypeError message),
          append_code initial_world (char_imputation "JOB")).
Proof.
  split; [repeat split |].
  destruct (proj1 (proj2 (mlflow_imputation_needs_no_numbers
                            (rt := AsciiRuntime.runtime) Sample.no_session
                            MoreSamples.mlflow_vars initial_world)
                     [("JOB", "string")] ("LOAN", "int64") [] eq_refl eq_refl eq_refl))
    as (message & E).
  exists message. exact E.
Defined.

(** ** The module of a regression model *)

Section WholeModule.
Context {rt : Runtime}.
Variable env : environment.

Lemma _predictions_to_metrics_passthrough_text ms tvs thr h2o w :
  ms <> [] ->
  tvs = None \/ tvs = Some [] ->
  truthy_obj thr = false ->
  _predictions_to_metrics (MList ms) tvs thr h2o w
  = (inr tt, append_code w (passthrough_mapping h2o ms)).
Proof.
  intros Hne Htv Hthr. rewrite _predictions_to_metrics_passthrough by assumption.
  destruct ms as [|m0 [|m1 rest]]; [now destruct Hne | |].
  - apply _no_targets_no_thresholds_single.
  - apply _no_targets_no_thresholds_several.
Qed.

(** X17. The whole of a call for a pickled model outside SAS Viya 3.5,
    with valid predictor names, without imputation, target values,
    threshold and score_code_path: it returns the dict whose one entry
    holds, after whatever the buffer held before, the imports, the load
    block, the function header with the metrics in its docstring, the
    load block again under the NameError handler, the prediction block
    and the passthrough of the prediction; it writes no file, reaches no
    repository and warns only about a missing session. *)
Theorem regression_call_returns_the_module (a : arguments) (ms : list string)
  (w : world) :
  forallb isidentifier (input_var_list_of (input_data a)) = true ->
  current_session env <> Some Viya35 ->
  is_h2o a = false ->
  kw_binary_string (kwargs a) = None ->
  missing_values a = false ->
  metrics a = MList ms ->
  ms <> [] ->
  target_values a = None \/ target_values a = Some [] ->
  truthy_obj (predict_threshold a) = false ->
  score_code_path a = None ->
  write_score_code env a w
  = (inr (Some [(model_prefix a ++ "_score.py",
                 score_code w ++ regression_module env a)]),
     effect w (regression_module env a)
       (session_warnings env ++ session_warnings env)).
Proof.
  intros Hid Hs Hh Hbin Hm Hms Hne Htv Hthr Hp.
  pose proof (before_metrics_plain env a None _ Hid Hh Hbin Hm
                (model_id_stage_without_viya35 env a Hs) w) as Hb.
  cbv zeta in Hb. cbn [truthy_opt] in Hb.
  rewrite write_score_code_parts.
  rewrite (bind_ok _ _ _ _ _ Hb).
  rewrite Hms, Hh.
  rewrite (bind_ok _ _ _ _ _
             (_predictions_to_metrics_passthrough_text ms _ _ false _ Hne Htv Hthr)).
  rewrite after_metrics_without_model_id. rewrite Hp. cbn [truthy_opt].
  rewrite append_code_effect, effect_effect, app_nil_r.
  unfold regression_module. rewrite Hms. cbn [names_of].
  cbn [effect score_code].
  repeat rewrite append_assoc. reflexivity.
Qed.

End WholeModule.

Lemma regression_call_returns_the_module_witness :
  (forallb (isidentifier (Runtime := AsciiRuntime.runtime))
     (input_var_list_of (input_data (MoreSamples.regression_call ["P_BAD"] None)))
   = true
   /\ current_session Sample.no_session <> Some Viya35
   /\ is_h2o (MoreSamples.regression_call ["P_BAD"] None) = false
   /\ kw_binary_string (kwargs (MoreSamples.regression_call ["P_BAD"] None)) = None
   /\ missing_values (MoreSamples.regression_call ["P_BAD"] None) = false
   /\ metrics (MoreSamples.regression_call ["P_BAD"] None) = MList ["P_BAD"]
   /\ ["P_BAD"] <> []
   /\ (target_values (MoreSamples.regression_call ["P_BAD"] None) = None
       \/ target_values (MoreSamples.regression_call ["P_BAD"] None) = Some [])
   /\ truthy_obj (predict_threshold (MoreSamples.regression_call ["P_BAD"] None))
      = false
   /\ score_code_path (MoreSamples.regression_call ["P_BAD"] None) = None)
  /\ write_score_code (rt := AsciiRuntime.runtime) Sample.no_session
       (MoreSamples.regression_call ["P_BAD"] None) initial_world
     = (inr (Some [("hmeq_score.py",
                    score_code initial_world ++
                    regression_module (rt := AsciiRuntime.runtime) Sample.no_session
                      (MoreSamples.regression_call ["P_BAD"] None))]),
        effect initial_world
          (regression_module (rt := AsciiRuntime.runtime) Sample.no_session
             (MoreSamples.regression_call ["P_BAD"] None))
          (session_warnings Sample.no_session ++ session_warnings Sample.no_session)).
Proof.
  assert (Hs : current_session Sample.no_session <> Some Viya35) by discriminate.
  assert (Hne : ["P_BAD"] <> []) by discriminate.
  assert (Htv : target_values (MoreSamples.regression_call ["P_BAD"] None) = None
                \/ target_values (MoreSamples.regression_call ["P_BAD"] None)
                   = Some [])
    by (left; reflexivity).
  split; [repeat split; assumption |].
  exact (regression_call_returns_the_module (rt := AsciiRuntime.runtime)
           Sample.no_session (MoreSamples.regression_call ["P_BAD"] None) ["P_BAD"]
           initial_world eq_refl Hs eq_refl eq_refl eq_refl eq_refl Hne Htv
           eq_refl eq_refl).
Defined.

(** ** A model passed as a binary string *)

Section BinaryString.
Context {rt : Runtime}.
Variable env : environment.




End BinaryString.


(** ** H2O models: the prediction block and the binary load *)

Section H2O.
Context {rt : Runtime}.
Variable env : environment.

Lemma _predict_method_h2o method var_list dtype dtypes sm w :
  _predict_method method var_list (Some (dtype :: dtypes)) sm w
  = (inr tt, append_code w (h2o_block method var_list (dtype :: dtypes))).
Proof.
  unfold _predict_method, h2o_block, column_type, emit. cbv zeta.
  apply f_equal. apply f_equal.
  replace (map (fun '(var, dtype0) =>
                  dq ++ var ++ dq ++ " : " ++ dq ++
                  (if is_numeric_dtype dtype0 then "numeric" else "string") ++ dq)
             (combine var_list (dtype :: dtypes)))
    with (map (fun var : string * string =>
                 dq ++ fst var ++ dq ++ " : " ++ dq ++
                 (if is_numeric_dtype (snd var) then "numeric" else "string") ++ dq)
            (combine var_list (dtype :: dtypes)))
    by (apply map_ext; now intros [var d]).
  repeat (progress simpl || rewrite append_assoc). reflexivity.
Qed.

Lemma is_numeric_dtype_int (pre post : string) :
  is_numeric_dtype (pre ++ "int" ++ post) = true.
Proof.
  unfold is_numeric_dtype. cbn [existsb]. now rewrite contains_middle.
Qed.

Lemma is_numeric_dtype_float (pre post : string) :
  is_numeric_dtype (pre ++ "float" ++ post) = true.
Proof.
  unfold is_numeric_dtype. cbn [existsb]. rewrite (contains_middle "float").
  apply orb_true_r.
Qed.

(** X19. For a call with an H2O flag the statsmodels flag plays no
    part. With at least one input variable the prediction block builds
    the frame with index [0], writes the column types as the printed
    list of the entries ["var" : "numeric"] or ["var" : "string"]
    between braces, makes the H2O frame from both, predicts and turns
    the result into a list; a variable is numeric exactly when the text
    of its dtype contains int or float, wherever in it. With no input
    variable the dtype list is empty and the block is the one of a model
    that is no H2O model. *)
Theorem h2o_prediction_block_of_a_call (a : arguments) (w : world) :
  is_h2o a = true ->
  let var_list := input_var_list_of (input_data a) in
  let dtypes := input_dtypes_list_of (input_data a) in
  (dtypes <> [] ->
   predict_stage a w
   = (inr tt, append_code w (h2o_block (predict_method a) var_list dtypes)))
  /\ (dtypes = [] ->
      predict_stage a w
      = (inr tt, append_code w (generic_block (predict_method a) var_list)))
  /\ (forall var dtype,
        column_type var dtype
        = dq ++ var ++ dq ++ " : " ++ dq ++
          (if contains "int" dtype || contains "float" dtype
           then "numeric" else "string") ++ dq)
  /\ (forall pre post,
        is_numeric_dtype (pre ++ "int" ++ post) = true
        /\ is_numeric_dtype (pre ++ "float" ++ post) = true).
Proof.
  intros Hh. cbv zeta. unfold predict_stage. rewrite Hh.
  split; [| split; [| split]].
  - intros Hne. destruct (input_dtypes_list_of (input_data a)) as [|d l];
      [now destruct Hne |].
    apply _predict_method_h2o.
  - intros ->. apply _predict_method_generic.
  - intros var dtype. unfold column_type, is_numeric_dtype. cbn [existsb].
    now rewrite orb_false_r.
  - intros pre post. split; [apply is_numeric_dtype_int | apply is_numeric_dtype_float].
Qed.

Lemma model_load_stage_h2o_viya4 a :
  kw_mojo_model (kwargs a) = false ->
  kw_binary_h2o_model (kwargs a) = true ->
  truthy_obj (kw_binary_string (kwargs a)) = false ->
  writes (model_load_stage a None) (inr (Some (pad 8 ++ viya4_h2o_load)))
    viya4_h2o_load [].
Proof.
  intros Hm Hh Hb. apply writes_at. intros w.
  unfold model_load_stage, _viya4_model_load, viya4_h2o_load. cbv zeta.
  rewrite Hm, Hh, Hb. cbn [truthy_opt andb negb].
  unfold bind, emit, ret. reflexivity.
Qed.

(** X20. The load block of a binary H2O model outside SAS Viya 3.5
    names no file: it loads [Path(settings.pickle_path)] itself, in the
    block after the imports and again under the NameError handler,
    whatever model_file_name and pickle_type are. *)
Theorem h2o_binary_load_names_no_file (a : arguments) (w : world) :
  forallb isidentifier (input_var_list_of (input_data a)) = true ->
  current_session env <> Some Viya35 ->
  kw_mojo_model (kwargs a) = false ->
  kw_binary_h2o_model (kwargs a) = true ->
  truthy_obj (kw_binary_string (kwargs a)) = false ->
  exists rest,
    score_code (snd (write_score_code env a w))
    = score_code w ++ imports_text env a ++
      "model = h2o.load(Path(settings.pickle_path))" ++ nl ++ nl ++
      header_text a ++ name_error_guard ++
      pad 8 ++ "model = h2o.load(Path(settings.pickle_path))" ++ nl ++ nl ++
      rest.
Proof.
  intros Hid Hs Hm Hh Hb.
  destruct (write_score_code_through_load env a _ _ _ _ w Hid
              (model_id_stage_without_viya35 env a Hs)
              (model_load_stage_h2o_viya4 a Hm Hh Hb)) as (rest & E).
  exists rest. rewrite E. unfold viya4_h2o_load, guard_text, name_error_guard.
  cbn [truthy_opt str_opt].
  repeat (progress simpl || rewrite append_assoc). reflexivity.
Qed.

End H2O.

Lemma h2o_prediction_block_of_a_call_witness :
  is_h2o (MoreSamples.h2o_call (Some "hmeq.h2o") (Some "pickle")) = true
  /\ predict_stage (rt := AsciiRuntime.runtime)
       (MoreSamples.h2o_call (Some "hmeq.h2o") (Some "pickle")) initial_world
     = (inr tt,
        append_code initial_world
          (h2o_block (rt := AsciiRuntime.runtime) "predict" ["LOAN"; "MORTDUE"]
             ["int64"; "float64"])).
Proof.
  split; [reflexivity |].
  assert (Hne : input_dtypes_list_of
                  (input_data (MoreSamples.h2o_call (Some "hmeq.h2o") (Some "pickle")))
                <> []) by discriminate.
  exact (proj1 (h2o_prediction_block_of_a_call (rt := AsciiRuntime.runtime)
                  (MoreSamples.h2o_call (Some "hmeq.h2o") (Some "pickle"))
                  initial_world eq_refl) Hne).
Defined.

Lemma h2o_binary_load_names_no_file_witness :
  (forallb (isidentifier (Runtime := AsciiRuntime.runtime))
     (input_var_list_of
        (input_data (MoreSamples.h2o_call (Some "hmeq.h2o") (Some "pickle")))) = true
   /\ current_session MoreSamples.viya4 <> Some Viya35
   /\ kw_mojo_model (kwargs (MoreSamples.h2o_call (Some "hmeq.h2o") (Some "pickle")))
      = false
   /\ kw_binary_h2o_model
        (kwargs (MoreSamples.h2o_call (Some "hmeq.h2o") (Some "pickle"))) = true
   /\ truthy_obj
        (kw_binary_string
           (kwargs (MoreSamples.h2o_call (Some "hmeq.h2o") (Some "pickle")))) = false)
  /\ exists rest,
       score_code
         (snd (write_score_code (rt := AsciiRuntime.runtime) MoreSamples.viya4
                 (MoreSamples.h2o_call (Some "hmeq.h2o") (Some "pickle"))
                 initial_world))
       = score_code initial_world ++
         imports_text MoreSamples.viya4
           (MoreSamples.h2o_call (Some "hmeq.h2o") (Some "pickle")) ++
         "model = h2o.load(Path(settings.pickle_path))" ++ nl ++ nl ++
         header_text (MoreSamples.h2o_call (Some "hmeq.h2o") (Some "pickle")) ++
         name_error_guard ++
         pad 8 ++ "model = h2o.load(Path(settings.pickle_path))" ++ nl ++ nl ++
         rest.
Proof.
  assert (Hs : current_session MoreSamples.viya4 <> Some Viya35) by discriminate.
  split; [repeat split; exact Hs |].
  exact (h2o_binary_load_names_no_file (rt := AsciiRuntime.runtime)
           MoreSamples.viya4
           (MoreSamples.h2o_call (Some "hmeq.h2o") (Some "pickle"))
           initial_world eq_refl Hs eq_refl eq_refl eq_refl).
Defined.

(** ** Metrics passed as a str *)

Lemma join_chars_length (c : ascii) (name : string) :
  String.length (join ", " (chars (String c name))) = 3 * String.length name + 1.
Proof.
  revert c. induction name as [|c' name IH]; intros c; [reflexivity |].
  unfold join in *. cbn [chars] in *.
  change (String.concat ", " (String c "" :: String c' "" :: chars name))
    with (String c "" ++ ", " ++ String.concat ", " (String c' "" :: chars name)).
  rewrite !length_app, IH. cbn [String.length]. lia.
Qed.

Section StrMetrics.
Context {rt : Runtime}.
Variable env : environment.

(** X21. When metrics is passed as a str, the docstring of the
    generated function spells it out: [', '.join] runs over its
    characters, so the line reads [Output: ] followed by the characters
    of the name with a comma and a blank between each two, three
    characters for every character of the name but the last, while the
    metric mapping binds and returns the name as one. *)
Theorem str_metrics_are_spelled_out (a : arguments) (name : string)
  (w wb : world) (model_id : option string) :
  forallb isidentifier (input_var_list_of (input_data a)) = true ->
  is_h2o a = false ->
  kw_binary_string (kwargs a) = None ->
  model_id_stage env a w = (inr model_id, wb) ->
  metrics a = MStr name ->
  (exists before rest,
     score_code (snd (write_score_code env a w))
     = before ++ pad 4 ++ dq ++ "Output: " ++ join ", " (chars name) ++ dq ++ nl ++ nl ++
       rest)
  /\ (forall c tail, name = String c tail ->
        String.length (join ", " (chars name)) = 3 * String.length tail + 1)
  /\ (forall thr h2o w0,
        truthy_obj thr = false ->
        _predictions_to_metrics (MStr name) None thr h2o w0
        = (inr tt,
           append_code w0
             (pad 4 ++ name ++ " = " ++
              (if h2o then "prediction[1][0]" else "prediction") ++ nl ++ nl ++
              pad 4 ++ "return " ++ name))).
Proof.
  intros Hid Hh Hb H1 Hms. apply model_id_stage_result in H1.
  split; [| split].
  - destruct (write_score_code_through_load env a _ _ _ _ w Hid H1
                (model_load_stage_pickle_writes a model_id Hh Hb)) as (rest & E).
    rewrite E. clear E. unfold header_text. rewrite Hms. cbn [names_of].
    match goal with |- context [guard_text ?g] => generalize (guard_text g) end.
    intros guard.
    match goal with |- context [imports_text env a ++ ?l ++ _] => generalize l end.
    intros load.
    exists (score_code w ++ imports_text env a ++ load ++ "def score" ++
            model_prefix a ++ "(" ++ join ", " (input_var_list_of (input_data a)) ++
            "):" ++ nl),
           (guard ++ rest).
    repeat rewrite append_assoc. reflexivity.
  - intros c tail ->. apply join_chars_length.
  - intros thr h2o w0 Hthr.
    rewrite _predictions_to_metrics_passthrough by (auto || assumption).
    apply _no_targets_no_thresholds_single.
Qed.

End StrMetrics.

Lemma str_metrics_are_spelled_out_witness :
  (forallb (isidentifier (Runtime := AsciiRuntime.runtime))
     (input_var_list_of (input_data MoreSamples.str_metric_call)) = true
   /\ is_h2o MoreSamples.str_metric_call = false
   /\ kw_binary_string (kwargs MoreSamples.str_metric_call) = None
   /\ model_id_stage MoreSamples.viya4 MoreSamples.str_metric_call initial_world
      = (inr None, initial_world)
   /\ metrics MoreSamples.str_metric_call = MStr "BAD")
  /\ exists before rest,
       score_code (snd (write_score_code (rt := AsciiRuntime.runtime)
                          MoreSamples.viya4 MoreSamples.str_metric_call
                          initial_world))
       = before ++ pad 4 ++ dq ++ "Output: " ++ "B, A, D" ++ dq ++ nl ++ nl ++ rest.
Proof.
  split; [repeat split |].
  exact (proj1 (str_metrics_are_spelled_out (rt := AsciiRuntime.runtime)
                  MoreSamples.viya4 MoreSamples.str_metric_call "BAD"
                  initial_world initial_world None
                  eq_refl eq_refl eq_refl eq_refl eq_refl)).
Defined.

(** ** Errors while the text is written *)

Section TextErrors.
Context {rt : Runtime}.
Variable env : environment.


End TextErrors.


(** ** H2O models under SAS Viya 3.5 *)

Section H2OViya35.
Context {rt : Runtime}.
Variable env : environment.

Lemma _viya35_model_load_mojo model_id name zip p h2o w :
  with_suffix_zip name = Some zip ->
  _viya35_model_load model_id (Some name) p true h2o w
  = (inr (viya35_mojo_guard zip),
     append_code w (viya35_mojo_load model_id name zip)).
Proof.
  intros Hz. unfold _viya35_model_load, zip_name, viya35_mojo_guard, viya35_mojo_load.
  cbv zeta. rewrite Hz. unfold bind, emit, ret. cbn [str_opt].
  apply f_equal2; [apply f_equal | apply f_equal];
    repeat (progress simpl || rewrite append_assoc); reflexivity.
Qed.

Lemma _viya35_model_load_h2o model_id file p w :
  _viya35_model_load model_id file p false true w
  = (inr (pad 8 ++ viya35_h2o_call model_id (str_opt file)),
     append_code w (viya35_h2o_call model_id (str_opt file) ++ nl ++ nl)).
Proof.
  unfold _viya35_model_load, viya35_h2o_call. cbv zeta. unfold bind, emit, ret.
  apply f_equal2; [apply f_equal | apply f_equal];
    repeat (progress simpl || rewrite append_assoc); reflexivity.
Qed.

Lemma model_load_stage_viya35 a model_id :
  model_id <> "" ->
  truthy_obj (kw_binary_string (kwargs a)) = false ->
  forall w,
    model_load_stage a (Some model_id) w
    = (load <- _viya35_model_load model_id (pickle_type a) (model_file_name_used a)
                 (kw_mojo_model (kwargs a)) (kw_binary_h2o_model (kwargs a)) ;;
       ret (Some load)) w.
Proof.
  intros Hid Hb w. unfold model_load_stage.
  rewrite (truthy_opt_some _ Hid), Hb. reflexivity.
Qed.

Lemma h2o_block_start method var_list dtypes :
  exists tail,
    h2o_block method var_list dtypes
    = pad 4 ++ "input_array = pd.DataFrame([[" ++ tail.
Proof. unfold h2o_block. eexists. simpl. reflexivity. Qed.

(** Without imputation the prediction block of an H2O model with input
    variables follows the guarded load. *)
Lemma after_load_writes_h2o a (model_id : option string) :
  missing_values a = false ->
  is_h2o a = true ->
  input_dtypes_list_of (input_data a) <> [] ->
  writes (impute_stage a ;; predict_stage a ;; ret model_id) (inr model_id)
    (h2o_block (predict_method a) (input_var_list_of (input_data a))
       (input_dtypes_list_of (input_data a))) [].
Proof.
  intros Hm Hh Hne. apply writes_at. intros w.
  unfold impute_stage, predict_stage. rewrite Hm, Hh. rewrite bind_ret.
  destruct (input_dtypes_list_of (input_data a)) as [|d l]; [now destruct Hne |].
  now rewrite (bind_ok _ _ _ _ _ (_predict_method_h2o _ _ _ _ _ _)).
Qed.

(** X23. Under SAS Viya 3.5 the load block of an H2O model reads from
    the directory of the model, [/models/resources/viya/<model id>]. For
    a MOJO model it opens the file named by the pickle_type argument
    with gzip, unpacks it to [Path(pickle_type).with_suffix('.zip')] and
    imports the model from there; for a binary model it loads the file
    named by the pickle_type argument. The model_file_name argument is
    not used. The line under the NameError handler ends without a
    newline: without imputation the prediction block, which starts with
    four blanks and the assignment of the input frame, follows its
    closing bracket directly. *)
Theorem viya35_h2o_load_reads_the_model_directory (a : arguments) (w wb : world)
  (model_id name : string) :
  forallb isidentifier (input_var_list_of (input_data a)) = true ->
  model_id_stage env a w = (inr (Some model_id), wb) ->
  model_id <> "" ->
  truthy_obj (kw_binary_string (kwargs a)) = false ->
  pickle_type a = Some name ->
  let prediction :=
    h2o_block (predict_method a) (input_var_list_of (input_data a))
      (input_dtypes_list_of (input_data a)) in
  (kw_mojo_model (kwargs a) = true ->
   forall zip, with_suffix_zip name = Some zip ->
   (exists rest,
      score_code (snd (write_score_code env a w))
      = score_code w ++ imports_text env a ++
        viya35_mojo_load model_id name zip ++
        header_text a ++ name_error_guard ++
        pad 8 ++ "model = h2o.import_mojo(model_path / " ++ dq ++ zip ++ dq ++ ")" ++
        rest)
   /\ (missing_values a = false ->
       input_dtypes_list_of (input_data a) <> [] ->
       exists rest,
         score_code (snd (write_score_code env a w))
         = score_code w ++ imports_text env a ++
           viya35_mojo_load model_id name zip ++
           header_text a ++ name_error_guard ++
           pad 8 ++ "model = h2o.import_mojo(model_path / " ++ dq ++ zip ++ dq ++ ")" ++
           prediction ++ rest))
  /\ (kw_mojo_model (kwargs a) = false ->
      kw_binary_h2o_model (kwargs a) = true ->
      (exists rest,
         score_code (snd (write_score_code env a w))
         = score_code w ++ imports_text env a ++
           viya35_h2o_call model_id name ++ nl ++ nl ++
           header_text a ++ name_error_guard ++
           pad 8 ++ viya35_h2o_call model_id name ++
           rest)
      /\ (missing_values a = false ->
          input_dtypes_list_of (input_data a) <> [] ->
          exists rest,
            score_code (snd (write_score_code env a w))
            = score_code w ++ imports_text env a ++
              viya35_h2o_call model_id name ++ nl ++ nl ++
              header_text a ++ name_error_guard ++
              pad 8 ++ viya35_h2o_call model_id name ++
              prediction ++ rest))
  /\ (exists tail, prediction = pad 4 ++ "input_array = pd.DataFrame([[" ++ tail).
Proof.
  intros Hid H1 Hne Hb Hp prediction. subst prediction.
  apply model_id_stage_result in H1.
  split; [| split].
  - intros Hm zip Hz.
    assert (H2 : writes (model_load_stage a (Some model_id))
                   (inr (Some (viya35_mojo_guard zip)))
                   (viya35_mojo_load model_id name zip) []).
    { apply writes_at. intros w0. rewrite (model_load_stage_viya35 a _ Hne Hb).
      rewrite Hm, Hp.
      now rewrite (bind_ok _ _ _ _ _ (_viya35_model_load_mojo _ _ _ _ _ _ Hz)). }
    split.
    + destruct (write_score_code_through_load env a _ _ _ _ w Hid H1 H2)
        as (rest & E).
      exists rest. rewrite E. unfold guard_text, viya35_mojo_guard, name_error_guard.
      cbn [truthy_opt str_opt].
      repeat (progress simpl || rewrite append_assoc). reflexivity.
    + intros Hmv Hd.
      assert (Hh : is_h2o a = true) by (unfold is_h2o; now rewrite Hm).
      pose proof (before_metrics_writes env a _ _ _ _ _ _ _ Hid H1 H2
                    (after_load_writes_h2o a (Some model_id) Hmv Hh Hd) w) as E.
      destruct (write_score_code_extends_any env a w) as (t & ->).
      rewrite E. cbn [snd effect score_code]. exists t.
      unfold guard_text, viya35_mojo_guard, name_error_guard.
      cbn [truthy_opt str_opt].
      repeat (progress simpl || rewrite append_assoc). reflexivity.
  - intros Hm Hh2.
    assert (H2 : writes (model_load_stage a (Some model_id))
                   (inr (Some (pad 8 ++ viya35_h2o_call model_id name)))
                   (viya35_h2o_call model_id name ++ nl ++ nl) []).
    { apply writes_at. intros w0. rewrite (model_load_stage_viya35 a _ Hne Hb).
      rewrite Hm, Hh2, Hp.
      now rewrite (bind_ok _ _ _ _ _ (_viya35_model_load_h2o _ _ _ _)). }
    split.
    + destruct (write_score_code_through_load env a _ _ _ _ w Hid H1 H2)
        as (rest & E).
      exists rest. rewrite E. unfold guard_text, name_error_guard.
      cbn [truthy_opt str_opt].
      repeat (progress simpl || rewrite append_assoc). reflexivity.
    + intros Hmv Hd.
      assert (Hh : is_h2o a = true)
        by (unfold is_h2o; rewrite Hh2; apply orb_true_r).
      pose proof (before_metrics_writes env a _ _ _ _ _ _ _ Hid H1 H2
                    (after_load_writes_h2o a (Some model_id) Hmv Hh Hd) w) as E.
      destruct (write_score_code_extends_any env a w) as (t & ->).
      rewrite E. cbn [snd effect score_code]. exists t.
      unfold guard_text, name_error_guard.
      cbn [truthy_opt str_opt].
      repeat (progress simpl || rewrite append_assoc). reflexivity.
  - apply h2o_block_start.
Qed.

End H2OViya35.

Lemma viya35_h2o_load_reads_the_model_directory_witness :
  (forallb (isidentifier (Runtime := AsciiRuntime.runtime))
     (input_var_list_of (input_data MoreSamples.registered_mojo_call)) = true
   /\ model_id_stage Sample.viya35 MoreSamples.registered_mojo_call initial_world
      = (inr (Some "f3a1"), initial_world)
   /\ "f3a1" <> ""
   /\ truthy_obj (kw_binary_string (kwargs MoreSamples.registered_mojo_call)) = false
   /\ pickle_type MoreSamples.registered_mojo_call = Some "pickle")
  /\ exists rest,
       score_code (snd (write_score_code (rt := AsciiRuntime.runtime) Sample.viya35
                          MoreSamples.registered_mojo_call initial_world))
       = score_code initial_world ++
         imports_text Sample.viya35 MoreSamples.registered_mojo_call ++
         viya35_mojo_load "f3a1" "pickle" "pickle.zip" ++
         header_text MoreSamples.registered_mojo_call ++ name_error_guard ++
         pad 8 ++ "model = h2o.import_mojo(model_path / " ++ dq ++ "pickle.zip" ++
         dq ++ ")" ++ rest.
Proof.
  assert (Hne : "f3a1" <> "") by discriminate.
  split; [repeat split; exact Hne |].
  exact (proj1 (proj1 (viya35_h2o_load_reads_the_model_directory
                         (rt := AsciiRuntime.runtime) Sample.viya35
                         MoreSamples.registered_mojo_call initial_world
                         initial_world
                         "f3a1" "pickle" eq_refl eq_refl Hne eq_refl eq_refl)
                  eq_refl "pickle.zip" eq_refl)).
Defined.
